(** * GZIP header cleaner (gz_header_cleaner.py): model and properties

    A shallow embedding of [src/gz_header_cleaner.py].  Python integers are
    [Z], file offsets are [nat], byte strings are [list byte], open files are
    records with a cursor, exceptions are an outcome of every effectful
    operation, the file system is a finite map from paths to contents. *)

From Stdlib Require Import ZArith Lia.
From Stdlib Require Import Strings.Byte Strings.Ascii.
From stdpp Require Import base option list gmap strings sorting.

Local Open Scope Z_scope.
Local Open Scope nat_scope.

(** ** Exceptions and outcomes *)

(** The Python exceptions the module can raise.  [ValueError] carries the
    message of the [raise] statement. *)
Inductive exn : Type :=
  | ValueError (msg : string)
  | IndexError
  | TypeError
  | StructError
  | FileNotFoundError
  | IsADirectoryError
  | OSError.

(** An effectful computation over a state [S] either returns a value, raises
    (the side effects made so far remain in the state), or exhausts the fuel
    of one of the [while True] loops. *)
Inductive outcome (S A : Type) : Type :=
  | Ok (a : A) (s : S)
  | Raise (e : exn) (s : S)
  | Timeout.
Arguments Ok {S A} a s.
Arguments Raise {S A} e s.
Arguments Timeout {S A}.

Definition io (S A : Type) : Type := S → outcome S A.

Global Instance io_mret {S} : MRet (io S) := λ A a s, Ok a s.
Global Instance io_bind {S} : MBind (io S) := λ A B k m s,
  match m s with
  | Ok a s' => k a s'
  | Raise e s' => Raise e s'
  | Timeout => Timeout
  end.
Definition raise {S A} (e : exn) : io S A := λ s, Raise e s.

(** A pure computation that may raise. *)
Inductive result (A : Type) : Type :=
  | Val (a : A)
  | Exn (e : exn).
Arguments Val {A} a.
Arguments Exn {A} e.

Definition lift {S A} (r : result A) : io S A :=
  λ s, match r with Val a => Ok a s | Exn e => Raise e s end.

(** ** Bytes *)

Global Instance byte_eq_dec : EqDecision byte := Byte.byte_eq_dec.

Definition byte_val (b : byte) : Z := Z.of_N (Byte.to_N b).

(** [b[i]] on a bytes object: an int, or IndexError out of range. *)
Definition getitem (b : list byte) (i : nat) : result Z :=
  match b !! i with
  | Some x => Val (byte_val x)
  | None => Exn IndexError
  end.

(** [b[i:j]]: slices clamp to the length of the object. *)
Definition slice (b : list byte) (i j : nat) : list byte :=
  take (j - i) (drop i b).

(** Little-endian value of a byte string. *)
Fixpoint le_value (b : list byte) : Z :=
  match b with
  | [] => 0%Z
  | x :: b' => (byte_val x + 256 * le_value b')%Z
  end.

(** [struct.unpack("<I", b)[0]] and [struct.unpack("<H", b)[0]]: the buffer
    must have exactly the size of the format. *)
Definition unpack_le (size : nat) (b : list byte) : result Z :=
  if decide (length b = size) then Val (le_value b) else Exn StructError.

(** [bytearray] item assignment [a[i] = v]: [v] must be in [range(256)]
    (ValueError otherwise) and [i] in range (IndexError otherwise). *)
Definition setitem (a : list byte) (i : nat) (v : Z) : result (list byte) :=
  if decide (0 ≤ v < 256)%Z then
    match Byte.of_N (Z.to_N v) with
    | Some x => if decide (i < length a) then Val (<[i:=x]> a)
                else Exn IndexError
    | None => Exn (ValueError "byte must be in range(0, 256)")
    end
  else Exn (ValueError "byte must be in range(0, 256)").

(** Slice assignment [a[i:j] = v] on a bytearray. *)
Definition setslice (a : list byte) (i j : nat) (v : list byte) : list byte :=
  take i a ++ v ++ drop (max i j) a.

(** Truth value of a Python int. *)
Definition truthy (z : Z) : bool := negb (z =? 0)%Z.

(** ** GZIP flags (module constants) *)

Definition FHCRC : Z := 0x02.
Definition FEXTRA : Z := 0x04.
Definition FNAME : Z := 0x08.
Definition FCOMMENT : Z := 0x10.

(** ** Binary files opened for reading *)

Record rfile : Type := RFile { content : list byte; pos : nat }.

Definition open_rb (data : list byte) : rfile := RFile data 0.

Definition tell : io rfile nat := λ f, Ok (pos f) f.

(** [f.read(n)]: at most [n] bytes from the cursor, fewer at end of file. *)
Definition read (n : nat) : io rfile (list byte) :=
  λ f, let chunk := take n (drop (pos f) (content f)) in
       Ok chunk (RFile (content f) (pos f + length chunk)).

(** [f.seek(n, os.SEEK_CUR)]: moving beyond the end of the file is allowed. *)
Definition seek_cur (n : nat) : io rfile unit :=
  λ f, Ok tt (RFile (content f) (pos f + n)).

(** [f.seek(n)] / [f.seek(n, os.SEEK_SET)]. *)
Definition seek_set (n : nat) : io rfile unit :=
  λ f, Ok tt (RFile (content f) n).

(** ** parse_gzip_header *)

Record offsets : Type := Offsets {
  start : nat;
  after_fixed : nat;
  extra_len_off : option nat;
  extra_end : option nat;
  fname_start : option nat;
  fname_end : option nat;
  fcomment_start : option nat;
  fcomment_end : option nat;
  fhcrc_off : option nat;
  payload_start : nat
}.

(** The tuple [(h, flg, mtime, {...})] returned by the parser. *)
Record meta : Type := Meta {
  m_h : list byte;
  m_flg : Z;
  m_mtime : Z;
  m_off : offsets
}.

(** The loop
    [while True: b = f.read(1); if not b: raise ...; idx += 1;
                 if b == b"\x00": end = idx; break]
    returning the final [idx]. *)
Fixpoint scan_cstring (fuel : nat) (msg : string) (idx : nat) : io rfile nat :=
  match fuel with
  | O => λ _, Timeout
  | S fuel' =>
      b ← read 1 ;
      if decide (b = []) then raise (ValueError msg)
      else if decide (b = [x00]) then mret (idx + 1)
      else scan_cstring fuel' msg (idx + 1)
  end.

(** Bytes left between the cursor and the end of the file; one more than
    this many iterations always suffices for the scanning loops. *)
Definition remaining (f : rfile) : nat := length (content f) - pos f.

Definition scan_field (msg : string) (idx : nat) : io rfile nat :=
  λ f, scan_cstring (S (remaining f)) msg idx f.

Definition parse_gzip_header : io rfile meta :=
  start ← tell ;
  h ← read 10 ;
  bad ← (if decide (length h < 10) then mret true
         else if decide (slice h 0 2 ≠ [x1f; x8b]) then mret true
         else cm ← lift (getitem h 2) ; mret (negb (cm =? 0x08)%Z)) ;
  if bad : bool then raise (ValueError "Not a gzip member") else
  flg ← lift (getitem h 3) ;
  mtime ← lift (unpack_le 4 (slice h 4 8)) ;
  let idx := start + 10 in
  (* FEXTRA *)
  '(extra_len_off, extra_end, idx) ←
    (if truthy (Z.land flg FEXTRA) then
       let extra_len_off := idx in
       raw ← read 2 ;
       let idx := idx + 2 in
       if decide (length raw < 2) then
         raise (ValueError "Truncated EXTRA length")
       else
         xlen ← lift (unpack_le 2 raw) ;
         seek_cur (Z.to_nat xlen) ;;
         let idx := idx + Z.to_nat xlen in
         mret (Some extra_len_off, Some idx, idx)
     else mret (None, None, idx)) ;
  (* FNAME (C-String) *)
  '(fname_start, fname_end, idx) ←
    (if truthy (Z.land flg FNAME) then
       e ← scan_field "Truncated FNAME" idx ;
       mret (Some idx, Some e, e)
     else mret (None, None, idx)) ;
  (* FCOMMENT (C-String) *)
  '(fcomment_start, fcomment_end, idx) ←
    (if truthy (Z.land flg FCOMMENT) then
       e ← scan_field "Truncated FCOMMENT" idx ;
       mret (Some idx, Some e, e)
     else mret (None, None, idx)) ;
  (* FHCRC (2 Bytes) *)
  '(fhcrc_off, idx) ←
    (if truthy (Z.land flg FHCRC) then
       seek_cur 2 ;; mret (Some idx, idx + 2)
     else mret (None, idx)) ;
  let payload_start := idx in
  mret (Meta h flg mtime
         (Offsets start (start + 10) extra_len_off extra_end
                  fname_start fname_end fcomment_start fcomment_end
                  fhcrc_off payload_start)).

(** Test vectors. *)
Definition sample_named : list byte :=
  [x1f; x8b; x08; x08; x12; x34; x56; x78; x00; x03;
   x64; x61; x74; x61; x2e; x6e; x69; x69; x00;
   xd1; xd2; xd3; xc1; xc2; xc3; xc4; x01; x02; x03; x04].

(** ** Binary files opened for writing *)

(** [wlimit] is the largest size the file system lets the file grow to
    ([None]: no limit).  A [write] that would exceed it stores the bytes that
    still fit and raises OSError.  Writes are modelled unbuffered; with
    Python's buffering the same bytes reach the file and the same exception
    is raised when the buffer is flushed, at the latest on leaving the
    [with] block. *)
Record wfile : Type := WFile { written : list byte; wlimit : option nat }.

Definition open_wb (limit : option nat) : wfile := WFile [] limit.

Definition fits (limit : option nat) (n : nat) : bool :=
  match limit with
  | None => true
  | Some l => bool_decide (n ≤ l)
  end.

(** The bytes of [chunk] that still fit into a file of [n] bytes. *)
Definition fitting (limit : option nat) (n : nat) (chunk : list byte)
    : list byte :=
  match limit with
  | None => chunk
  | Some l => take (l - n) chunk
  end.

Definition write (chunk : list byte) : io wfile unit :=
  λ o, if fits (wlimit o) (length (written o) + length chunk)
       then Ok tt (WFile (written o ++ chunk) (wlimit o))
       else Raise OSError
              (WFile (written o ++
                      fitting (wlimit o) (length (written o)) chunk)
                     (wlimit o)).

(** [f.read(n)] on a buffered reader with a Python int: [-1] reads up to
    the end, a smaller size is a ValueError. *)
Definition read_int (n : Z) : io rfile (list byte) :=
  λ f, if (n =? -1)%Z then read (remaining f) f
       else if (n <? 0)%Z
            then Raise (ValueError "read length must be non-negative or -1") f
            else read (Z.to_nat n) f.

(** The two open files [rewrite_header_only] works on. *)
Record handles : Type := Handles { inf : rfile; outf : wfile }.

Definition on_inf {A} (m : io rfile A) : io handles A :=
  λ h, match m (inf h) with
       | Ok a f => Ok a (Handles f (outf h))
       | Raise e f => Raise e (Handles f (outf h))
       | Timeout => Timeout
       end.

Definition on_outf {A} (m : io wfile A) : io handles A :=
  λ h, match m (outf h) with
       | Ok a o => Ok a (Handles (inf h) o)
       | Raise e o => Raise e (Handles (inf h) o)
       | Timeout => Timeout
       end.

(** An offset looked up in [off] and used as an int: [None] is a TypeError. *)
Definition as_int (o : option nat) : result nat :=
  match o with
  | Some n => Val n
  | None => Exn TypeError
  end.

(** ** rewrite_header_only *)

Definition BUF : nat := 1024 * 1024.

(** [while True: chunk = inf.read(BUF); if not chunk: break;
    outf.write(chunk)] *)
Fixpoint copy_rest (fuel : nat) : io handles unit :=
  match fuel with
  | O => λ _, Timeout
  | S fuel' =>
      chunk ← on_inf (read BUF) ;
      if decide (chunk = []) then mret tt
      else on_outf (write chunk) ;; copy_rest fuel'
  end.

(** The loop run from the current cursor: it reads at least one byte per
    iteration until the end, so one more than the remaining bytes bounds it. *)
Definition copy_to_end : io handles unit :=
  λ h, copy_rest (S (remaining (inf h))) h.

Definition rewrite_header_only (m : meta) : io handles unit :=
  let first10 := m_h m in
  let flg := m_flg m in
  let off := m_off m in
  (* Adjust flags: remove FNAME and FHCRC *)
  let new_flg := Z.land flg (Z.lnot FNAME) in
  let drop_fhcrc := truthy (Z.land flg FHCRC) in
  let new_flg :=
    if drop_fhcrc then Z.land new_flg (Z.lnot FHCRC) else new_flg in
  (* Rebuild fixed 10-byte header with mtime=0 and new flags *)
  new_fixed ← lift (setitem first10 3 new_flg) ;
  let new_fixed := setslice new_fixed 4 8 [x00; x00; x00; x00] in
  on_outf (write new_fixed) ;;
  (* 1) FEXTRA (if present): copy unchanged *)
  (if truthy (Z.land flg FEXTRA) then
     s ← lift (as_int (extra_len_off off)) ;
     on_inf (seek_set s) ;;
     e ← lift (as_int (extra_end off)) ;
     chunk ← on_inf (read_int (Z.of_nat e - Z.of_nat s)) ;
     on_outf (write chunk)
   else mret tt) ;;
  (* 2) FCOMMENT (if present): copy unchanged *)
  (if truthy (Z.land flg FCOMMENT) then
     s ← lift (as_int (fcomment_start off)) ;
     on_inf (seek_set s) ;;
     e ← lift (as_int (fcomment_end off)) ;
     chunk ← on_inf (read_int (Z.of_nat e - Z.of_nat s)) ;
     on_outf (write chunk)
   else mret tt) ;;
  (* 3) Skip FHCRC if dropping it *)
  let payload_from :=
    match drop_fhcrc, fhcrc_off off with
    | true, Some c => c + 2
    | _, _ => payload_start off
    end in
  (* Copy rest of file *)
  on_inf (seek_set payload_from) ;;
  copy_to_end.

(** The rewrite of a whole file's bytes, as [clean_file] runs it: parse from
    the start, then rewrite from the same open file into a fresh output. *)
Definition rewritten (limit : option nat) (data : list byte)
    : outcome handles unit :=
  match parse_gzip_header (open_rb data) with
  | Ok m f => rewrite_header_only m (Handles f (open_wb limit))
  | Raise e f => Raise e (Handles f (open_wb limit))
  | Timeout => Timeout
  end.

(** ** Paths *)

(** A [pathlib.Path] is modelled by its parts. *)
Abbreviation path := (list string).

(** [p.name]: the final component. *)
Definition name (p : path) : string := default "" (last p).

(** [fnmatch(p.name, "*.gz")], the test [rglob("*.gz")] applies to every
    entry of the walk: the name ends with ".gz" (case-sensitive). *)
Definition matches_gz (p : path) : bool :=
  match reverse (String.list_ascii_of_string (name p)) with
  | "z" :: "g" :: "." :: _ => true
  | _ => false
  end%char.

(** [p.with_suffix(p.suffix + ".tmp")]: [with_suffix] replaces the suffix of
    the name by its argument, and the argument starts with that very suffix,
    so the name gets ".tmp" appended. *)
Definition with_tmp_suffix (p : path) : path :=
  take (length p - 1) p ++ [name p +:+ ".tmp"].

(** Paths compare by their parts, as lists of strings: the first differing
    part decides, a proper prefix is smaller. *)
Fixpoint path_leb (p q : path) : bool :=
  match p, q with
  | [], _ => true
  | _ :: _, [] => false
  | a :: p', b :: q' =>
      if decide (a = b) then path_leb p' q' else String.leb a b
  end.

Definition path_le (p q : path) : Prop := path_leb p q.

Global Instance path_le_dec : RelDecision path_le.
Proof. intros p q. unfold path_le. apply _. Defined.

(** [sorted(targets)]: for a total order the result does not depend on the
    sorting algorithm; a stable merge sort stands for Python's. *)
Definition sorted (ps : list path) : list path := merge_sort path_le ps.

(** ** The file system and the console *)

Inductive issue : Type :=
  | IssueMtime (mtime : Z)
  | IssueFilename
  | IssueCrc.

(** The lines the program prints, one constructor per [print] call. *)
Inductive line : Type :=
  | NoGzFound
  | FoundFiles (n : nat)
  | ErrorChecking (name : string) (e : exn)
  | WouldClean (name : string) (issues : list issue)
  | Cleaned (name : string) (issues : list issue)
  | ErrorCleaning (name : string) (e : exn)
  | DryRunComplete (total changed errors : nat)
  | CleaningComplete (changed total : nat)
  | AllClean (total : nat)
  | HadErrors (errors : nat)
  | FatalError (e : exn).

(** [files] are the regular files with their contents: what exists in the
    file system, and what the operations below create, change and remove.
    [tree] records which paths are directories, and for each the entries a
    recursive walk of it yields, in the file system's enumeration order, as
    taken when the run starts: the program walks once, before it touches any
    file, and no operation updates [tree] (the ".tmp" files a run creates
    and renames show in [files] only, and the pattern never matches them).
    [fsize_limit] bounds the size of a file being written; [stdout] and
    [stderr] collect what is printed. *)
Record world : Type := World {
  files : gmap path (list byte);
  tree : gmap path (list path);
  fsize_limit : option nat;
  stdout : list line;
  stderr : list line
}.

Definition set_files (fs : gmap path (list byte)) (w : world) : world :=
  World fs (tree w) (fsize_limit w) (stdout w) (stderr w).

(** [print(...)]: standard output is taken to accept every line.  (On a
    stream that cannot encode a line the program's [print] raises, which the
    model leaves out.) *)
Definition print (l : line) : io world unit :=
  λ w, Ok tt (World (files w) (tree w) (fsize_limit w) (stdout w ++ [l])
                (stderr w)).

(** [print(..., file=sys.stderr)] *)
Definition print_err (l : line) : io world unit :=
  λ w, Ok tt (World (files w) (tree w) (fsize_limit w) (stdout w)
                (stderr w ++ [l])).

(** [open(p, "rb")] *)
Definition open_read (p : path) : io world rfile :=
  λ w, if decide (is_Some (tree w !! p)) then Raise IsADirectoryError w
       else match files w !! p with
            | Some data => Ok (open_rb data) w
            | None => Raise FileNotFoundError w
            end.

(** [open(p, "wb")]: creates the file or truncates it. *)
Definition open_write (p : path) : io world wfile :=
  λ w, if decide (is_Some (tree w !! p)) then Raise IsADirectoryError w
       else Ok (open_wb (fsize_limit w)) (set_files (<[p:=[]]> (files w)) w).

(** [os.replace(src, dst)] *)
Definition os_replace (src dst : path) : io world unit :=
  λ w, match files w !! src with
       | None => Raise FileNotFoundError w
       | Some data =>
           if decide (is_Some (tree w !! dst)) then Raise IsADirectoryError w
           else Ok tt (set_files (<[dst:=data]> (delete src (files w))) w)
       end.

(** [p.exists()] *)
Definition path_exists (p : path) (w : world) : bool :=
  bool_decide (is_Some (files w !! p)) || bool_decide (is_Some (tree w !! p)).

(** [list(root.rglob("*.gz"))] *)
Definition rglob_gz (root : path) (w : world) : list path :=
  filter (λ p, matches_gz p = true) (default [] (tree w !! root)).

(** [try: body except Exception as e: handler(e)] *)
Definition try_except {S A} (body : io S A) (handler : exn → io S A)
    : io S A :=
  λ s, match body s with
       | Ok a s' => Ok a s'
       | Raise e s' => handler e s'
       | Timeout => Timeout
       end.

(** A computation on an open file run inside a [with] block of the world:
    the handle is dropped at the end, the world is not touched. *)
Definition reading {A} (f : rfile) (m : io rfile A) : io world (A * rfile) :=
  λ w, match m f with
       | Ok a f' => Ok (a, f') w
       | Raise e _ => Raise e w
       | Timeout => Timeout
       end.

(** ** needs_cleaning *)

Definition needs_cleaning (p : path) : io world (bool * bool * bool * Z * Z) :=
  f ← open_read p ;
  '(m, _) ← reading f parse_gzip_header ;
  let need_mtime := negb (m_mtime m =? 0)%Z in
  let need_fname := truthy (Z.land (m_flg m) FNAME) in
  let need_fhcrc := truthy (Z.land (m_flg m) FHCRC) in
  mret (need_mtime, need_fname, need_fhcrc, m_flg m, m_mtime m).

(** ** clean_file *)

(** Leaving the block [with open(tmp, "wb") as outf: ...]: whatever was
    written is in [tmp], whether the block ends normally or by an exception. *)
Definition close_into (tmp : path) (r : outcome handles unit) : io world unit :=
  λ w, match r with
       | Ok _ h => Ok tt (set_files (<[tmp:=written (outf h)]> (files w)) w)
       | Raise e h => Raise e (set_files (<[tmp:=written (outf h)]> (files w)) w)
       | Timeout => Timeout
       end.

(** [with open(tmp, "wb") as outf: rewrite_header_only(inf, outf, meta)] *)
Definition rewrite_into (tmp : path) (inf : rfile) (m : meta) : io world unit :=
  out ← open_write tmp ;
  close_into tmp (rewrite_header_only m (Handles inf out)).

Definition clean_file (p : path) : io world unit :=
  inf ← open_read p ;
  '(m, inf) ← reading inf parse_gzip_header ;
  let tmp := with_tmp_suffix p in
  rewrite_into tmp inf m ;;
  os_replace tmp p.

(** ** clean_gzip_headers *)

Record tally : Type := Tally { total : nat; changed : nat; errors : nat }.

Definition when (b : bool) (m : io world unit) : io world unit :=
  if b then m else mret tt.

Definition issues_of (need_mtime need_fname need_fhcrc : bool) (mtime : Z)
    : list issue :=
  (if need_mtime then [IssueMtime mtime] else []) ++
  (if need_fname then [IssueFilename] else []) ++
  (if need_fhcrc then [IssueCrc] else []).

(** The body of [for p in sorted(targets)]. *)
Definition visit (dry_run verbose : bool) (p : path) (t : tally)
    : io world tally :=
  let t := Tally (total t + 1) (changed t) (errors t) in
  try_except
    (r ← needs_cleaning p ; mret (Some r))
    (λ e, when verbose (print (ErrorChecking (name p) e)) ;; mret None)
  ≫= λ r,
  match r with
  | None => mret (Tally (total t) (changed t) (errors t + 1))
  | Some (need_mtime, need_fname, need_fhcrc, flg, mtime) =>
      if need_mtime || need_fname then
        let issues := issues_of need_mtime need_fname need_fhcrc mtime in
        if dry_run then
          when verbose (print (WouldClean (name p) issues)) ;; mret t
        else
          try_except
            (clean_file p ;;
             when verbose (print (Cleaned (name p) issues)) ;;
             mret (Tally (total t) (changed t + 1) (errors t)))
            (λ e, when verbose (print (ErrorCleaning (name p) e)) ;;
                  mret (Tally (total t) (changed t) (errors t + 1)))
      else mret t
  end.

Fixpoint visit_all (dry_run verbose : bool) (ps : list path) (t : tally)
    : io world tally :=
  match ps with
  | [] => mret t
  | p :: ps' => t' ← visit dry_run verbose p t ; visit_all dry_run verbose ps' t'
  end.

Definition clean_gzip_headers (directory : path) (dry_run verbose : bool)
    : io world (nat * nat * nat) :=
  λ w,
  if negb (path_exists directory w) then Raise FileNotFoundError w else
  let targets := rglob_gz directory w in
  if decide (targets = []) then
    (when verbose (print NoGzFound) ;; mret (0, 0, 0)) w
  else
    (when verbose (print (FoundFiles (length targets))) ;;
     t ← visit_all dry_run verbose (sorted targets) (Tally 0 0 0) ;
     mret (total t, changed t, errors t)) w.

(** ** main *)

Record args : Type := Args {
  directory : path;
  dry_run : bool;
  verbose : bool;
  quiet : bool
}.

(** Returns the exit status. *)
Definition main (a : args) : io world nat :=
  let verbose := verbose a && negb (quiet a) in
  try_except
    ('(total, changed, errors) ←
       clean_gzip_headers (directory a) (dry_run a) verbose ;
     when (negb (quiet a))
       ((if dry_run a then print (DryRunComplete total changed errors)
         else if decide (0 < changed) then print (CleaningComplete changed total)
         else print (AllClean total)) ;;
        when (bool_decide (0 < errors)) (print (HadErrors errors))) ;;
     mret 0)
    (λ e, print_err (FatalError e) ;; mret 1).

(** * Specification

    ** The header layout, as a function on byte lists

    [header_model] follows the format's description: the fixed ten bytes,
    then the optional fields the flag byte announces, in the order FEXTRA,
    FNAME, FCOMMENT, FHCRC.  It has no cursor and no loop; [parse_refines]
    compares the parser with it. *)

Global Instance result_ret : MRet result := λ A a, Val a.
Global Instance result_bind : MBind result := λ A B k r,
  match r with
  | Val a => k a
  | Exn e => Exn e
  end.

(** Offset just past the first NUL byte at or after [from]. *)
Definition find_nul (data : list byte) (from : nat) : option nat :=
  match list_find (λ b, b = x00) (drop from data) with
  | Some (i, _) => Some (from + S i)
  | None => None
  end.

Definition cstring_model (msg : string) (present : bool) (data : list byte)
    (idx : nat) : result (option nat * option nat * nat) :=
  if present then
    match find_nul data idx with
    | Some e => Val (Some idx, Some e, e)
    | None => Exn (ValueError msg)
    end
  else Val (None, None, idx).

Definition header_model (data : list byte) : result meta :=
  if decide (length data < 10) then Exn (ValueError "Not a gzip member") else
  if decide (slice data 0 2 ≠ [x1f; x8b]) then
    Exn (ValueError "Not a gzip member") else
  cm ← getitem data 2 ;
  if negb (cm =? 0x08)%Z then Exn (ValueError "Not a gzip member") else
  flg ← getitem data 3 ;
  let mtime := le_value (slice data 4 8) in
  '(extra_len_off, extra_end, idx) ←
    (if truthy (Z.land flg FEXTRA) then
       if decide (length (slice data 10 12) < 2) then
         Exn (ValueError "Truncated EXTRA length")
       else
         let e := 12 + Z.to_nat (le_value (slice data 10 12)) in
         Val (Some 10, Some e, e)
     else Val (None, None, 10)) ;
  '(fname_start, fname_end, idx) ←
    cstring_model "Truncated FNAME" (truthy (Z.land flg FNAME)) data idx ;
  '(fcomment_start, fcomment_end, idx) ←
    cstring_model "Truncated FCOMMENT" (truthy (Z.land flg FCOMMENT)) data idx ;
  let '(fhcrc_off, idx) :=
    if truthy (Z.land flg FHCRC) then (Some idx, idx + 2) else (None, idx) in
  Val (Meta (take 10 data) flg mtime
         (Offsets 0 10 extra_len_off extra_end fname_start fname_end
                  fcomment_start fcomment_end fhcrc_off idx)).

(** The parser's outcome on a freshly opened file agrees with a result of
    the model: same value and the cursor at [payload_start], or the same
    exception. *)
Definition agrees (data : list byte) (o : outcome rfile meta)
    (r : result meta) : Prop :=
  match o, r with
  | Ok m f, Val m' => m = m' ∧ f = RFile data (payload_start (m_off m))
  | Raise e f, Exn e' => e = e' ∧ content f = data
  | _, _ => False
  end.

(** ** What a successful parse says about the bytes *)

Definition flag (m : meta) (bit : Z) : bool := truthy (Z.land (m_flg m) bit).

(** [layout data m e1 e2 e3]: [m] describes [data], the optional fields
    ending at [e1] (FEXTRA), [e2] (FNAME) and [e3] (FCOMMENT). *)
Record layout (data : list byte) (m : meta) (e1 e2 e3 : nat) : Prop := Layout {
  lay_len : 10 ≤ length data;
  lay_magic : slice data 0 2 = [x1f; x8b];
  lay_cm : getitem data 2 = Val 8%Z;
  lay_h : m_h m = take 10 data;
  lay_flg : getitem data 3 = Val (m_flg m);
  lay_mtime : m_mtime m = le_value (slice data 4 8);
  lay_start : start (m_off m) = 0;
  lay_after : after_fixed (m_off m) = 10;
  lay_extra :
    if flag m FEXTRA
    then extra_len_off (m_off m) = Some 10 ∧ extra_end (m_off m) = Some e1 ∧
         12 ≤ length data ∧
         e1 = 12 + Z.to_nat (le_value (slice data 10 12))
    else extra_len_off (m_off m) = None ∧ extra_end (m_off m) = None ∧ e1 = 10;
  lay_fname :
    if flag m FNAME
    then fname_start (m_off m) = Some e1 ∧ fname_end (m_off m) = Some e2 ∧
         find_nul data e1 = Some e2
    else fname_start (m_off m) = None ∧ fname_end (m_off m) = None ∧ e2 = e1;
  lay_fcomment :
    if flag m FCOMMENT
    then fcomment_start (m_off m) = Some e2 ∧ fcomment_end (m_off m) = Some e3 ∧
         find_nul data e2 = Some e3
    else fcomment_start (m_off m) = None ∧ fcomment_end (m_off m) = None ∧
         e3 = e2;
  lay_fhcrc :
    if flag m FHCRC
    then fhcrc_off (m_off m) = Some e3 ∧ payload_start (m_off m) = e3 + 2
    else fhcrc_off (m_off m) = None ∧ payload_start (m_off m) = e3
}.

(** ** The rewritten bytes, as the format describes them *)

(** The flag byte with the FNAME and FHCRC bits cleared. *)
Definition clean_flag (b : byte) : byte :=
  default x00
    (Byte.of_N (Z.to_N (Z.land (Z.land (byte_val b) (Z.lnot FNAME))
                               (Z.lnot FHCRC)))).

(** The fixed ten bytes with the flag byte cleaned and MTIME zeroed; ID1,
    ID2, CM, XFL and OS are kept. *)
Definition cleaned_header (h : list byte) : list byte :=
  match h with
  | [id1; id2; cm; flg; _; _; _; _; xfl; os] =>
      [id1; id2; cm; clean_flag flg; x00; x00; x00; x00; xfl; os]
  | _ => h
  end.

(** The bytes of a field recorded in the offsets; empty when absent. *)
Definition span (data : list byte) (s e : option nat) : list byte :=
  match s, e with
  | Some s, Some e => slice data s e
  | _, _ => []
  end.

Definition extra_span (data : list byte) (m : meta) : list byte :=
  span data (extra_len_off (m_off m)) (extra_end (m_off m)).
Definition fname_span (data : list byte) (m : meta) : list byte :=
  span data (fname_start (m_off m)) (fname_end (m_off m)).
Definition fcomment_span (data : list byte) (m : meta) : list byte :=
  span data (fcomment_start (m_off m)) (fcomment_end (m_off m)).
Definition fhcrc_span (data : list byte) (m : meta) : list byte :=
  span data (fhcrc_off (m_off m)) ((λ c, c + 2) <$> fhcrc_off (m_off m)).
Definition payload (data : list byte) (m : meta) : list byte :=
  drop (payload_start (m_off m)) data.

(** Cleaned fixed header, FEXTRA span, FCOMMENT span, payload. *)
Definition cleaned_bytes (data : list byte) (m : meta) : list byte :=
  cleaned_header (take 10 data) ++ extra_span data m ++
  fcomment_span data m ++ payload data m.

(** ** Properties of computations

    [unlimited h] is [h] with the limit of the output lifted.  A computation
    is [limit_free] when every successful run is also a run without limit,
    and [terminates] when it cannot exhaust the fuel. *)

Definition unlimited (h : handles) : handles :=
  Handles (inf h) (WFile (written (outf h)) None).

Definition limit_free {A} (m : io handles A) : Prop :=
  ∀ h a h', m h = Ok a h' → m (unlimited h) = Ok a (unlimited h').

Definition terminates {S A} (m : io S A) : Prop := ∀ s, m s ≠ Timeout.

(** A computation [appends] when a run of it that succeeds without a limit
    only adds to the output, and the same run under a limit either does the
    same or raises OSError, leaving a prefix of that output written. *)
Definition appends {A} (m : io handles A) : Prop :=
  ∀ h a hu,
    m (unlimited h) = Ok a hu →
    wlimit (outf hu) = None ∧
    written (outf h) `prefix_of` written (outf hu) ∧
    (m h = Ok a (Handles (inf hu)
                   (WFile (written (outf hu)) (wlimit (outf h)))) ∨
     ∃ h', m h = Raise OSError h' ∧
           written (outf h') `prefix_of` written (outf hu)).

(** ** Worlds *)

(** The world after printing one line. *)
Definition say (l : line) (w : world) : world :=
  World (files w) (tree w) (fsize_limit w) (stdout w ++ [l]) (stderr w).

Definition say_if (b : bool) (l : line) (w : world) : world :=
  if b then say l w else w.

(** [w'] differs from [w] at most in the files at [p] and at its temporary
    name, and in what was printed. *)
Definition touched (p : path) (w w' : world) : Prop :=
  tree w' = tree w ∧ fsize_limit w' = fsize_limit w ∧ stderr w' = stderr w ∧
  ∀ q, q ≠ p → q ≠ with_tmp_suffix p → files w' !! q = files w !! q.

(** ** Sample datasets *)

Definition ds_root : path := ["ds"%string].
Definition ds_a : path := ["ds"; "sub-01_T1w.nii.gz"]%string.

(** One file with a nonzero MTIME and a stored name; [limit] bounds the size
    of files being written. *)
Definition ds_one (limit : option nat) : world :=
  World {[ ds_a := sample_named ]} {[ ds_root := [ds_a] ]} limit [] [].

(** ** What the predicate says of a file in a world *)

(** The check of the file fails (unreadable or malformed). *)
Definition is_bad (w : world) (p : path) : bool :=
  match needs_cleaning p w with
  | Raise _ _ => true
  | _ => false
  end.

(** The check succeeds and asks for a rewrite: [need_mtime or need_fname]. *)
Definition is_dirty (w : world) (p : path) : bool :=
  match needs_cleaning p w with
  | Ok (need_mtime, need_fname, _, _, _) _ => need_mtime || need_fname
  | _ => false
  end.

Definition count_if (f : path → bool) (ps : list path) : nat :=
  length (filter (λ p, f p = true) ps).

(** The rewrite of the file fails: no room for the output, or the
    temporary name is a directory. *)
Definition clean_fails (w : world) (p : path) : bool :=
  match clean_file p w with
  | Raise _ _ => true
  | _ => false
  end.

(** The entry adds one to [changed]: its check asks for a rewrite, and the
    rewrite succeeds. *)
Definition counts_changed (w : world) (p : path) : bool :=
  is_dirty w p && negb (clean_fails w p).

(** The entry adds one to [errors]: its check fails, or asks for a rewrite
    that fails. *)
Definition counts_error (w : world) (p : path) : bool :=
  is_bad w p || is_dirty w p && clean_fails w p.

(** ** More sample files, and a dataset of ten *)

Definition sample_clean : list byte :=
  [x1f; x8b; x08; x00; x00; x00; x00; x00; x00; x03;
   xd1; xd2; xd3; xc1; xc2; xc3; xc4; x01; x02; x03; x04].

Definition sample_mtime : list byte :=
  [x1f; x8b; x08; x00; x00; x00; x00; x01; x00; x03;
   xd1; xd2; xd3; xc1; xc2; xc3; xc4; x01; x02; x03; x04].

Definition sample_malformed : list byte := [x50; x4b; x03; x04].

Definition ds_file (n : string) : path := ["ds"; n]%string.

(** Three files need cleaning ([f1], [f4], [f7]), [f5] is not a gzip file,
    six are clean; the walk yields them in no particular order, together
    with an entry the pattern does not match. *)
Definition ds_ten : world :=
  World
    (list_to_map
       [(ds_file "f0.gz", sample_clean); (ds_file "f1.gz", sample_named);
        (ds_file "f2.gz", sample_clean); (ds_file "f3.gz", sample_clean);
        (ds_file "f4.gz", sample_mtime); (ds_file "f5.gz", sample_malformed);
        (ds_file "f6.gz", sample_clean); (ds_file "f7.gz", sample_named);
        (ds_file "f8.gz", sample_clean); (ds_file "f9.gz", sample_clean);
        (ds_file "notes.txt", sample_malformed)]%string)
    {[ ds_root :=
         [ds_file "f7.gz"; ds_file "f2.gz"; ds_file "notes.txt";
          ds_file "f9.gz"; ds_file "f0.gz"; ds_file "f5.gz";
          ds_file "f1.gz"; ds_file "f8.gz"; ds_file "f3.gz";
          ds_file "f6.gz"; ds_file "f4.gz"]%string ]}
    None [] [].

Definition sample_fhcrc : list byte :=
  [x1f; x8b; x08; x02; x00; x00; x00; x00; x00; x03; xaa; xbb;
   xd1; xd2; xd3; xc1; xc2; xc3; xc4; x01; x02; x03; x04].

(** One file with the FHCRC bit set, MTIME zero and no stored name. *)
Definition ds_fhcrc : world :=
  World {[ ds_a := sample_fhcrc ]} {[ ds_root := [ds_a] ]} None [] [].

(** ** Files that end inside an optional field *)

(** FHCRC announced, one byte left where the two-byte CRC16 should be. *)
Definition sample_truncated_crc : list byte :=
  [x1f; x8b; x08; x02; x00; x00; x00; x01; x00; x03; xaa].

(** FEXTRA announced with [xlen = 5], two bytes of extra data present. *)
Definition sample_truncated_extra : list byte :=
  [x1f; x8b; x08; x04; x00; x00; x00; x01; x00; x03; x05; x00; xaa; xbb].

(** FNAME announced, no NUL before the end. *)
Definition sample_truncated_name : list byte :=
  [x1f; x8b; x08; x08; x00; x00; x00; x01; x00; x03; x64; x61; x74; x61].

(** FCOMMENT announced, no NUL before the end. *)
Definition sample_truncated_comment : list byte :=
  [x1f; x8b; x08; x10; x00; x00; x00; x01; x00; x03; x64; x61; x74; x61].

(** FEXTRA announced, one byte left where the two-byte length should be. *)
Definition sample_truncated_xlen : list byte :=
  [x1f; x8b; x08; x04; x00; x00; x00; x01; x00; x03; x05].

Definition ds_with (data : list byte) : world :=
  World {[ ds_a := data ]} {[ ds_root := [ds_a] ]} None [] [].

(** ** The dataset of ten, with a rewrite that fails and with a file cut
    short *)

(** A file that needs cleaning, followed by a second member. *)
Definition sample_two_members : list byte := sample_mtime ++ sample_clean.

(** The ten-file dataset with [f4] twice as long and room for 21 bytes in a
    file being written: the rewrites of [f1] and [f7] fit, that of [f4] does
    not. *)
Definition ds_ten_tight : world :=
  World (<[ds_file "f4.gz":=sample_two_members]> (files ds_ten))
        (tree ds_ten) (Some 21) [] [].

(** The ten-file dataset with, in place of the file that is not a gzip
    member, one cut inside the CRC16 its header announces. *)
Definition ds_ten_cut : world :=
  World (<[ds_file "f5.gz":=sample_truncated_crc]> (files ds_ten))
        (tree ds_ten) None [] [].

(** ** What main prints *)

(** The summary line [main] prints when not quiet. *)
Definition summary_line (a : args) (t c e : nat) : line :=
  if dry_run a then DryRunComplete t c e
  else if decide (0 < c) then CleaningComplete c t
  else AllClean t.

(** ** Worlds that differ in the listings only *)

(** The same world with another table of directory listings. *)
Definition retree (tr : gmap path (list path)) (w : world) : world :=
  World (files w) tr (fsize_limit w) (stdout w) (stderr w).

Definition retree_outcome {A : Type} (tr : gmap path (list path))
    (o : outcome world A) : outcome world A :=
  match o with
  | Ok a w => Ok a (retree tr w)
  | Raise e w => Raise e (retree tr w)
  | Timeout => Timeout
  end.

(** A computation is [walk_blind] when it never changes the listings and
    depends on them only through which paths are directories. *)
Definition walk_blind {A : Type} (m : io world A) : Prop :=
  ∀ w,
    match m w with
    | Ok _ w1 | Raise _ w1 => tree w1 = tree w
    | Timeout => True
    end ∧
    ∀ tr, dom tr = dom (tree w) →
          m (retree tr w) = retree_outcome tr (m w).

(** The ten-file dataset with the walk listing the entries in another
    order. *)
Definition ds_ten_walk : gmap path (list path) :=
  {[ ds_root :=
       [ds_file "f4.gz"; ds_file "f0.gz"; ds_file "f9.gz"; ds_file "f1.gz";
        ds_file "f8.gz"; ds_file "notes.txt"; ds_file "f2.gz";
        ds_file "f7.gz"; ds_file "f3.gz"; ds_file "f6.gz";
        ds_file "f5.gz"]%string ]}.

(** ** Whole runs *)

(** The world after printing the lines [ls]. *)
Definition said (ls : list line) (w : world) : world :=
  World (files w) (tree w) (fsize_limit w) (stdout w ++ ls) (stderr w).

(** What a verbose dry run prints about one entry, from the check of the
    entry in [w]. *)
Definition dry_run_line (w : world) (p : path) : list line :=
  match needs_cleaning p w with
  | Ok (need_mtime, need_fname, need_fhcrc, _, mtime) _ =>
      if need_mtime || need_fname
      then [WouldClean (name p)
              (issues_of need_mtime need_fname need_fhcrc mtime)]
      else []
  | Raise e _ => [ErrorChecking (name p) e]
  | Timeout => []
  end.

(** The bytes at [p] are not the same in [w'] as in [w]. *)
Definition differs (w w' : world) (p : path) : bool :=
  bool_decide (files w' !! p ≠ files w !! p).

(** Two worlds with the same file system: they differ at most in what was
    printed on standard output. *)
Definition same_fs (w w' : world) : Prop :=
  files w = files w' ∧ tree w = tree w' ∧
  fsize_limit w = fsize_limit w' ∧ stderr w = stderr w'.

(** The bytes at [p] in [w] are those of [w0], or their cleaned form. *)
Definition kept_or_cleaned (w0 w : world) (p : path) : Prop :=
  files w !! p = files w0 !! p ∨
  ∃ data m, files w0 !! p = Some data ∧ header_model data = Val m ∧
            files w !! p = Some (cleaned_bytes data m).

(** What a run may have done to the entry [p] and to its temporary name,
    from [w0] to [w]: the entry holds its former bytes, and the temporary
    name is as it was or holds the start of a rewrite that failed; or the
    entry holds its cleaned bytes and the temporary name is gone. *)
Definition target_state (w0 w : world) (p : path) : Prop :=
  (files w !! p = files w0 !! p ∧
   (files w !! with_tmp_suffix p = files w0 !! with_tmp_suffix p ∨
    ∃ data m partial,
      files w0 !! p = Some data ∧ header_model data = Val m ∧
      files w !! with_tmp_suffix p = Some partial ∧
      partial `prefix_of` cleaned_bytes data m)) ∨
  (∃ data m,
     files w0 !! p = Some data ∧ header_model data = Val m ∧
     files w !! p = Some (cleaned_bytes data m) ∧
     files w !! with_tmp_suffix p = None).

(** * Properties *)

(** ** Test vectors *)

Example parse_sample_named :
  parse_gzip_header (open_rb sample_named) =
  Ok (Meta (take 10 sample_named) 8 0x78563412
        (Offsets 0 10 None None (Some 10) (Some 19) None None None 19))
     (RFile sample_named 19).
Proof. vm_compute. reflexivity. Qed.

Example rewritten_sample_named :
  rewritten None sample_named =
  Ok tt (Handles (RFile sample_named 30)
           (WFile [x1f; x8b; x08; x00; x00; x00; x00; x00; x00; x03;
                   xd1; xd2; xd3; xc1; xc2; xc3; xc4; x01; x02; x03; x04]
                  None)).
Proof. vm_compute. reflexivity. Qed.

(** ** The monad *)

Lemma bind_unfold {S A B} (m : io S A) (k : A → io S B) (s : S) :
  (m ≫= k) s =
  match m s with
  | Ok a s' => k a s'
  | Raise e s' => Raise e s'
  | Timeout => Timeout
  end.
Proof. reflexivity. Qed.

Lemma bind_not_Timeout {S A B} (m : io S A) (k : A → io S B) s :
  m s ≠ Timeout → (∀ a s', m s = Ok a s' → k a s' ≠ Timeout) →
  (m ≫= k) s ≠ Timeout.
Proof.
  intros Hm Hk. rewrite bind_unfold. destruct (m s) eqn:E; eauto.
Qed.

(** ** The scanning loop *)

Lemma scan_cstring_eq fuel msg idx c p :
  length (drop p c) < fuel →
  scan_cstring fuel msg idx (RFile c p) =
  match list_find (λ b, b = x00) (drop p c) with
  | Some (i, _) => Ok (idx + S i) (RFile c (p + S i))
  | None => Raise (ValueError msg) (RFile c (p + length (drop p c)))
  end.
Proof.
  revert idx p. induction fuel as [|fuel IH]; intros idx p Hlen; [lia|].
  cbn [scan_cstring]. rewrite bind_unfold. unfold read. cbn [content pos].
  destruct (drop p c) as [|x l] eqn:Hd.
  - cbn. reflexivity.
  - assert (Hd' : drop (p + 1) c = l).
    { rewrite <- drop_drop, Hd. reflexivity. }
    cbn [take length]. rewrite take_0.
    destruct (decide ([x] = [])) as [?|_]; [discriminate|].
    cbn [list_find]. destruct (decide ([x] = [x00])) as [Hx|Hx].
    + injection Hx as ->. rewrite decide_True by reflexivity.
      unfold mret, io_mret. cbn [length]. reflexivity.
    + rewrite decide_False by congruence.
      cbn [length]. rewrite IH by (rewrite Hd'; cbn in Hlen; lia).
      rewrite Hd'. destruct (list_find _ l) as [[i y]|]; cbn.
      * f_equal; [lia | f_equal; lia].
      * f_equal. f_equal. lia.
Qed.

Lemma scan_field_eq msg idx c p :
  scan_field msg idx (RFile c p) =
  match list_find (λ b, b = x00) (drop p c) with
  | Some (i, _) => Ok (idx + S i) (RFile c (p + S i))
  | None => Raise (ValueError msg) (RFile c (p + length (drop p c)))
  end.
Proof.
  unfold scan_field. apply scan_cstring_eq.
  unfold remaining. cbn. rewrite length_drop. lia.
Qed.

(** ** The copy loop *)

Lemma BUF_pos : 0 < BUF.
Proof. unfold BUF. lia. Qed.

Lemma drop_length_take {A} n (l : list A) :
  drop (length (take n l)) l = drop n l.
Proof.
  rewrite length_take. destruct (decide (n ≤ length l)).
  - by rewrite Nat.min_l.
  - rewrite Nat.min_r by lia. by rewrite !drop_ge by lia.
Qed.

Lemma copy_rest_unlimited fuel c p w :
  length (drop p c) < fuel →
  copy_rest fuel (Handles (RFile c p) (WFile w None)) =
  Ok tt (Handles (RFile c (p + length (drop p c))) (WFile (w ++ drop p c) None)).
Proof.
  pose proof BUF_pos as HB. revert HB. unfold copy_rest. generalize BUF as n.
  intros n Hn. revert p w.
  induction fuel as [|fuel IH]; intros p w Hlen; [lia|].
  rewrite bind_unfold. unfold on_inf at 1, read. cbn [inf outf content pos].
  destruct (decide (take n (drop p c) = [])) as [He|He].
  - rewrite He. destruct (drop p c) as [|x l] eqn:Hd.
    + cbn. rewrite app_nil_r. reflexivity.
    + destruct n; [lia|discriminate].
  - rewrite bind_unfold. unfold on_outf at 1, write.
    cbn [inf outf written wlimit fits].
    assert (0 < length (take n (drop p c))) by
      (destruct (take n (drop p c)); [done|cbn; lia]).
    rewrite IH.
    + rewrite <- drop_drop, drop_length_take, <- (assoc_L (++)), take_drop.
      do 3 f_equal. rewrite <- (take_drop n (drop p c)) at 3. rewrite length_app. lia.
    + rewrite <- drop_drop, length_drop. rewrite length_take in *. lia.
Qed.

Lemma copy_rest_total fuel c p o :
  length (drop p c) < fuel →
  copy_rest fuel (Handles (RFile c p) o) ≠ Timeout.
Proof.
  pose proof BUF_pos as HB. revert HB. unfold copy_rest. generalize BUF as n.
  intros n Hn. revert p o.
  induction fuel as [|fuel IH]; intros p o Hlen; [lia|].
  rewrite bind_unfold. unfold on_inf at 1, read. cbn [inf outf content pos].
  destruct (decide (take n (drop p c) = [])) as [He|He]; [done|].
  rewrite bind_unfold. unfold on_outf at 1, write. cbn [inf outf].
  destruct (fits _ _); [|done].
  assert (0 < length (take n (drop p c))) by
    (destruct (take n (drop p c)); [done|cbn; lia]).
  apply IH. rewrite <- drop_drop, length_drop. rewrite length_take in *. lia.
Qed.

(** ** The parser against the header layout *)

Example header_model_sample_named :
  header_model sample_named =
  Val (Meta (take 10 sample_named) 8 0x78563412
        (Offsets 0 10 None None (Some 10) (Some 19) None None None 19)).
Proof. vm_compute. reflexivity. Qed.

Lemma getitem_take b n i : i < n → getitem (take n b) i = getitem b i.
Proof. intros Hi. unfold getitem. by rewrite lookup_take_lt. Qed.

Lemma slice_take b n i j : j ≤ n → slice (take n b) i j = slice b i j.
Proof.
  intros Hj. unfold slice. destruct (decide (i ≤ n)) as [Hi|Hi].
  - replace n with (i + (n - i)) at 1 by lia.
    rewrite <- take_drop_commute, take_take. f_equal. lia.
  - replace (j - i) with 0 by lia. reflexivity.
Qed.

Lemma length_slice b i j : j ≤ length b → length (slice b i j) = j - i.
Proof. intros Hj. unfold slice. rewrite length_take, length_drop. lia. Qed.

(** One NUL-terminated field of the parser against the model, the cursor
    being at [idx]. *)
Lemma cstring_stage {B} msg (present : bool) data idx
    (k : option nat * option nat * nat → io rfile B) :
  ((if present
    then e ← scan_field msg idx ; mret (Some idx, Some e, e)
    else mret (None, None, idx)) ≫= k) (RFile data idx) =
  match cstring_model msg present data idx with
  | Val r => k r (RFile data r.2)
  | Exn e => Raise e (RFile data (idx + length (drop idx data)))
  end.
Proof.
  unfold cstring_model, find_nul. destruct present; [|reflexivity].
  rewrite !bind_unfold, scan_field_eq.
  destruct (list_find _ _) as [[i x]|]; reflexivity.
Qed.

Lemma parse_refines data :
  agrees data (parse_gzip_header (open_rb data)) (header_model data).
Proof.
  unfold parse_gzip_header, header_model, open_rb.
  rewrite bind_unfold. unfold tell at 1. cbn [pos content].
  rewrite bind_unfold. unfold read at 1. cbn [pos content].
  rewrite drop_0.
  destruct (decide (length data < 10)) as [Hlt|Hge].
  { rewrite bind_unfold.
    rewrite decide_True by (rewrite length_take; lia).
    unfold mret, io_mret, raise, agrees. cbn. done. }
  assert (Hl10 : length (take 10 data) = 10) by (rewrite length_take; lia).
  rewrite Hl10, bind_unfold. rewrite decide_False by lia.
  rewrite !getitem_take, !slice_take by lia.
  destruct (decide (slice data 0 2 ≠ _)) as [Hm|Hm]; [done|].
  unfold getitem.
  destruct (data !! 2) as [b2|] eqn:H2; [|done].
  destruct (data !! 3) as [b3|] eqn:H3;
    [|apply lookup_ge_None in H3; lia].
  rewrite bind_unfold. cbn [lift mret io_mret mbind result_bind].
  destruct (negb (byte_val b2 =? 8)%Z); [done|].
  rewrite bind_unfold. cbn [lift].
  rewrite bind_unfold.
  unfold unpack_le at 1. rewrite decide_True by (rewrite length_slice; lia).
  cbn [lift].
  set (flg := byte_val b3). change (0 + 10) with 10.
  match goal with
  | |- agrees _ ((_ ≫= ?k) _) (_ ≫= ?k') =>
      assert (Hk : ∀ xo xe idx,
        agrees data (k (xo, xe, idx) (RFile data idx)) (k' (xo, xe, idx)))
  end.
  { intros xo xe idx. cbv beta iota.
    rewrite cstring_stage.
    destruct (cstring_model _ _ data idx) as [[[ns ne] i]|e];
      cbn [mbind result_bind snd]; [|done].
    rewrite cstring_stage.
    destruct (cstring_model _ _ data i) as [[[cs ce] j]|e];
      cbn [mbind result_bind snd]; [|done].
    destruct (truthy (Z.land flg FHCRC)); done. }
  destruct (truthy (Z.land flg FEXTRA)).
  - rewrite !bind_unfold. unfold read at 1. cbn [pos content].
    change (take 2 (drop 10 data)) with (slice data 10 12).
    destruct (decide (length (slice data 10 12) < 2)) as [Ht|Ht]; [done|].
    rewrite !bind_unfold. unfold unpack_le.
    assert (Hl2 : length (slice data 10 12) = 2).
    { unfold slice in *. rewrite length_take in *. lia. }
    rewrite decide_True by done. cbn [lift seek_cur pos content].
    cbn [mbind result_bind]. rewrite Hl2.
    replace (10 + 2 + Z.to_nat (le_value (slice data 10 12)))
      with (12 + Z.to_nat (le_value (slice data 10 12))) by lia.
    apply Hk.
  - rewrite bind_unfold. cbn [mret io_mret mbind result_bind]. apply Hk.
Qed.

Lemma parse_not_Timeout data : parse_gzip_header (open_rb data) ≠ Timeout.
Proof.
  pose proof (parse_refines data) as H. intros E. rewrite E in H. exact H.
Qed.

Lemma parse_Ok data m f :
  parse_gzip_header (open_rb data) = Ok m f ↔
  header_model data = Val m ∧ f = RFile data (payload_start (m_off m)).
Proof.
  pose proof (parse_refines data) as H. unfold agrees in H. split.
  - intros E. rewrite E in H. destruct (header_model data); [|done].
    destruct H as [-> ->]. done.
  - intros [E ->]. rewrite E in H.
    destruct (parse_gzip_header _) as [m' f'| |]; [|done..].
    destruct H as [-> ->]. done.
Qed.

Lemma parse_Raise data e f :
  parse_gzip_header (open_rb data) = Raise e f → header_model data = Exn e.
Proof.
  pose proof (parse_refines data) as H. unfold agrees in H.
  intros E. rewrite E in H. destruct (header_model data); [done|].
  destruct H as [-> _]. done.
Qed.

Lemma model_Exn_parse data e :
  header_model data = Exn e →
  ∃ f, parse_gzip_header (open_rb data) = Raise e f.
Proof.
  pose proof (parse_refines data) as H. unfold agrees in H.
  intros E. rewrite E in H.
  destruct (parse_gzip_header _) as [m' f'|e' f'|]; [done| |done].
  destruct H as [-> _]. eauto.
Qed.

(** ** What a successful parse says about the bytes *)

Ltac meta_simpl :=
  cbn [m_h m_flg m_mtime m_off start after_fixed extra_len_off extra_end
       fname_start fname_end fcomment_start fcomment_end fhcrc_off
       payload_start] in *.

Lemma length_slice_lt2 data : length (slice data 10 12) < 2 ↔ length data < 12.
Proof. unfold slice. rewrite length_take, length_drop. lia. Qed.

Lemma model_layout data m :
  header_model data = Val m ↔ ∃ e1 e2 e3, layout data m e1 e2 e3.
Proof.
  unfold header_model. split.
  - intros H.
    destruct (decide (length data < 10)) as [|Hlen]; [done|].
    destruct (decide (slice data 0 2 ≠ _)) as [|Hm]; [done|].
    apply dec_stable in Hm.
    destruct (getitem data 2) as [cm|] eqn:Hcm; [|done].
    cbn [mbind result_bind] in H.
    destruct (cm =? 8)%Z eqn:Hcm8; [|done]. apply Z.eqb_eq in Hcm8 as ->.
    cbn [negb] in H.
    destruct (getitem data 3) as [flg|] eqn:Hflg; [|done].
    cbn [mbind result_bind] in H. unfold cstring_model in H.
    repeat
      (match type of H with
       | context [truthy ?x] => destruct (truthy x) eqn:?
       | context [find_nul ?d ?i] => destruct (find_nul d i) eqn:?
       | context [@decide ?P ?d] =>
           destruct (@decide P d) as [|Hx]; [|rewrite length_slice_lt2 in Hx]
       end; cbn [mbind result_bind] in H; try done);
      injection H as <-; do 3 eexists; split; unfold flag; meta_simpl;
      repeat match goal with Hf : truthy _ = _ |- _ => rewrite Hf end;
      try done; try lia; repeat split; try done; try lia.
  - intros (e1 & e2 & e3 & L). destruct L.
    destruct m as [h flg mtime [st af xo xe ns ne cs ce ko ps]].
    unfold flag in *. meta_simpl. subst.
    rewrite decide_False by lia.
    rewrite decide_False by (intros Hc; by apply Hc).
    rewrite lay_cm0. cbn [mbind result_bind Z.eqb Pos.eqb negb].
    rewrite lay_flg0. cbn [mbind result_bind]. unfold cstring_model.
    repeat
      (match goal with
       | H : context [if truthy ?x then _ else _] |- _ =>
           destruct (truthy x) eqn:?
       end; destruct_and?; subst);
      rewrite ?decide_False by (rewrite length_slice_lt2; lia);
      cbn [mbind result_bind];
      repeat (match goal with Hf : find_nul _ _ = _ |- _ =>
                rewrite Hf; clear Hf end; cbn [mbind result_bind]);
      reflexivity.
Qed.

(** ** The rebuilt fixed header and the NUL-terminated fields *)

Lemma clean_flag_val b :
  byte_val (clean_flag b) =
  Z.land (Z.land (byte_val b) (Z.lnot FNAME)) (Z.lnot FHCRC).
Proof. destruct b; reflexivity. Qed.

(** The header the rewriter builds, for both ways it computes [new_flg]. *)
Lemma rebuild_fixed h b :
  length h = 10 → h !! 3 = Some b →
  let flg := byte_val b in
  let new_flg := Z.land flg (Z.lnot FNAME) in
  let new_flg :=
    if truthy (Z.land flg FHCRC) then Z.land new_flg (Z.lnot FHCRC)
    else new_flg in
  ∃ h1, setitem h 3 new_flg = Val h1 ∧
        setslice h1 4 8 [x00; x00; x00; x00] = cleaned_header h.
Proof.
  intros Hlen Hb.
  do 11 (destruct h as [|? h]; try discriminate Hlen).
  injection Hb as ->. destruct b; vm_compute; eauto.
Qed.

Lemma find_nul_Some data s e :
  find_nul data s = Some e →
  s < e ≤ length data ∧
  ∃ body, slice data s e = body ++ [x00] ∧ x00 ∉ body.
Proof.
  unfold find_nul. destruct (list_find _ _) as [[i x]|] eqn:Hf; [|done].
  intros [= <-]. apply list_find_Some in Hf as (Hi & -> & Hmin).
  pose proof (lookup_lt_Some _ _ _ Hi) as Hlt. rewrite length_drop in Hlt.
  split; [lia|]. exists (take i (drop s data)). split.
  - unfold slice. replace (s + S i - s) with (S i) by lia.
    by apply take_S_r.
  - intros Hin. apply list_elem_of_lookup in Hin as [j Hj].
    pose proof (lookup_lt_Some _ _ _ Hj) as Hjl.
    rewrite length_take in Hjl.
    rewrite lookup_take_lt in Hj by lia. eapply Hmin; [exact Hj|lia|done].
Qed.

Lemma layout_order data m e1 e2 e3 :
  layout data m e1 e2 e3 →
  10 ≤ e1 ≤ e2 ∧ e2 ≤ e3 ≤ payload_start (m_off m).
Proof.
  intros [].
  destruct (flag m FEXTRA), (flag m FNAME), (flag m FCOMMENT), (flag m FHCRC);
    destruct_and?;
    repeat match goal with
           | H : find_nul _ _ = Some _ |- _ => apply find_nul_Some in H as [? _]
           end; lia.
Qed.

(** ** The rewriter, run on a parsed file *)

(** Copying one optional field ([seek], [read], [write]) with no size limit. *)
Lemma copy_span_stage {B} (present : bool) so eo s e c p w
    (k : unit → io handles B) :
  (present = true → so = Some s ∧ eo = Some e ∧ s ≤ e) →
  ((if present then
      s ← lift (as_int so) ;
      on_inf (seek_set s) ;;
      e ← lift (as_int eo) ;
      chunk ← on_inf (read_int (Z.of_nat e - Z.of_nat s)) ;
      on_outf (write chunk)
    else mret tt) ≫= k) (Handles (RFile c p) (WFile w None)) =
  k tt (Handles (RFile c (if present then s + length (slice c s e) else p))
          (WFile (if present then w ++ slice c s e else w) None)).
Proof.
  intros H. destruct present; [|reflexivity].
  destruct H as (-> & -> & Hse); [done|].
  assert (Hread : ∀ f, read_int (Z.of_nat e - Z.of_nat s) f = read (e - s) f).
  { intros f. unfold read_int.
    destruct (Z.eqb_spec (Z.of_nat e - Z.of_nat s) (-1)); [lia|].
    destruct (Z.ltb_spec (Z.of_nat e - Z.of_nat s) 0); [lia|].
    f_equal. lia. }
  do 5 (rewrite bind_unfold;
        cbn [lift as_int on_inf seek_set inf outf]; rewrite ?Hread).
  unfold on_inf at 1. cbn [inf outf]. rewrite Hread.
  unfold read. cbn [content pos on_outf write outf inf written wlimit fits].
  reflexivity.
Qed.

Lemma copy_to_end_unlimited c p w :
  copy_to_end (Handles (RFile c p) (WFile w None)) =
  Ok tt (Handles (RFile c (p + length (drop p c))) (WFile (w ++ drop p c) None)).
Proof.
  unfold copy_to_end. apply copy_rest_unlimited.
  unfold remaining. cbn. rewrite length_drop. lia.
Qed.

Lemma rewrite_unlimited data m e1 e2 e3 p :
  layout data m e1 e2 e3 →
  rewrite_header_only m (Handles (RFile data p) (WFile [] None)) =
  Ok tt (Handles (RFile data (payload_start (m_off m) + length (payload data m)))
           (WFile (cleaned_bytes data m) None)).
Proof.
  intros L. pose proof (layout_order _ _ _ _ _ L) as Hord. destruct L.
  unfold rewrite_header_only, cleaned_bytes, extra_span, fcomment_span,
    payload, flag in *.
  destruct m as [h flg mtime [st af xo xe ns ne cs ce ko ps]]. meta_simpl.
  subst h. unfold getitem in lay_flg0.
  destruct (data !! 3) as [b3|] eqn:H3; [|done]. injection lay_flg0 as <-.
  destruct (rebuild_fixed (take 10 data) b3) as (h1 & Hset & Hslice).
  { rewrite length_take. lia. }
  { by rewrite lookup_take_lt by lia. }
  rewrite bind_unfold, Hset. cbn [lift]. rewrite Hslice.
  rewrite bind_unfold. cbn [on_outf write outf inf written wlimit fits app].
  rewrite (copy_span_stage _ _ _ 10 e1).
  2:{ intros HE. rewrite HE in lay_extra0. destruct_and?. split_and?; [done..|lia]. }
  rewrite (copy_span_stage _ _ _ e2 e3).
  2:{ intros HC. rewrite HC in lay_fcomment0. destruct_and?. split_and?; [done..|lia]. }
  rewrite bind_unfold. cbn [on_inf seek_set inf outf].
  rewrite copy_to_end_unlimited.
  assert (Hps : match truthy (Z.land (byte_val b3) FHCRC), ko with
                | true, Some c => c + 2
                | _, _ => ps
                end = ps).
  { destruct (truthy (Z.land (byte_val b3) FHCRC)); destruct_and?; subst; done. }
  rewrite Hps. f_equal. f_equal. f_equal.
  destruct (truthy (Z.land (byte_val b3) FEXTRA)),
           (truthy (Z.land (byte_val b3) FCOMMENT));
    destruct_and?; subst; cbn [span]; rewrite <- ?(assoc_L (++)); done.
Qed.

(** ** Independence of the size limit, and termination *)

Create HintDb io discriminated.

Lemma limit_free_ret {A} (a : A) : limit_free (mret a).
Proof. intros h a' h' [= <- <-]. reflexivity. Qed.

Lemma limit_free_lift {A} (r : result A) : limit_free (lift r).
Proof. intros h a' h'. destruct r; cbn; [|done]. by intros [= <- <-]. Qed.

Lemma limit_free_on_inf {A} (m : io rfile A) : limit_free (on_inf m).
Proof.
  intros h a h'. unfold on_inf. cbn.
  destruct (m (inf h)); [|done..]. by intros [= <- <-].
Qed.

Lemma limit_free_write chunk : limit_free (on_outf (write chunk)).
Proof.
  intros h a h'. unfold on_outf, write. cbn.
  destruct (fits _ _); [|done]. by intros [= <- <-].
Qed.

Lemma limit_free_bind {A B} (m : io handles A) (k : A → io handles B) :
  limit_free m → (∀ a, limit_free (k a)) → limit_free (m ≫= k).
Proof.
  intros Hm Hk h b h'. rewrite !bind_unfold.
  destruct (m h) as [a h1| |] eqn:E; [|done..].
  rewrite (Hm _ _ _ E). apply Hk.
Qed.

Lemma limit_free_if {A} (b : bool) (m1 m2 : io handles A) :
  limit_free m1 → limit_free m2 → limit_free (if b then m1 else m2).
Proof. by destruct b. Qed.

Lemma limit_free_copy_rest fuel : limit_free (copy_rest fuel).
Proof.
  induction fuel as [|fuel IH]; [done|]. cbn [copy_rest].
  apply limit_free_bind; [apply limit_free_on_inf|]. intros chunk.
  destruct (decide (chunk = [])); [apply limit_free_ret|].
  apply limit_free_bind; [apply limit_free_write|done].
Qed.

Lemma limit_free_copy_to_end : limit_free copy_to_end.
Proof. intros h a h'. unfold copy_to_end. apply limit_free_copy_rest. Qed.

Global Hint Resolve limit_free_ret limit_free_lift limit_free_on_inf
  limit_free_write limit_free_copy_to_end : io.

Lemma limit_free_rewrite m : limit_free (rewrite_header_only m).
Proof.
  unfold rewrite_header_only.
  repeat (first [ apply limit_free_bind; [|intros ?]
                | apply limit_free_if
                | solve [auto with io] ]).
Qed.

Lemma terminates_ret {S A} (a : A) : terminates (mret a : io S A).
Proof. done. Qed.

Lemma terminates_lift {S A} (r : result A) : terminates (lift r : io S A).
Proof. intros s. by destruct r. Qed.

Lemma terminates_on_inf {A} (m : io rfile A) : terminates m → terminates (on_inf m).
Proof. intros Hm h. unfold on_inf. specialize (Hm (inf h)). by destruct (m _). Qed.

Lemma terminates_write chunk : terminates (on_outf (write chunk)).
Proof. intros h. unfold on_outf, write. by destruct (fits _ _). Qed.

Lemma terminates_bind {S A B} (m : io S A) (k : A → io S B) :
  terminates m → (∀ a, terminates (k a)) → terminates (m ≫= k).
Proof.
  intros Hm Hk s. apply bind_not_Timeout; [apply Hm|]. intros a s' _. apply Hk.
Qed.

Lemma terminates_if {S A} (b : bool) (m1 m2 : io S A) :
  terminates m1 → terminates m2 → terminates (if b then m1 else m2).
Proof. by destruct b. Qed.

Lemma terminates_seek_set n : terminates (seek_set n).
Proof. done. Qed.

Lemma terminates_read_int n : terminates (read_int n).
Proof.
  intros f. unfold read_int. destruct (_ =? _)%Z; [done|].
  by destruct (_ <? _)%Z.
Qed.

Lemma terminates_copy_to_end : terminates copy_to_end.
Proof.
  intros [[c p] o]. unfold copy_to_end. apply copy_rest_total.
  unfold remaining. cbn. rewrite length_drop. lia.
Qed.

Global Hint Resolve terminates_ret terminates_lift terminates_on_inf terminates_write
  terminates_seek_set terminates_read_int terminates_copy_to_end : io.

Lemma terminates_rewrite m : terminates (rewrite_header_only m).
Proof.
  unfold rewrite_header_only.
  repeat (first [ apply terminates_bind; [|intros ?]
                | apply terminates_if
                | solve [auto with io] ]).
Qed.

(** Whatever the limit, a rewrite that succeeds wrote the cleaned bytes. *)
Lemma rewrite_Ok_written data m e1 e2 e3 p lim h :
  layout data m e1 e2 e3 →
  rewrite_header_only m (Handles (RFile data p) (WFile [] lim)) = Ok tt h →
  written (outf h) = cleaned_bytes data m.
Proof.
  intros L H. apply limit_free_rewrite in H. unfold unlimited in H at 1.
  cbn [inf outf written] in H.
  rewrite (rewrite_unlimited _ _ _ _ _ _ L) in H.
  unfold unlimited in H. injection H as _ H. done.
Qed.

(** ** A rewrite cut short by the size limit *)

Lemma unlimited_None h : wlimit (outf h) = None → unlimited h = h.
Proof. destruct h as [f [w l]]. cbn. by intros ->. Qed.

Lemma appends_ret {A} (a : A) : appends (mret a).
Proof.
  intros [f [w l]] a' hu [= <- <-]. cbn. split_and?; [done..|]. by left.
Qed.

Lemma appends_lift {A} (r : result A) : appends (lift r).
Proof.
  intros [f [w l]] a hu. destruct r; cbn; [|done].
  intros [= <- <-]. cbn. split_and?; [done..|]. by left.
Qed.

Lemma appends_on_inf {A} (m : io rfile A) : appends (on_inf m).
Proof.
  intros [f [w l]] a hu. unfold on_inf. cbn.
  destruct (m f); [|done..]. intros [= <- <-]. cbn.
  split_and?; [done..|]. by left.
Qed.

Lemma appends_write chunk : appends (on_outf (write chunk)).
Proof.
  intros [f [w l]] a hu. unfold on_outf, write. cbn.
  intros [= <- <-]. cbn. split_and?; [done|by apply prefix_app_r|].
  destruct (fits l _); [by left|]. right. eexists. split; [done|]. cbn.
  apply prefix_app. destruct l; [apply prefix_take|done].
Qed.

Lemma appends_bind {A B} (m : io handles A) (k : A → io handles B) :
  appends m → (∀ a, appends (k a)) → appends (m ≫= k).
Proof.
  intros Hm Hk h b hu. rewrite !bind_unfold.
  destruct (m (unlimited h)) as [a hu1| |] eqn:E; [|done..].
  destruct (Hm _ _ _ E) as (Hl1 & Hp1 & Hrun1). intros Ek.
  set (h1 := Handles (inf hu1) (WFile (written (outf hu1)) (wlimit (outf h)))).
  assert (Hu1 : unlimited h1 = hu1).
  { destruct hu1 as [f1 [w1 l1]]. cbn in *. by subst. }
  destruct (Hk a h1 b hu) as (Hl2 & Hp2 & Hrun2); [by rewrite Hu1|].
  cbn [h1 outf written] in Hp2. split_and?; [done|by etrans|].
  destruct Hrun1 as [->|(h' & -> & Hp')].
  - fold h1. cbn [h1 outf wlimit] in Hrun2. done.
  - right. exists h'. split; [done|]. by etrans.
Qed.

Lemma appends_if {A} (b : bool) (m1 m2 : io handles A) :
  appends m1 → appends m2 → appends (if b then m1 else m2).
Proof. by destruct b. Qed.

Lemma appends_copy_rest fuel : appends (copy_rest fuel).
Proof.
  induction fuel as [|fuel IH]; [done|]. cbn [copy_rest].
  apply appends_bind; [apply appends_on_inf|]. intros chunk.
  destruct (decide (chunk = [])); [apply appends_ret|].
  apply appends_bind; [apply appends_write|done].
Qed.

Lemma appends_copy_to_end : appends copy_to_end.
Proof. intros h a hu. unfold copy_to_end. apply appends_copy_rest. Qed.

Global Hint Resolve appends_ret appends_lift appends_on_inf appends_write
  appends_copy_to_end : io.

Lemma appends_rewrite m : appends (rewrite_header_only m).
Proof.
  unfold rewrite_header_only.
  repeat (first [ apply appends_bind; [|intros ?]
                | apply appends_if
                | solve [auto with io] ]).
Qed.

(** A rewrite of a parsed file that raises was stopped by the size limit,
    and has written a prefix of the cleaned bytes. *)
Lemma rewrite_Raise_written data m e1 e2 e3 p lim e h :
  layout data m e1 e2 e3 →
  rewrite_header_only m (Handles (RFile data p) (WFile [] lim)) = Raise e h →
  e = OSError ∧ written (outf h) `prefix_of` cleaned_bytes data m.
Proof.
  intros L Hr.
  destruct (appends_rewrite m (Handles (RFile data p) (WFile [] lim)) tt _
              (rewrite_unlimited _ _ _ _ _ p L)) as (_ & _ & [Hok|Hex]).
  - rewrite Hok in Hr. done.
  - destruct Hex as (h' & Hh' & Hp). rewrite Hh' in Hr.
    injection Hr as <- <-. done.
Qed.

(** ** The input as the sequence of its fields *)

Lemma take_slice {A} (l : list A) a b :
  a ≤ b → take a l ++ take (b - a) (drop a l) = take b l.
Proof.
  revert a b. induction l as [|x l IH]; intros a b Hab.
  - by rewrite !take_nil, drop_nil, take_nil.
  - destruct a as [|a].
    + cbn. by rewrite Nat.sub_0_r.
    + destruct b as [|b]; [lia|]. cbn. f_equal. apply IH. lia.
Qed.

Lemma layout_spans data m e1 e2 e3 :
  layout data m e1 e2 e3 →
  extra_span data m = slice data 10 e1 ∧
  fname_span data m = slice data e1 e2 ∧
  fcomment_span data m = slice data e2 e3 ∧
  fhcrc_span data m = slice data e3 (payload_start (m_off m)).
Proof.
  intros [].
  unfold extra_span, fname_span, fcomment_span, fhcrc_span, span, slice.
  destruct (flag m FEXTRA), (flag m FNAME), (flag m FCOMMENT), (flag m FHCRC);
    destruct_and?; subst;
    repeat match goal with H : _ = _ |- _ => rewrite H end;
    cbn [fmap option_fmap option_map]; rewrite ?Nat.sub_diag;
    split_and?; reflexivity.
Qed.

Lemma layout_decomposition data m e1 e2 e3 :
  layout data m e1 e2 e3 →
  data = take 10 data ++ extra_span data m ++ fname_span data m ++
         fcomment_span data m ++ fhcrc_span data m ++ payload data m.
Proof.
  intros L. destruct (layout_spans _ _ _ _ _ L) as (-> & -> & -> & ->).
  pose proof (layout_order _ _ _ _ _ L) as Hord. unfold payload, slice.
  rewrite !(assoc_L (++)), !take_slice, take_drop by lia. reflexivity.
Qed.

Lemma layout_absent data m e1 e2 e3 :
  layout data m e1 e2 e3 →
  (flag m FEXTRA = false → extra_span data m = []) ∧
  (flag m FNAME = false → fname_span data m = []) ∧
  (flag m FCOMMENT = false → fcomment_span data m = []) ∧
  (flag m FHCRC = false → fhcrc_span data m = []).
Proof.
  intros [].
  unfold extra_span, fname_span, fcomment_span, fhcrc_span, span.
  split_and?; intros Hf; rewrite Hf in *; destruct_and?;
    repeat match goal with H : _ = None |- _ => rewrite H end; done.
Qed.

Lemma layout_present data m e1 e2 e3 :
  layout data m e1 e2 e3 →
  (flag m FEXTRA = true →
   extra_span data m =
     slice data 10 (12 + Z.to_nat (le_value (slice data 10 12)))) ∧
  (flag m FNAME = true →
   ∃ body, fname_span data m = body ++ [x00] ∧ x00 ∉ body) ∧
  (flag m FCOMMENT = true →
   ∃ body, fcomment_span data m = body ++ [x00] ∧ x00 ∉ body) ∧
  (flag m FHCRC = true →
   fhcrc_span data m =
     slice data (payload_start (m_off m) - 2) (payload_start (m_off m))).
Proof.
  intros L. destruct (layout_spans _ _ _ _ _ L) as (-> & -> & -> & ->).
  destruct L. split_and?; intros Hf; rewrite Hf in *; destruct_and?.
  - by subst.
  - by eapply find_nul_Some.
  - by eapply find_nul_Some.
  - f_equal. lia.
Qed.

Lemma cleaned_header_spec h :
  length h = 10 →
  ∃ id1 id2 cm flg t0 t1 t2 t3 xfl os,
    h = [id1; id2; cm; flg; t0; t1; t2; t3; xfl; os] ∧
    cleaned_header h =
      [id1; id2; cm; clean_flag flg; x00; x00; x00; x00; xfl; os].
Proof.
  intros Hlen. do 11 (destruct h as [|? h]; try discriminate Hlen).
  repeat eexists.
Qed.

(** C1. For every input whose header parses, the rewriter (with no write
    failure) produces exactly: the ten fixed bytes with the flag byte
    replaced by [flags & ~FNAME & ~FHCRC] and the four MTIME bytes zeroed,
    then the FEXTRA span if the bit is set, then the FCOMMENT span if the
    bit is set, then every byte from [payload_start] on.  The input is these
    same parts with the FNAME and FHCRC spans in between, which the output
    leaves out; a rewrite under a size limit, when it succeeds, writes the
    same bytes.  The FEXTRA span is the length field with the [xlen] bytes
    it announces, the FNAME and FCOMMENT spans end with their NUL. *)
Theorem rewrite_header_only_output data m f :
  parse_gzip_header (open_rb data) = Ok m f →
  (∃ f', rewrite_header_only m (Handles f (open_wb None)) =
         Ok tt (Handles f' (WFile (cleaned_bytes data m) None))) ∧
  (∀ lim h, rewrite_header_only m (Handles f (open_wb lim)) = Ok tt h →
            written (outf h) = cleaned_bytes data m) ∧
  cleaned_bytes data m =
    cleaned_header (take 10 data) ++ extra_span data m ++
    fcomment_span data m ++ payload data m ∧
  data = take 10 data ++ extra_span data m ++ fname_span data m ++
         fcomment_span data m ++ fhcrc_span data m ++ payload data m ∧
  (∃ id1 id2 cm flg t0 t1 t2 t3 xfl os,
     take 10 data = [id1; id2; cm; flg; t0; t1; t2; t3; xfl; os] ∧
     cleaned_header (take 10 data) =
       [id1; id2; cm; clean_flag flg; x00; x00; x00; x00; xfl; os] ∧
     byte_val flg = m_flg m ∧
     byte_val (clean_flag flg) =
       Z.land (Z.land (m_flg m) (Z.lnot FNAME)) (Z.lnot FHCRC)) ∧
  (flag m FEXTRA = false → extra_span data m = []) ∧
  (flag m FCOMMENT = false → fcomment_span data m = []) ∧
  (flag m FEXTRA = true →
   extra_span data m =
     slice data 10 (12 + Z.to_nat (le_value (slice data 10 12)))) ∧
  (flag m FNAME = true →
   ∃ body, fname_span data m = body ++ [x00] ∧ x00 ∉ body) ∧
  (flag m FCOMMENT = true →
   ∃ body, fcomment_span data m = body ++ [x00] ∧ x00 ∉ body) ∧
  (flag m FHCRC = true →
   fhcrc_span data m =
     slice data (payload_start (m_off m) - 2) (payload_start (m_off m))) ∧
  length (cleaned_bytes data m) + length (fname_span data m) +
    length (fhcrc_span data m) = length data.
Proof.
  intros [Hm ->]%parse_Ok. apply model_layout in Hm as (e1 & e2 & e3 & L).
  pose proof (layout_decomposition _ _ _ _ _ L) as Hdec.
  pose proof (layout_present _ _ _ _ _ L) as (HpE & HpN & HpC & HpK).
  pose proof (layout_absent _ _ _ _ _ L) as (HE & _ & HC & _).
  assert (Hlen : length (take 10 data) = 10).
  { rewrite length_take. destruct L. lia. }
  destruct (cleaned_header_spec _ Hlen)
    as (id1 & id2 & cm & flg & t0 & t1 & t2 & t3 & xfl & os & Hh & Hc).
  split_and?.
  - eexists. unfold open_wb. apply (rewrite_unlimited _ _ _ _ _ _ L).
  - intros lim h. apply (rewrite_Ok_written _ _ _ _ _ _ _ _ L).
  - reflexivity.
  - exact Hdec.
  - exists id1, id2, cm, flg, t0, t1, t2, t3, xfl, os. split_and?; [done..| |].
    + destruct L. unfold getitem in lay_flg0.
      assert (data !! 3 = Some flg) as Hl.
      { rewrite <- (lookup_take_lt data 10 3) by lia. by rewrite Hh. }
      rewrite Hl in lay_flg0. by injection lay_flg0.
    + rewrite clean_flag_val. destruct L. unfold getitem in lay_flg0.
      assert (data !! 3 = Some flg) as Hl.
      { rewrite <- (lookup_take_lt data 10 3) by lia. by rewrite Hh. }
      rewrite Hl in lay_flg0. injection lay_flg0 as <-. done.
  - exact HE.
  - exact HC.
  - exact HpE.
  - exact HpN.
  - exact HpC.
  - exact HpK.
  - rewrite Hdec at 4. unfold cleaned_bytes. rewrite !length_app.
    rewrite Hc, Hh. cbn [length]. lia.
Qed.

(** C1 on the sample with a stored name: the nine bytes of "data.nii\0" are
    gone, MTIME is zero, the payload follows the fixed header. *)
Lemma rewrite_header_only_output_witness :
  ∃ m f,
    parse_gzip_header (open_rb sample_named) = Ok m f ∧
    (∃ f', rewrite_header_only m (Handles f (open_wb None)) =
           Ok tt (Handles f' (WFile (cleaned_bytes sample_named m) None))) ∧
    cleaned_bytes sample_named m =
      [x1f; x8b; x08; x00; x00; x00; x00; x00; x00; x03;
       xd1; xd2; xd3; xc1; xc2; xc3; xc4; x01; x02; x03; x04].
Proof.
  eexists _, _. split; [vm_compute; reflexivity|]. split.
  - refine (proj1 (rewrite_header_only_output sample_named _ _ _)).
    vm_compute; reflexivity.
  - vm_compute; reflexivity.
Defined.

(** ** Paths: the temporary name and the order *)

Lemma list_ascii_app s t :
  String.list_ascii_of_string (s +:+ t) =
  String.list_ascii_of_string s ++ String.list_ascii_of_string t.
Proof.
  induction s as [|a s IH]; [reflexivity|].
  change (String a s +:+ t) with (String a (s +:+ t)).
  cbn [String.list_ascii_of_string]. by rewrite IH.
Qed.

Lemma name_with_tmp_suffix p : name (with_tmp_suffix p) = name p +:+ ".tmp".
Proof. unfold with_tmp_suffix, name at 1. by rewrite last_snoc. Qed.

(** The temporary file never matches the pattern of the scan. *)
Lemma with_tmp_suffix_not_gz p : matches_gz (with_tmp_suffix p) = false.
Proof.
  unfold matches_gz. rewrite name_with_tmp_suffix, list_ascii_app.
  rewrite reverse_app. reflexivity.
Qed.

Lemma with_tmp_suffix_ne p : with_tmp_suffix p ≠ p.
Proof.
  intros E. apply (f_equal name) in E. rewrite name_with_tmp_suffix in E.
  apply (f_equal String.list_ascii_of_string) in E.
  rewrite list_ascii_app in E. apply (f_equal length) in E.
  rewrite length_app in E. cbn in E. lia.
Qed.

Lemma with_tmp_suffix_ne_gz p q : matches_gz q = true → with_tmp_suffix p ≠ q.
Proof. intros Hq E. rewrite <- E, with_tmp_suffix_not_gz in Hq. done. Qed.

Global Instance path_le_refl : Reflexive path_le.
Proof.
  intros p. unfold path_le. induction p as [|a p IH]; [done|].
  cbn. by rewrite decide_True.
Qed.

Global Instance path_le_trans : Transitive path_le.
Proof.
  unfold path_le. intros p. induction p as [|a p IH]; intros [|b q] [|c r];
    cbn; try done.
  destruct (decide (a = b)) as [->|Hab].
  { destruct (decide (b = c)) as [->|Hbc]; [apply IH|done]. }
  destruct (decide (b = c)) as [->|Hbc].
  { by rewrite decide_False. }
  intros H1 H2. assert (String.le a c) as Hac by (by etrans).
  destruct (decide (a = c)) as [->|]; [|done].
  destruct Hab. by apply (anti_symm String.le).
Qed.

Global Instance path_le_antisymm : AntiSymm (=) path_le.
Proof.
  unfold path_le. intros p. induction p as [|a p IH]; intros [|b q];
    cbn; try done.
  destruct (decide (a = b)) as [->|Hab].
  - rewrite decide_True by done. intros H1 H2. f_equal. by apply IH.
  - rewrite decide_False by done. intros H1 H2.
    destruct Hab. by apply (anti_symm String.le).
Qed.

Global Instance path_le_total : Total path_le.
Proof.
  unfold path_le. intros p. induction p as [|a p IH]; intros [|b q];
    cbn; auto.
  destruct (decide (a = b)) as [->|Hab].
  - rewrite decide_True by done. apply IH.
  - rewrite decide_False by done. apply (base.total String.le).
Qed.

(** The visiting order depends on the set of targets only. *)
Lemma sorted_Permutation ps qs : ps ≡ₚ qs → sorted ps = sorted qs.
Proof.
  intros Hp. unfold sorted. apply (Sorted_unique path_le).
  - apply Sorted_merge_sort, _.
  - apply Sorted_merge_sort, _.
  - by rewrite !merge_sort_Permutation.
Qed.

(** ** needs_cleaning and clean_file on a world *)

Lemma reading_parse data :
  reading (open_rb data) parse_gzip_header =
  λ w, match header_model data with
       | Val m => Ok (m, RFile data (payload_start (m_off m))) w
       | Exn e => Raise e w
       end.
Proof.
  unfold reading. pose proof (parse_refines data) as H. unfold agrees in H.
  destruct (parse_gzip_header _) as [m f|e f|], (header_model data);
    try done; destruct H as [-> H]; by rewrite ?H.
Qed.

Lemma needs_cleaning_eq p w :
  needs_cleaning p w =
  if decide (is_Some (tree w !! p)) then Raise IsADirectoryError w else
  match files w !! p with
  | None => Raise FileNotFoundError w
  | Some data =>
      match header_model data with
      | Val m => Ok (negb (m_mtime m =? 0)%Z, flag m FNAME, flag m FHCRC,
                     m_flg m, m_mtime m) w
      | Exn e => Raise e w
      end
  end.
Proof.
  unfold needs_cleaning. rewrite bind_unfold. unfold open_read.
  destruct (decide (is_Some (tree w !! p))); [done|].
  destruct (files w !! p) as [data|]; [|done].
  rewrite bind_unfold, reading_parse. by destruct (header_model data).
Qed.

Lemma clean_file_eq p w :
  clean_file p w =
  if decide (is_Some (tree w !! p)) then Raise IsADirectoryError w else
  match files w !! p with
  | None => Raise FileNotFoundError w
  | Some data =>
      match header_model data with
      | Exn e => Raise e w
      | Val m =>
          let tmp := with_tmp_suffix p in
          if decide (is_Some (tree w !! tmp)) then Raise IsADirectoryError w
          else
            match rewrite_header_only m
                    (Handles (RFile data (payload_start (m_off m)))
                             (open_wb (fsize_limit w))) with
            | Ok _ h =>
                Ok tt (set_files (<[p:=written (outf h)]>
                                    (delete tmp (files w))) w)
            | Raise e h =>
                Raise e (set_files (<[tmp:=written (outf h)]> (files w)) w)
            | Timeout => Timeout
            end
      end
  end.
Proof.
  unfold clean_file. rewrite bind_unfold. unfold open_read.
  destruct (decide (is_Some (tree w !! p))) as [|Hp]; [done|].
  destruct (files w !! p) as [data|]; [|done].
  rewrite bind_unfold, reading_parse.
  destruct (header_model data) as [m|e]; [|done]. cbv zeta.
  rewrite bind_unfold. unfold rewrite_into. rewrite bind_unfold.
  unfold open_write.
  destruct (decide (is_Some (tree w !! with_tmp_suffix p))); [done|].
  unfold close_into, set_files, os_replace. cbn [files tree fsize_limit].
  destruct (rewrite_header_only _ _) as [[] h|e h|]; [| |done].
  - cbn [files tree]. rewrite lookup_insert_eq.
    rewrite decide_False by done.
    rewrite insert_insert_eq, delete_insert_eq. reflexivity.
  - by rewrite insert_insert_eq.
Qed.

Lemma needs_cleaning_world p w :
  match needs_cleaning p w with
  | Ok _ w' | Raise _ w' => w' = w
  | Timeout => False
  end.
Proof.
  rewrite needs_cleaning_eq.
  destruct (decide _); [done|]. destruct (files w !! p) as [data|]; [|done].
  by destruct (header_model data).
Qed.

Lemma clean_file_not_Timeout p w : clean_file p w ≠ Timeout.
Proof.
  rewrite clean_file_eq.
  destruct (decide _); [done|]. destruct (files w !! p) as [data|]; [|done].
  destruct (header_model data) as [m|]; [|done]. cbv zeta.
  destruct (decide _); [done|].
  pose proof (terminates_rewrite m
    (Handles (RFile data (payload_start (m_off m)))
             (open_wb (fsize_limit w)))) as H.
  by destruct (rewrite_header_only _ _).
Qed.

Lemma when_print b l w : when b (print l) w = Ok tt (say_if b l w).
Proof. by destruct b. Qed.

(** One iteration of the loop, by cases on what the file holds. *)
Lemma visit_eq dry_run verbose p t w :
  visit dry_run verbose p t w =
  match needs_cleaning p w with
  | Raise e _ =>
      Ok (Tally (total t + 1) (changed t) (errors t + 1))
         (say_if verbose (ErrorChecking (name p) e) w)
  | Ok (need_mtime, need_fname, need_fhcrc, flg, mtime) _ =>
      let issues := issues_of need_mtime need_fname need_fhcrc mtime in
      if need_mtime || need_fname then
        if dry_run then
          Ok (Tally (total t + 1) (changed t) (errors t))
             (say_if verbose (WouldClean (name p) issues) w)
        else
          match clean_file p w with
          | Ok _ w1 =>
              Ok (Tally (total t + 1) (changed t + 1) (errors t))
                 (say_if verbose (Cleaned (name p) issues) w1)
          | Raise e w1 =>
              Ok (Tally (total t + 1) (changed t) (errors t + 1))
                 (say_if verbose (ErrorCleaning (name p) e) w1)
          | Timeout => Timeout
          end
      else Ok (Tally (total t + 1) (changed t) (errors t)) w
  | Timeout => Timeout
  end.
Proof.
  unfold visit. rewrite bind_unfold. unfold try_except at 1.
  rewrite bind_unfold. pose proof (needs_cleaning_world p w) as Hw.
  destruct (needs_cleaning p w) as [[[[[nm nf] nk] flg] mt] w'|e w'|];
    [subst w'|subst w'|done].
  - cbn [mret io_mret total changed errors]. cbv zeta.
    destruct (nm || nf); [|done]. destruct dry_run.
    + by rewrite bind_unfold, when_print.
    + unfold try_except. rewrite bind_unfold.
      destruct (clean_file p w) as [[] w1|e w1|]; [| |done].
      * by rewrite bind_unfold, when_print.
      * by rewrite bind_unfold, when_print.
  - by rewrite bind_unfold, when_print.
Qed.

Lemma visit_Ok dry_run verbose p t w :
  ∃ t' w', visit dry_run verbose p t w = Ok t' w'.
Proof.
  rewrite visit_eq. pose proof (needs_cleaning_world p w) as Hw.
  pose proof (clean_file_not_Timeout p w) as Hc.
  destruct (needs_cleaning p w) as [[[[[nm nf] nk] flg] mt] w'|e w'|];
    [|eauto|done].
  cbv zeta. destruct (nm || nf); [|eauto]. destruct dry_run; [eauto|].
  destruct (clean_file p w) as [[] w1|e w1|]; [eauto..|done].
Qed.

Lemma clean_file_Ok p w w1 :
  clean_file p w = Ok tt w1 →
  ∃ data m,
    tree w !! p = None ∧ files w !! p = Some data ∧
    header_model data = Val m ∧
    w1 = set_files (<[p:=cleaned_bytes data m]>
                      (delete (with_tmp_suffix p) (files w))) w.
Proof.
  rewrite clean_file_eq.
  destruct (decide _) as [|Hp]; [done|].
  destruct (files w !! p) as [data|]; [|done].
  destruct (header_model data) as [m|] eqn:Hm; [|done]. cbv zeta.
  destruct (decide _); [done|].
  destruct (rewrite_header_only _ _) as [[] h|e h|] eqn:Hr; [|done..].
  intros [= <-]. exists data, m. split_and?; try done.
  - by apply eq_None_not_Some.
  - apply model_layout in Hm as (e1 & e2 & e3 & L).
    by rewrite (rewrite_Ok_written _ _ _ _ _ _ _ _ L Hr).
Qed.

Lemma clean_file_unlimited p w data m :
  fsize_limit w = None →
  tree w !! p = None → tree w !! with_tmp_suffix p = None →
  files w !! p = Some data → header_model data = Val m →
  clean_file p w =
  Ok tt (set_files (<[p:=cleaned_bytes data m]>
                      (delete (with_tmp_suffix p) (files w))) w).
Proof.
  intros Hlim Hp Htmp Hf Hm. rewrite clean_file_eq.
  rewrite decide_False by (rewrite Hp; by intros [? ?]).
  rewrite Hf, Hm, Hlim. cbv zeta.
  rewrite decide_False by (rewrite Htmp; by intros [? ?]).
  apply model_layout in Hm as (e1 & e2 & e3 & L).
  unfold open_wb. by rewrite (rewrite_unlimited _ _ _ _ _ _ L).
Qed.

Lemma clean_file_Raise p w e w1 :
  clean_file p w = Raise e w1 →
  w1 = w ∨
  ∃ partial, w1 = set_files (<[with_tmp_suffix p:=partial]> (files w)) w.
Proof.
  rewrite clean_file_eq.
  destruct (decide _); [intros [= _ <-]; by left|].
  destruct (files w !! p) as [data|]; [|intros [= _ <-]; by left].
  destruct (header_model data) as [m|]; [|intros [= _ <-]; by left].
  cbv zeta. destruct (decide _); [intros [= _ <-]; by left|].
  destruct (rewrite_header_only _ _) as [[] h|e' h|]; [done| |done].
  intros [= _ <-]. right. eauto.
Qed.

Lemma touched_say_if p b l w w' : touched p w w' → touched p w (say_if b l w').
Proof. by destruct b. Qed.

Lemma clean_file_touched p w :
  match clean_file p w with
  | Ok _ w1 | Raise _ w1 => touched p w w1 ∧ stdout w1 = stdout w
  | Timeout => False
  end.
Proof.
  destruct (clean_file p w) as [[] w1|e w1|] eqn:E.
  - apply clean_file_Ok in E as (data & m & _ & _ & _ & ->).
    split; [|done]. unfold touched. split_and?; try done. intros q Hq Hq'. cbn.
    by rewrite lookup_insert_ne, lookup_delete_ne.
  - apply clean_file_Raise in E as [->|[partial ->]]; [done|].
    split; [|done]. unfold touched. split_and?; try done. intros q Hq Hq'. cbn.
    by rewrite lookup_insert_ne.
  - by apply clean_file_not_Timeout in E.
Qed.

Lemma visit_touched dry_run verbose p t w t' w' :
  visit dry_run verbose p t w = Ok t' w' → touched p w w'.
Proof.
  rewrite visit_eq. pose proof (clean_file_touched p w) as Hc.
  destruct (needs_cleaning p w) as [[[[[nm nf] nk] flg] mt] w0|e w0|];
    [| |done].
  - cbv zeta. destruct (nm || nf); [|by intros [= _ <-]].
    destruct dry_run; [intros [= _ <-]; by apply touched_say_if|].
    destruct (clean_file p w) as [[] w1|e w1|]; [..|done];
      intros [= _ <-]; apply touched_say_if, Hc.
  - intros [= _ <-]. by apply touched_say_if.
Qed.

(** ** C3: failure of clean_file *)

(** A failure of [clean_file] after the temporary file was opened: the
    rewrite ran out of room, and the temporary file holds a prefix of the
    cleaned bytes. *)
Lemma clean_file_Raise_written p w e w1 :
  clean_file p w = Raise e w1 →
  w1 = w ∨
  ∃ data m partial,
    files w !! p = Some data ∧ header_model data = Val m ∧ e = OSError ∧
    partial `prefix_of` cleaned_bytes data m ∧
    w1 = set_files (<[with_tmp_suffix p:=partial]> (files w)) w.
Proof.
  rewrite clean_file_eq.
  destruct (decide _); [intros [= _ <-]; by left|].
  destruct (files w !! p) as [data|]; [|intros [= _ <-]; by left].
  destruct (header_model data) as [m|] eqn:Hm; [|intros [= _ <-]; by left].
  cbv zeta. destruct (decide _); [intros [= _ <-]; by left|].
  destruct (rewrite_header_only _ _) as [[] h|e' h|] eqn:Hr; [done| |done].
  intros [= <- <-]. right.
  apply model_layout in Hm as Hl. destruct Hl as (e1 & e2 & e3 & L).
  destruct (rewrite_Raise_written _ _ _ _ _ _ _ _ _ L Hr) as [-> Hp].
  by exists data, m, (written (outf h)).
Qed.

(** C3, as stated, fails: with room for five bytes only, the write of the
    ten-byte header raises OSError; the original is intact, but the
    temporary file, which did not exist before, is left behind, holding the
    five bytes that fitted. *)
Lemma clean_file_failure_leaves_tmp :
  ∃ w1, clean_file ds_a (ds_one (Some 5)) = Raise OSError w1 ∧
        files (ds_one (Some 5)) !! with_tmp_suffix ds_a = None ∧
        files w1 !! ds_a = files (ds_one (Some 5)) !! ds_a ∧
        files w1 !! with_tmp_suffix ds_a = Some [x1f; x8b; x08; x00; x00].
Proof. eexists. split_and?; vm_compute; reflexivity. Qed.

(** C3, amended.  [clean_file] always returns or raises.  When it raises,
    the original file and every file other than the temporary one are
    unchanged, and either nothing at all was touched, or the rewrite ran out
    of room (OSError) and the temporary file is left behind, holding what was
    written so far: a prefix of the cleaned bytes.  When it returns, the file
    holds the cleaned bytes of its former contents, put there by the final
    rename, which also removes the temporary name. *)
Theorem clean_file_atomic p w :
  match clean_file p w with
  | Raise e w1 =>
      files w1 !! p = files w !! p ∧
      (∀ q, q ≠ with_tmp_suffix p → files w1 !! q = files w !! q) ∧
      (w1 = w ∨
       ∃ data m f partial,
         files w !! p = Some data ∧
         parse_gzip_header (open_rb data) = Ok m f ∧
         e = OSError ∧
         files w1 !! with_tmp_suffix p = Some partial ∧
         partial `prefix_of` cleaned_bytes data m)
  | Ok _ w1 =>
      ∃ data m f,
        files w !! p = Some data ∧
        parse_gzip_header (open_rb data) = Ok m f ∧
        files w1 = <[p:=cleaned_bytes data m]>
                     (delete (with_tmp_suffix p) (files w))
  | Timeout => False
  end.
Proof.
  destruct (clean_file p w) as [[] w1|e w1|] eqn:E.
  - apply clean_file_Ok in E as (data & m & _ & Hf & Hm & ->).
    exists data, m, (RFile data (payload_start (m_off m))).
    split_and?; [done| |done]. by apply parse_Ok.
  - pose proof (with_tmp_suffix_ne p) as Hne.
    apply clean_file_Raise_written in E
      as [->|(data & m & partial & Hf & Hm & -> & Hp & ->)].
    + split_and?; auto.
    + cbn. split_and?.
      * by rewrite lookup_insert_ne.
      * intros q Hq. by rewrite lookup_insert_ne.
      * right. exists data, m, (RFile data (payload_start (m_off m))), partial.
        rewrite lookup_insert_eq. split_and?; try done. by apply parse_Ok.
  - by apply clean_file_not_Timeout in E.
Qed.

(** C3, amended, on the same failing run: the original keeps its bytes and
    the temporary file holds the start of the cleaned header. *)
Lemma clean_file_atomic_witness :
  ∃ w1 partial,
    clean_file ds_a (ds_one (Some 5)) = Raise OSError w1 ∧
    files w1 !! ds_a = files (ds_one (Some 5)) !! ds_a ∧
    files w1 !! with_tmp_suffix ds_a = Some partial ∧
    partial `prefix_of`
      [x1f; x8b; x08; x00; x00; x00; x00; x00; x00; x03;
       xd1; xd2; xd3; xc1; xc2; xc3; xc4; x01; x02; x03; x04].
Proof.
  eassert (E : clean_file ds_a (ds_one (Some 5)) = Raise OSError _)
    by (vm_compute; reflexivity).
  pose proof (clean_file_atomic ds_a (ds_one (Some 5))) as H.
  rewrite E in H.
  destruct H as (H1 & _ & [H3|(data & m & f & partial & Hf & Hm & _ & Ht & Hp)]).
  - exfalso. apply (f_equal (λ w, files w !! with_tmp_suffix ds_a)) in H3.
    vm_compute in H3. discriminate.
  - eexists _, partial. split_and?; [exact E|exact H1|exact Ht|].
    assert (data = sample_named) as ->
      by (vm_compute in Hf; injection Hf as <-; reflexivity).
    assert (Hm' : Ok m f = Ok (Meta (take 10 sample_named) 8 0x78563412
                (Offsets 0 10 None None (Some 10) (Some 19) None None None 19))
                (RFile sample_named 19))
      by (rewrite <- Hm; vm_compute; reflexivity).
    injection Hm' as -> _. exact Hp.
Defined.

(** ** The loop over the targets *)

Lemma visit_counts dry_run verbose p t w t' w' :
  visit dry_run verbose p t w = Ok t' w' →
  total t' = total t + 1 ∧
  (changed t' = changed t ∧ errors t' = errors t ∨
   changed t' = changed t ∧ errors t' = errors t + 1 ∨
   changed t' = changed t + 1 ∧ errors t' = errors t ∧
     dry_run = false ∧ ∃ w1, clean_file p w = Ok tt w1).
Proof.
  rewrite visit_eq.
  destruct (needs_cleaning p w) as [[[[[nm nf] nk] flg] mt] w0|e w0|];
    [| |done].
  - cbv zeta. destruct (nm || nf); [|intros [= <- _]; cbn; auto].
    destruct dry_run; [intros [= <- _]; cbn; auto|].
    destruct (clean_file p w) as [[] w1|e w1|]; [..|done];
      intros [= <- _]; cbn; eauto 10.
  - intros [= <- _]. cbn. auto.
Qed.

Lemma visit_all_Ok dry_run verbose ps t w :
  ∃ t' w',
    visit_all dry_run verbose ps t w = Ok t' w' ∧
    total t' = total t + length ps ∧
    changed t ≤ changed t' ∧ errors t ≤ errors t' ∧
    changed t' + errors t' ≤ changed t + errors t + length ps.
Proof.
  revert t w. induction ps as [|p ps IH]; intros t w.
  - exists t, w. cbn. split_and?; [done|lia..].
  - destruct (visit_Ok dry_run verbose p t w) as (t1 & w1 & Hv).
    destruct (IH t1 w1) as (t' & w' & Hall & Ht & Hc & He & Hce).
    exists t', w'. cbn [visit_all]. rewrite bind_unfold, Hv.
    apply visit_counts in Hv as [Ht1 Hv]. cbn [length].
    split_and?; [done|lia..].
Qed.

Lemma sorted_length ps : length (sorted ps) = length ps.
Proof. unfold sorted. by rewrite merge_sort_Permutation. Qed.

(** The run on an existing directory always returns its three counts. *)
Lemma clean_gzip_headers_Ok root dry_run verbose w :
  path_exists root w = true →
  ∃ t c e w',
    clean_gzip_headers root dry_run verbose w = Ok (t, c, e) w' ∧
    t = length (rglob_gz root w) ∧ c + e ≤ t.
Proof.
  intros Hex. unfold clean_gzip_headers. rewrite Hex. cbn [negb].
  destruct (decide (rglob_gz root w = [])) as [Hnil|Hne].
  - rewrite bind_unfold, when_print, Hnil. cbn. eauto 10.
  - rewrite bind_unfold, when_print, bind_unfold.
    destruct (visit_all_Ok dry_run verbose (sorted (rglob_gz root w))
                (Tally 0 0 0) (say_if verbose
                   (FoundFiles (length (rglob_gz root w))) w))
      as (t' & w' & -> & Ht & _ & _ & Hce).
    rewrite sorted_length in *. cbn in *.
    exists (total t'), (changed t'), (errors t'), w'. split_and?; [done|lia..].
Qed.

Lemma clean_gzip_headers_missing root dry_run verbose w :
  path_exists root w = false →
  clean_gzip_headers root dry_run verbose w = Raise FileNotFoundError w.
Proof. intros Hex. unfold clean_gzip_headers. by rewrite Hex. Qed.

(** ** C10: the counters *)

(** C10. On an existing directory the run returns counters with
    [total] the number of ".gz" entries found and [changed + errors <= total];
    an iteration increments [changed] only when [clean_file] (rewrite and
    rename) has returned normally; and when the rewrite of a file that needs
    cleaning raises, the iteration counts it under [errors] and leaves
    [changed] as it was. *)
Theorem counters_invariant root dry_run verbose w :
  path_exists root w = true →
  (∃ t c e w',
     clean_gzip_headers root dry_run verbose w = Ok (t, c, e) w' ∧
     t = length (rglob_gz root w) ∧ c + e ≤ t) ∧
  (∀ p t w0 t' w1,
     visit dry_run verbose p t w0 = Ok t' w1 →
     changed t' = changed t ∨
     changed t' = changed t + 1 ∧ errors t' = errors t ∧ dry_run = false ∧
       ∃ w2, clean_file p w0 = Ok tt w2) ∧
  (∀ p t w0 e w2,
     is_dirty w0 p = true → clean_file p w0 = Raise e w2 →
     ∃ w1, visit false verbose p t w0 =
           Ok (Tally (total t + 1) (changed t) (errors t + 1)) w1).
Proof.
  intros Hex. split_and?.
  - by apply clean_gzip_headers_Ok.
  - intros p t w0 t' w1 Hv. apply visit_counts in Hv as [_ Hv].
    destruct Hv as [[? ?]|[[? ?]|(? & ? & ? & ?)]]; auto.
  - intros p t w0 e w2 Hd Hc. rewrite visit_eq. unfold is_dirty in Hd.
    destruct (needs_cleaning p w0) as [[[[[nm nf] nk] flg] mt] w'|e' w'|];
      [|done..].
    cbv zeta. rewrite Hd, Hc. eauto.
Qed.

(** A concrete instance: one file that needs cleaning, no size limit. *)
Lemma counters_invariant_witness :
  path_exists ds_root (ds_one None) = true ∧
  ∃ t c e w',
    clean_gzip_headers ds_root false false (ds_one None) = Ok (t, c, e) w' ∧
    t = length (rglob_gz ds_root (ds_one None)) ∧ c + e ≤ t.
Proof.
  split; [vm_compute; reflexivity|].
  apply (counters_invariant ds_root false false (ds_one None)).
  vm_compute; reflexivity.
Defined.

(** ** Counting without write failures *)

Lemma verdict_touched p w w' q :
  touched p w w' → q ≠ p → q ≠ with_tmp_suffix p →
  is_bad w' q = is_bad w q ∧ is_dirty w' q = is_dirty w q.
Proof.
  intros (Ht & _ & _ & Hf) Hq Hq'. unfold is_bad, is_dirty.
  rewrite !needs_cleaning_eq, Ht, (Hf q Hq Hq').
  destruct (decide _); [done|]. destruct (files w !! q) as [data|]; [|done].
  by destruct (header_model data).
Qed.

Lemma verdict_say_if b l w p :
  is_dirty (say_if b l w) p = is_dirty w p ∧
  is_bad (say_if b l w) p = is_bad w p.
Proof.
  unfold is_bad, is_dirty. rewrite !needs_cleaning_eq.
  destruct b; [|done]. cbn [say_if say tree files].
  destruct (decide _); [done|]. destruct (files w !! p) as [data|]; [|done].
  by destruct (header_model data).
Qed.

Lemma count_if_ext f g ps :
  (∀ p, p ∈ ps → f p = g p) → count_if f ps = count_if g ps.
Proof.
  unfold count_if. induction ps as [|p ps IH]; intros H; [done|].
  rewrite !filter_cons, (H p) by left.
  destruct (decide (g p = true)); cbn; rewrite IH; auto.
  all: intros q Hq; apply H; by right.
Qed.

Lemma count_if_cons f p ps :
  count_if f (p :: ps) = (if f p then 1 else 0) + count_if f ps.
Proof.
  unfold count_if. rewrite filter_cons.
  destruct (f p); [by rewrite decide_True|by rewrite decide_False].
Qed.

Lemma count_if_Permutation f ps qs :
  ps ≡ₚ qs → count_if f ps = count_if f qs.
Proof. intros H. unfold count_if. by rewrite H. Qed.

(** One iteration when nothing can go wrong with writing. *)
Lemma visit_nofault verbose p t w :
  fsize_limit w = None → tree w !! with_tmp_suffix p = None →
  ∃ w', visit false verbose p t w =
        Ok (Tally (total t + 1)
              (changed t + (if is_dirty w p then 1 else 0))
              (errors t + (if is_bad w p then 1 else 0))) w'.
Proof.
  intros Hlim Htmp. rewrite visit_eq. unfold is_dirty, is_bad.
  rewrite needs_cleaning_eq.
  assert (Hfin : ∀ a b c a' b' c' (w1 : world),
            a = a' → b = b' → c = c' →
            ∃ w', Ok (Tally a b c) w1 = Ok (Tally a' b' c') w').
  { intros. subst. eauto. }
  destruct (decide (is_Some (tree w !! p))) as [|Hp]; [apply Hfin; lia|].
  destruct (files w !! p) as [data|] eqn:Hf; [|apply Hfin; lia].
  destruct (header_model data) as [m|] eqn:Hm; [|apply Hfin; lia].
  cbv zeta. destruct (_ || _); [|apply Hfin; lia].
  apply eq_None_not_Some in Hp.
  rewrite (clean_file_unlimited p w data m) by done.
  apply Hfin; lia.
Qed.

Lemma visit_all_nofault verbose ps t w :
  NoDup ps → Forall (λ p, matches_gz p = true) ps →
  fsize_limit w = None →
  (∀ p, p ∈ ps → tree w !! with_tmp_suffix p = None) →
  ∃ w', visit_all false verbose ps t w =
        Ok (Tally (total t + length ps)
              (changed t + count_if (is_dirty w) ps)
              (errors t + count_if (is_bad w) ps)) w'.
Proof.
  revert t w. induction ps as [|p ps IH]; intros t w Hnd Hgz Hlim Htmp.
  - exists w. cbn. f_equal. destruct t. unfold count_if. cbn. f_equal; lia.
  - apply NoDup_cons in Hnd as [Hp Hnd]. apply Forall_cons in Hgz as [Hg Hgz].
    destruct (visit_nofault verbose p t w) as [w1 Hv]; [done|apply Htmp; left|].
    pose proof (visit_touched _ _ _ _ _ _ _ Hv) as Ht.
    destruct (IH (Tally (total t + 1)
                    (changed t + (if is_dirty w p then 1 else 0))
                    (errors t + (if is_bad w p then 1 else 0))) w1)
      as [w' Hall]; [done|done|..].
    { destruct Ht as (_ & -> & _). done. }
    { intros q Hq. destruct Ht as (-> & _). apply Htmp. by right. }
    exists w'. cbn [visit_all]. rewrite bind_unfold, Hv, Hall.
    assert (Hsame : ∀ q, q ∈ ps →
              is_bad w1 q = is_bad w q ∧ is_dirty w1 q = is_dirty w q).
    { intros q Hq. apply (verdict_touched p); [done|set_solver|].
      apply not_eq_sym, with_tmp_suffix_ne_gz.
      by eapply (proj1 (Forall_forall _ _) Hgz). }
    rewrite (count_if_ext (is_dirty w1) (is_dirty w)) by (intros; by apply Hsame).
    rewrite (count_if_ext (is_bad w1) (is_bad w)) by (intros; by apply Hsame).
    rewrite !count_if_cons. cbn [total changed errors length].
    f_equal. f_equal; lia.
Qed.

(** ** C8: every file is counted *)

Lemma clean_fails_touched q w w' p :
  touched q w w' → p ≠ q → p ≠ with_tmp_suffix q →
  clean_fails w' p = clean_fails w p.
Proof.
  intros (Ht & Hl & _ & Hf) Hp Hp'. unfold clean_fails.
  rewrite !clean_file_eq, Ht, Hl, (Hf p Hp Hp').
  destruct (decide _); [done|]. destruct (files w !! p) as [data|]; [|done].
  destruct (header_model data) as [m|]; [|done]. cbv zeta.
  destruct (decide _); [done|].
  by destruct (rewrite_header_only _ _).
Qed.

Lemma clean_fails_say_if b l w p :
  clean_fails (say_if b l w) p = clean_fails w p.
Proof.
  destruct b; [|done]. unfold clean_fails. rewrite !clean_file_eq.
  cbn [say_if say tree files fsize_limit].
  destruct (decide _); [done|]. destruct (files w !! p) as [data|]; [|done].
  destruct (header_model data) as [m|]; [|done]. cbv zeta.
  destruct (decide _); [done|].
  by destruct (rewrite_header_only _ _).
Qed.

(** One iteration, whatever fails. *)
Lemma visit_counts_exact verbose p t w :
  ∃ w', visit false verbose p t w =
        Ok (Tally (total t + 1)
              (changed t + (if counts_changed w p then 1 else 0))
              (errors t + (if counts_error w p then 1 else 0))) w'.
Proof.
  rewrite visit_eq.
  unfold counts_changed, counts_error, is_dirty, is_bad, clean_fails.
  pose proof (clean_file_not_Timeout p w) as Hnt.
  assert (Hfin : ∀ a b c a' b' c' (w1 : world),
            a = a' → b = b' → c = c' →
            ∃ w', Ok (Tally a b c) w1 = Ok (Tally a' b' c') w').
  { intros. subst. eauto. }
  pose proof (needs_cleaning_world p w) as Hw.
  destruct (needs_cleaning p w) as [[[[[nm nf] nk] flg] mt] w0|e w0|];
    [| |done].
  - cbv zeta. destruct (nm || nf); [|apply Hfin; cbn; lia].
    destruct (clean_file p w) as [[] w1|e w1|]; [| |done];
      apply Hfin; cbn; lia.
  - apply Hfin; cbn; lia.
Qed.

Lemma visit_all_counts_exact verbose ps t w :
  NoDup ps → Forall (λ p, matches_gz p = true) ps →
  ∃ w', visit_all false verbose ps t w =
        Ok (Tally (total t + length ps)
              (changed t + count_if (counts_changed w) ps)
              (errors t + count_if (counts_error w) ps)) w'.
Proof.
  revert t w. induction ps as [|p ps IH]; intros t w Hnd Hgz.
  - exists w. cbn. f_equal. destruct t. unfold count_if. cbn. f_equal; lia.
  - apply NoDup_cons in Hnd as [Hp Hnd]. apply Forall_cons in Hgz as [Hg Hgz].
    destruct (visit_counts_exact verbose p t w) as [w1 Hv].
    pose proof (visit_touched _ _ _ _ _ _ _ Hv) as Ht.
    destruct (IH (Tally (total t + 1)
                    (changed t + (if counts_changed w p then 1 else 0))
                    (errors t + (if counts_error w p then 1 else 0))) w1)
      as [w' Hall]; [done|done|].
    exists w'. cbn [visit_all]. rewrite bind_unfold, Hv, Hall.
    assert (Hsame : ∀ q, q ∈ ps →
              counts_changed w1 q = counts_changed w q ∧
              counts_error w1 q = counts_error w q).
    { intros q Hq. unfold counts_changed, counts_error.
      assert (Hqp : q ≠ p) by set_solver.
      assert (Hqt : q ≠ with_tmp_suffix p).
      { apply not_eq_sym, with_tmp_suffix_ne_gz.
        by eapply (proj1 (Forall_forall _ _) Hgz). }
      destruct (verdict_touched p w w1 q Ht Hqp Hqt) as [-> ->].
      by rewrite (clean_fails_touched p w w1 q Ht Hqp Hqt). }
    rewrite (count_if_ext (counts_changed w1) (counts_changed w))
      by (intros; by apply Hsame).
    rewrite (count_if_ext (counts_error w1) (counts_error w))
      by (intros; by apply Hsame).
    rewrite !count_if_cons. cbn [total changed errors length].
    f_equal. f_equal; lia.
Qed.




(** ** C2: which files the driver rewrites *)

Lemma clean_flag_bits b :
  truthy (Z.land (byte_val (clean_flag b)) FEXTRA) =
    truthy (Z.land (byte_val b) FEXTRA) ∧
  truthy (Z.land (byte_val (clean_flag b)) FCOMMENT) =
    truthy (Z.land (byte_val b) FCOMMENT) ∧
  truthy (Z.land (byte_val (clean_flag b)) FNAME) = false ∧
  truthy (Z.land (byte_val (clean_flag b)) FHCRC) = false.
Proof. destruct b; vm_compute; done. Qed.

Lemma clean_flag_fixed b :
  clean_flag b = b → truthy (Z.land (byte_val b) FNAME) = false.
Proof.
  intros E. rewrite <- E. apply clean_flag_bits.
Qed.

Lemma take_cleaned_bytes data m :
  10 ≤ length data →
  take 10 (cleaned_bytes data m) = cleaned_header (take 10 data).
Proof.
  intros Hlen. unfold cleaned_bytes. apply take_app_length'.
  destruct (cleaned_header_spec (take 10 data)) as (?&?&?&?&?&?&?&?&?&?&_&->).
  - rewrite length_take. lia.
  - reflexivity.
Qed.

(** A file the predicate wants rewritten is changed by the rewrite. *)
Lemma cleaned_bytes_differ data m e1 e2 e3 :
  layout data m e1 e2 e3 →
  m_mtime m ≠ 0%Z ∨ flag m FNAME = true →
  cleaned_bytes data m ≠ data.
Proof.
  intros L Hd E. destruct L.
  apply (f_equal (take 10)) in E. rewrite take_cleaned_bytes in E by done.
  destruct (cleaned_header_spec (take 10 data))
    as (id1 & id2 & cm & flg & t0 & t1 & t2 & t3 & xfl & os & Hh & Hc).
  { rewrite length_take. lia. }
  rewrite Hc, Hh in E. injection E as Ef <- <- <- <-.
  destruct Hd as [Hmt|Hfn].
  - apply Hmt. rewrite lay_mtime0, <- (slice_take data 10) by lia.
    rewrite Hh. reflexivity.
  - unfold flag in Hfn. unfold getitem in lay_flg0.
    assert (data !! 3 = Some flg) as Hl.
    { rewrite <- (lookup_take_lt data 10 3) by lia. by rewrite Hh. }
    rewrite Hl in lay_flg0. injection lay_flg0 as Hflg.
    rewrite <- Hflg, (clean_flag_fixed _ Ef) in Hfn. done.
Qed.

(** C2. For a ".gz" file whose header parses, the driver (not in dry-run
    mode, nothing preventing the write) changes the file if and only if
    [mtime != 0] or the FNAME bit is set, and then the file holds the cleaned
    bytes; otherwise the world is left exactly as it was, whatever the FHCRC
    bit. *)
Theorem driver_rewrites_iff verbose p t w data m f :
  tree w !! p = None → files w !! p = Some data →
  parse_gzip_header (open_rb data) = Ok m f →
  fsize_limit w = None → tree w !! with_tmp_suffix p = None →
  ∃ t' w',
    visit false verbose p t w = Ok t' w' ∧
    (files w' !! p ≠ Some data ↔ m_mtime m ≠ 0%Z ∨ flag m FNAME = true) ∧
    (m_mtime m ≠ 0%Z ∨ flag m FNAME = true →
     files w' !! p = Some (cleaned_bytes data m)) ∧
    (m_mtime m = 0%Z → flag m FNAME = false → w' = w) ∧
    (flag m FHCRC = true → m_mtime m = 0%Z → flag m FNAME = false →
     t' = Tally (total t + 1) (changed t) (errors t) ∧ w' = w).
Proof.
  intros Hp Hf [Hm _]%parse_Ok Hlim Htmp.
  pose proof Hm as (e1 & e2 & e3 & L)%model_layout.
  rewrite visit_eq, needs_cleaning_eq.
  rewrite decide_False by (rewrite Hp; by intros [? ?]).
  rewrite Hf, Hm. cbv zeta.
  destruct (negb (m_mtime m =? 0)%Z) eqn:Hmt;
    [apply negb_true_iff, Z.eqb_neq in Hmt
    |apply negb_false_iff, Z.eqb_eq in Hmt].
  - rewrite orb_true_l, (clean_file_unlimited p w data m) by done.
    eexists _, _. split; [reflexivity|].
    assert (Hnew : files (say_if verbose
                (Cleaned (name p) (issues_of true (flag m FNAME)
                   (flag m FHCRC) (m_mtime m)))
                (set_files (<[p:=cleaned_bytes data m]>
                   (delete (with_tmp_suffix p) (files w))) w)) !! p =
              Some (cleaned_bytes data m)).
    { destruct verbose; cbn; apply lookup_insert_eq. }
    rewrite Hnew. split_and?; [|done|done..].
    split; [auto|]. intros _ [= E].
    by apply (cleaned_bytes_differ _ _ _ _ _ L) in E; auto.
  - rewrite orb_false_l. destruct (flag m FNAME) eqn:Hfn.
    + rewrite (clean_file_unlimited p w data m) by done.
      eexists _, _. split; [reflexivity|].
      assert (Hnew : files (say_if verbose
                (Cleaned (name p) (issues_of false true
                   (flag m FHCRC) (m_mtime m)))
                (set_files (<[p:=cleaned_bytes data m]>
                   (delete (with_tmp_suffix p) (files w))) w)) !! p =
              Some (cleaned_bytes data m)).
      { destruct verbose; cbn; apply lookup_insert_eq. }
      rewrite Hnew. split_and?; [|done|done..].
      split; [auto|]. intros _ [= E].
      by apply (cleaned_bytes_differ _ _ _ _ _ L) in E; auto.
    + eexists _, _. split; [reflexivity|].
      split_and?; [|intros [?|?]; done|done|done].
      split; [done|]. intros [?|?]; done.
Qed.

(** C2 on a file with only the FHCRC bit: the visit changes nothing. *)
Lemma driver_rewrites_iff_witness :
  visit false true ds_a (Tally 0 0 0) ds_fhcrc = Ok (Tally 1 0 0) ds_fhcrc.
Proof.
  destruct (driver_rewrites_iff true ds_a (Tally 0 0 0) ds_fhcrc sample_fhcrc
              (Meta (take 10 sample_fhcrc) 2 0
                 (Offsets 0 10 None None None None None None (Some 10) 12))
              (RFile sample_fhcrc 12))
    as (t' & w' & Hv & _ & _ & _ & H); [vm_compute; reflexivity..|].
  destruct H as [-> ->]; [vm_compute; reflexivity..|]. exact Hv.
Defined.

(** ** C4: the cleaned bytes parse again, and need no cleaning *)

Lemma find_nul_intro out s body rest :
  drop s out = body ++ x00 :: rest → x00 ∉ body →
  find_nul out s = Some (s + S (length body)).
Proof.
  intros Hd Hb. unfold find_nul.
  assert (list_find (λ b, b = x00) (drop s out) = Some (length body, x00))
    as ->; [|done].
  rewrite Hd. apply list_find_Some. split_and?.
  - by rewrite lookup_app_r, Nat.sub_diag by lia.
  - done.
  - intros j y Hj Hlt ->. rewrite lookup_app_l in Hj by done.
    apply Hb. by eapply list_elem_of_lookup_2.
Qed.

Lemma cleaned_layout data m e1 e2 e3 :
  layout data m e1 e2 e3 →
  ∃ m' e3',
    layout (cleaned_bytes data m) m' e1 e1 e3' ∧
    m_mtime m' = 0%Z ∧ flag m' FNAME = false ∧ flag m' FHCRC = false.
Proof.
  intros L. pose proof (layout_order _ _ _ _ _ L) as Hord.
  pose proof (layout_spans _ _ _ _ _ L) as (HE & _ & HC & _).
  destruct L.
  destruct (cleaned_header_spec (take 10 data))
    as (id1 & id2 & cm & flg & t0 & t1 & t2 & t3 & xfl & os & Hh & Hc).
  { rewrite length_take. lia. }
  assert (Hflg : m_flg m = byte_val flg).
  { rewrite <- (getitem_take data 10 3), Hh in lay_flg0 by lia.
    by injection lay_flg0. }
  destruct (clean_flag_bits flg) as (HbE & HbC & HbN & HbK).
  set (out := cleaned_bytes data m).
  assert (Hout : out = [id1; id2; cm; clean_flag flg; x00; x00; x00; x00;
                        xfl; os] ++
                       slice data 10 e1 ++ slice data e2 e3 ++ payload data m).
  { unfold out, cleaned_bytes. by rewrite Hc, HE, HC. }
  exists (Meta (take 10 out) (byte_val (clean_flag flg)) 0
            (Offsets 0 10 (extra_len_off (m_off m)) (extra_end (m_off m))
               None None
               (if flag m FCOMMENT then Some e1 else None)
               (if flag m FCOMMENT then Some (e1 + (e3 - e2)) else None)
               None (e1 + (e3 - e2)))),
         (e1 + (e3 - e2)).
  unfold flag in *. meta_simpl. split_and?; try done.
  split; unfold flag; meta_simpl;
    rewrite ?HbN, ?HbK, ?HbE, ?HbC, <- ?Hflg; try done.
  - rewrite Hout. cbn. lia.
  - rewrite <- lay_magic0, <- (slice_take data 10 0 2), Hh, Hout by lia. done.
  - rewrite <- lay_cm0, <- (getitem_take data 10 2), Hh, Hout by lia. done.
  - rewrite Hout. done.
  - rewrite Hout. done.
  - destruct (truthy (Z.land (m_flg m) FEXTRA)); [|done].
    destruct lay_extra0 as (? & ? & Hl12 & He1). split_and?; try done.
    + rewrite Hout. cbn [length app]. rewrite length_app. unfold slice at 1.
      rewrite length_take, length_drop. lia.
    + assert (slice out 10 12 = slice data 10 12) as ->; [|done].
      rewrite Hout. unfold slice. cbn [drop app Nat.sub]. rewrite drop_0.
      rewrite take_app_le by (rewrite length_take, length_drop; lia).
      rewrite take_take. f_equal. lia.
  - destruct (truthy (Z.land (m_flg m) FCOMMENT)); [|split_and?; try done; lia].
    destruct lay_fcomment0 as (_ & _ & Hfind). split_and?; try done.
    apply find_nul_Some in Hfind as (Hlt & body & Hbody & Hnb).
    assert (Hlen : e3 - e2 = S (length body)).
    { rewrite <- (length_slice data e2 e3), Hbody, length_app by lia.
      cbn. lia. }
    rewrite Hlen. apply (find_nul_intro _ _ _ (payload data m)); [|done].
    rewrite Hout, Hbody, <- (assoc_L (++)).
    rewrite drop_app_ge by (cbn; lia). cbn [length].
    rewrite drop_app_length'; [done|]. rewrite length_slice by lia. done.
Qed.

Lemma visit_clean dry_run verbose p t w t' w' :
  is_dirty w p = false → visit dry_run verbose p t w = Ok t' w' →
  files w' = files w ∧ tree w' = tree w.
Proof.
  unfold is_dirty. rewrite visit_eq.
  destruct (needs_cleaning p w) as [[[[[nm nf] nk] flg] mt] w0|e w0|];
    [| |done].
  - cbv zeta. intros ->. by intros [= _ <-].
  - intros _ [= _ <-]. by destruct verbose.
Qed.

(** A ".gz" file that needs no cleaning keeps its bytes through the loop,
    whatever other files are visited. *)
Lemma visit_all_keeps_clean dry_run verbose p ps :
  matches_gz p = true →
  ∀ t w t' w',
    is_dirty w p = false →
    visit_all dry_run verbose ps t w = Ok t' w' →
    files w' !! p = files w !! p.
Proof.
  intros Hgz. induction ps as [|q ps IH]; intros t w t' w' Hd.
  - by intros [= _ <-].
  - cbn [visit_all]. rewrite bind_unfold.
    destruct (visit_Ok dry_run verbose q t w) as (t1 & w1 & Hv). rewrite Hv.
    intros Hall. destruct (decide (q = p)) as [->|Hq].
    + destruct (visit_clean _ _ _ _ _ _ _ Hd Hv) as [Hf Ht].
      assert (Hd1 : is_dirty w1 p = false).
      { unfold is_dirty in *. rewrite needs_cleaning_eq in *.
        rewrite Hf, Ht. destruct (decide _); [done|].
        destruct (files w !! p) as [data|]; [|done].
        by destruct (header_model data). }
      by rewrite (IH _ _ _ _ Hd1 Hall), Hf.
    + pose proof (visit_touched _ _ _ _ _ _ _ Hv) as Htou.
      assert (p ≠ with_tmp_suffix q) as Hp
        by (by apply not_eq_sym, with_tmp_suffix_ne_gz).
      destruct (verdict_touched q w w1 p Htou) as [_ Hd1]; [done..|].
      rewrite Hd in Hd1. rewrite (IH _ _ _ _ Hd1 Hall).
      destruct Htou as (_ & _ & _ & Hf). by apply Hf.
Qed.

Lemma run_keeps_clean root dry_run verbose p w :
  matches_gz p = true → is_dirty w p = false →
  match clean_gzip_headers root dry_run verbose w with
  | Ok _ w' | Raise _ w' => files w' !! p = files w !! p
  | Timeout => False
  end.
Proof.
  intros Hgz Hd. unfold clean_gzip_headers.
  destruct (negb (path_exists root w)); [done|].
  destruct (decide (rglob_gz root w = [])).
  - rewrite bind_unfold, when_print. cbn. by destruct verbose.
  - rewrite bind_unfold, when_print, bind_unfold.
    set (w0 := say_if verbose _ w).
    destruct (visit_all_Ok dry_run verbose (sorted (rglob_gz root w))
                (Tally 0 0 0) w0) as (t' & w' & Hall & _).
    rewrite Hall. cbn [mret io_mret].
    assert (Hd0 : is_dirty w0 p = false)
      by (unfold w0; by rewrite (proj1 (verdict_say_if _ _ _ _))).
    rewrite (visit_all_keeps_clean _ _ _ _ Hgz _ _ _ _ Hd0 Hall).
    unfold w0. by destruct verbose.
Qed.

(** C4. After a successful [clean_file] the check of the file reports that
    nothing is needed (MTIME zero, FNAME and FHCRC bits clear); visiting it
    again leaves the world as it is; and a whole run, over any directory and
    from any world in which the file still holds these bytes (the end of the
    first run is one), leaves the file's bytes as the cleaning wrote them. *)
Theorem cleaning_idempotent p w w1 :
  clean_file p w = Ok tt w1 →
  (∃ flg, needs_cleaning p w1 = Ok (false, false, false, flg, 0%Z) w1) ∧
  (∀ dry_run verbose t,
     visit dry_run verbose p t w1 =
     Ok (Tally (total t + 1) (changed t) (errors t)) w1) ∧
  (matches_gz p = true →
   ∀ w2 root dry_run verbose,
     files w2 !! p = files w1 !! p → tree w2 !! p = None →
     match clean_gzip_headers root dry_run verbose w2 with
     | Ok _ w3 | Raise _ w3 => files w3 !! p = files w1 !! p
     | Timeout => False
     end).
Proof.
  intros (data & m & Hp & Hf & Hm & ->)%clean_file_Ok.
  apply model_layout in Hm as (e1 & e2 & e3 & L).
  destruct (cleaned_layout _ _ _ _ _ L) as (m' & e3' & L' & Hmt & Hfn & Hfk).
  assert (Hm' : header_model (cleaned_bytes data m) = Val m')
    by (apply model_layout; eauto).
  set (w1 := set_files _ w).
  assert (Hnc : needs_cleaning p w1 =
                Ok (false, false, false, m_flg m', 0%Z) w1).
  { rewrite needs_cleaning_eq. unfold w1. cbn [set_files tree files].
    rewrite decide_False by (rewrite Hp; by intros [? ?]).
    rewrite lookup_insert_eq, Hm', Hmt, Hfn, Hfk. reflexivity. }
  split_and?.
  - eauto.
  - intros dry_run verbose t. rewrite visit_eq, Hnc. reflexivity.
  - intros Hgz w2 root dry_run verbose Hf2 Ht2. rewrite <- Hf2.
    apply run_keeps_clean; [done|].
    unfold is_dirty. rewrite needs_cleaning_eq.
    rewrite decide_False by (rewrite Ht2; by intros [? ?]).
    rewrite Hf2. unfold w1. cbn [set_files files].
    by rewrite lookup_insert_eq, Hm', Hmt, Hfn.
Qed.

(** C4 on the one-file dataset: cleaned once, the file needs nothing. *)
Lemma cleaning_idempotent_witness :
  ∃ w1, clean_file ds_a (ds_one None) = Ok tt w1 ∧
        ∃ flg, needs_cleaning ds_a w1 = Ok (false, false, false, flg, 0%Z) w1.
Proof.
  eexists. split; [vm_compute; reflexivity|].
  refine (proj1 (cleaning_idempotent ds_a (ds_one None) _ _)).
  vm_compute; reflexivity.
Defined.

(** ** C5: truncated optional fields *)

Lemma find_nul_None data from :
  x00 ∉ drop from data → find_nul data from = None.
Proof.
  intros H. unfold find_nul.
  assert (list_find (λ b, b = x00) (drop from data) = None) as ->; [|done].
  apply list_find_None, Forall_forall. by intros x Hx ->.
Qed.

(** Without FEXTRA, a stored name or (without a name) a comment that is not
    terminated before the end of the file is reported by the parser. *)
Lemma unterminated_cstring_raises data flg :
  10 ≤ length data → slice data 0 2 = [x1f; x8b] →
  getitem data 2 = Val 8%Z → getitem data 3 = Val flg →
  truthy (Z.land flg FEXTRA) = false → x00 ∉ drop 10 data →
  (truthy (Z.land flg FNAME) = true →
   ∃ f, parse_gzip_header (open_rb data) =
        Raise (ValueError "Truncated FNAME") f) ∧
  (truthy (Z.land flg FNAME) = false → truthy (Z.land flg FCOMMENT) = true →
   ∃ f, parse_gzip_header (open_rb data) =
        Raise (ValueError "Truncated FCOMMENT") f).
Proof.
  intros Hlen Hmag Hcm Hflg HE Hnul.
  assert (Hm : ∀ msg, (truthy (Z.land flg FNAME) = true ∧
                        msg = "Truncated FNAME"%string) ∨
                      (truthy (Z.land flg FNAME) = false ∧
                       truthy (Z.land flg FCOMMENT) = true ∧
                       msg = "Truncated FCOMMENT"%string) →
            header_model data = Exn (ValueError msg)).
  { intros msg Hcase. unfold header_model.
    rewrite decide_False by lia.
    rewrite decide_False by (intros Hc; by apply Hc).
    rewrite Hcm. cbn [mbind result_bind Z.eqb Pos.eqb negb].
    rewrite Hflg. cbn [mbind result_bind]. rewrite HE.
    cbn [mbind result_bind]. unfold cstring_model.
    destruct Hcase as [[-> ->]|(-> & -> & ->)];
      cbn [mbind result_bind]; by rewrite (find_nul_None _ _ Hnul). }
  split.
  - intros HN. apply model_Exn_parse, Hm. by left.
  - intros HN HC. apply model_Exn_parse, Hm. by right.
Qed.

Example truncated_name_detected :
  parse_gzip_header (open_rb sample_truncated_name) =
  Raise (ValueError "Truncated FNAME") (RFile sample_truncated_name 14).
Proof. vm_compute. reflexivity. Qed.

Example truncated_comment_detected :
  parse_gzip_header (open_rb sample_truncated_comment) =
  Raise (ValueError "Truncated FCOMMENT") (RFile sample_truncated_comment 14).
Proof. vm_compute. reflexivity. Qed.

Example truncated_xlen_detected :
  parse_gzip_header (open_rb sample_truncated_xlen) =
  Raise (ValueError "Truncated EXTRA length") (RFile sample_truncated_xlen 11).
Proof. vm_compute. reflexivity. Qed.

(** C5 at its failing inputs: the parser accepts a file that ends inside the
    FHCRC field and a file that ends inside the FEXTRA data, with offsets
    beyond the end of the file; the driver then rewrites the first, dropping
    the stray CRC byte, instead of reporting an error and leaving it alone. *)
Theorem truncated_fields_accepted :
  parse_gzip_header (open_rb sample_truncated_crc) =
    Ok (Meta (take 10 sample_truncated_crc) 2 0x01000000
          (Offsets 0 10 None None None None None None (Some 10) 12))
       (RFile sample_truncated_crc 12) ∧
  length sample_truncated_crc = 11 ∧
  parse_gzip_header (open_rb sample_truncated_extra) =
    Ok (Meta (take 10 sample_truncated_extra) 4 0x01000000
          (Offsets 0 10 (Some 10) (Some 17) None None None None None 17))
       (RFile sample_truncated_extra 17) ∧
  length sample_truncated_extra = 14 ∧
  ∃ w1, visit false false ds_a (Tally 0 0 0) (ds_with sample_truncated_crc) =
          Ok (Tally 1 1 0) w1 ∧
        files w1 !! ds_a =
          Some [x1f; x8b; x08; x00; x00; x00; x00; x00; x00; x03].
Proof.
  split_and?; [vm_compute; reflexivity..|].
  eexists. split; vm_compute; reflexivity.
Qed.

(** ** C6: dry-run mode *)

Lemma visit_dry_run verbose p t w t' w' :
  visit true verbose p t w = Ok t' w' →
  files w' = files w ∧ changed t' = changed t.
Proof.
  rewrite visit_eq.
  destruct (needs_cleaning p w) as [[[[[nm nf] nk] flg] mt] w0|e w0|];
    [| |done].
  - cbv zeta. destruct (nm || nf); intros [= <- <-]; by destruct verbose.
  - intros [= <- <-]. by destruct verbose.
Qed.

(** In dry-run mode no file is written, and the count returned as
    [changed] is zero whatever the files need. *)
Lemma dry_run_never_writes root verbose w :
  match clean_gzip_headers root true verbose w with
  | Ok (_, c, _) w' => files w' = files w ∧ c = 0
  | Raise _ w' => w' = w
  | Timeout => False
  end.
Proof.
  unfold clean_gzip_headers. destruct (negb (path_exists root w)); [done|].
  destruct (decide (rglob_gz root w = [])).
  { rewrite bind_unfold, when_print. cbn. by destruct verbose. }
  rewrite bind_unfold, when_print, bind_unfold.
  set (w0 := say_if verbose _ w).
  assert (Hf0 : files w0 = files w) by (unfold w0; by destruct verbose).
  clearbody w0. revert Hf0.
  assert (Hc0 : changed (Tally 0 0 0) = 0) by done. revert Hc0.
  generalize (Tally 0 0 0) as t. revert w0.
  induction (sorted (rglob_gz root w)) as [|p ps IH]; intros w0 t Hc0 Hf0.
  - done.
  - cbn [visit_all]. rewrite bind_unfold.
    destruct (visit_Ok true verbose p t w0) as (t1 & w1 & Hv). rewrite Hv.
    apply visit_dry_run in Hv as [Hf Hc]. apply IH; congruence.
Qed.

(** C6 at its failing input: one file that needs cleaning, dry-run mode.
    Nothing is written, and the run returns and prints 0 as the number of
    files that would be cleaned, although the check asks to clean one. *)
Theorem dry_run_reports_zero :
  is_dirty (ds_one None) ds_a = true ∧
  clean_gzip_headers ds_root true false (ds_one None) =
    Ok (1, 0, 0) (ds_one None) ∧
  ∃ w', main (Args ds_root true false false) (ds_one None) = Ok 0 w' ∧
        stdout w' = [DryRunComplete 1 0 0] ∧
        files w' = files (ds_one None).
Proof.
  split_and?; [vm_compute; reflexivity..|].
  eexists. split_and?; vm_compute; reflexivity.
Qed.

(** ** C7: what is printed about a failure *)

Lemma main_eq a w :
  main a w =
  match clean_gzip_headers (directory a) (dry_run a)
          (verbose a && negb (quiet a)) w with
  | Ok (t, c, e) w1 =>
      Ok 0 (if quiet a then w1
            else say_if (bool_decide (0 < e)) (HadErrors e)
                   (say (summary_line a t c e) w1))
  | Raise e w1 =>
      Ok 1 (World (files w1) (tree w1) (fsize_limit w1) (stdout w1)
              (stderr w1 ++ [FatalError e]))
  | Timeout => Timeout
  end.
Proof.
  unfold main, try_except. rewrite bind_unfold.
  destruct (clean_gzip_headers _ _ _ w) as [[[t c] e] w1|e w1|]; [|done..].
  rewrite bind_unfold. unfold summary_line.
  destruct (quiet a); [done|]. cbn [negb when].
  rewrite bind_unfold.
  destruct (dry_run a); [cbn [print]; by rewrite when_print|].
  destruct (decide (0 < c)); cbn [print]; by rewrite when_print.
Qed.

(** C7, as stated, fails: in the default mode (neither verbose nor quiet)
    the failure of a malformed file is counted, but no line about the file
    is printed; the output is the two summary lines only. *)
Lemma default_mode_prints_no_file_error :
  is_bad (ds_with sample_malformed) ds_a = true ∧
  ∃ w', main (Args ds_root false false false) (ds_with sample_malformed) =
          Ok 0 w' ∧
        stdout w' = [AllClean 1; HadErrors 1] ∧ stderr w' = [].
Proof.
  split; [vm_compute; reflexivity|].
  eexists. split_and?; vm_compute; reflexivity.
Qed.

(** C7, amended.  Every failure of the check or of the rewrite of a file
    adds one to [errors].  The line about the file is printed exactly when
    the loop runs verbose, which [main] asks for when [--verbose] is given
    without [--quiet]; otherwise nothing is printed for the file.  [main]
    prints the count of errors after the summary line when it is positive
    and [--quiet] is off, and prints nothing with [--quiet]. *)
Theorem failure_counted_and_reported dry v p t w :
  (∀ e w0, needs_cleaning p w = Raise e w0 →
     visit dry v p t w =
     Ok (Tally (total t + 1) (changed t) (errors t + 1))
        (say_if v (ErrorChecking (name p) e) w)) ∧
  (∀ e w1, is_dirty w p = true → clean_file p w = Raise e w1 →
     visit false v p t w =
     Ok (Tally (total t + 1) (changed t) (errors t + 1))
        (say_if v (ErrorCleaning (name p) e) w1)) ∧
  (∀ a n c e w1,
     clean_gzip_headers (directory a) (dry_run a)
       (verbose a && negb (quiet a)) w = Ok (n, c, e) w1 →
     main a w =
     Ok 0 (if quiet a then w1
           else say_if (bool_decide (0 < e)) (HadErrors e)
                  (say (summary_line a n c e) w1))).
Proof.
  split_and?.
  - intros e w0 H. by rewrite visit_eq, H.
  - intros e w1 Hd H. rewrite visit_eq. unfold is_dirty in Hd.
    destruct (needs_cleaning p w) as [[[[[nm nf] nk] flg] mt] w0|e0 w0|];
      [|done..].
    cbv zeta. by rewrite Hd, H.
  - intros a n c e w1 H. by rewrite main_eq, H.
Qed.

(** C7, amended, on the malformed file in the default mode: counted under
    [errors], nothing printed by the loop. *)
Lemma failure_counted_and_reported_witness :
  visit false false ds_a (Tally 0 0 0) (ds_with sample_malformed) =
  Ok (Tally 1 0 1) (ds_with sample_malformed).
Proof.
  refine (proj1 (failure_counted_and_reported false false ds_a (Tally 0 0 0)
                   (ds_with sample_malformed))
            (ValueError "Not a gzip member") (ds_with sample_malformed) _).
  vm_compute; reflexivity.
Defined.

(** ** C9: the run does not depend on the order of the walk *)

Lemma same_dirs (tr tr' : gmap path (list path)) (p : path) :
  dom tr = dom tr' → (is_Some (tr !! p) ↔ is_Some (tr' !! p)).
Proof. intros H. by rewrite <- !elem_of_dom, H. Qed.

Lemma walk_blind_ret {A} (a : A) : walk_blind (mret a).
Proof. done. Qed.

Lemma walk_blind_bind {A B} (m : io world A) (k : A → io world B) :
  walk_blind m → (∀ a, walk_blind (k a)) → walk_blind (m ≫= k).
Proof.
  intros Hm Hk w. destruct (Hm w) as [Ht Hr]. split.
  - rewrite bind_unfold. destruct (m w) as [a w1|e w1|]; [|done..].
    destruct (Hk a w1) as [Ht1 _].
    destruct (k a w1); [congruence..|done].
  - intros tr Hd. rewrite !bind_unfold, (Hr tr Hd).
    destruct (m w) as [a w1|e w1|]; [|done..].
    cbn [retree_outcome]. apply Hk. by rewrite Ht.
Qed.

Lemma walk_blind_try {A} (m : io world A) (h : exn → io world A) :
  walk_blind m → (∀ e, walk_blind (h e)) → walk_blind (try_except m h).
Proof.
  intros Hm Hh w. destruct (Hm w) as [Ht Hr]. unfold try_except. split.
  - destruct (m w) as [a w1|e w1|]; [done| |done].
    destruct (Hh e w1) as [Ht1 _].
    destruct (h e w1); [congruence..|done].
  - intros tr Hd. rewrite (Hr tr Hd).
    destruct (m w) as [a w1|e w1|]; [done| |done].
    cbn [retree_outcome]. apply Hh. by rewrite Ht.
Qed.

Lemma walk_blind_print l : walk_blind (print l).
Proof. done. Qed.

Lemma walk_blind_when b m : walk_blind m → walk_blind (when b m).
Proof. by destruct b. Qed.

Lemma walk_blind_open_read p : walk_blind (open_read p).
Proof.
  intros w. unfold open_read. split.
  - destruct (decide _); [done|]. by destruct (files w !! p).
  - intros tr Hd. cbn [retree tree files].
    pose proof (same_dirs _ _ p Hd).
    destruct (decide (is_Some (tr !! p))), (decide (is_Some (tree w !! p)));
      try tauto; try done; by destruct (files w !! p).
Qed.

Lemma walk_blind_open_write p : walk_blind (open_write p).
Proof.
  intros w. unfold open_write. split.
  - by destruct (decide _).
  - intros tr Hd. cbn [retree tree files].
    pose proof (same_dirs _ _ p Hd).
    by destruct (decide (is_Some (tr !! p))), (decide (is_Some (tree w !! p)));
      try tauto.
Qed.

Lemma walk_blind_os_replace src dst : walk_blind (os_replace src dst).
Proof.
  intros w. unfold os_replace. split.
  - destruct (files w !! src); [|done]. by destruct (decide _).
  - intros tr Hd. cbn [retree tree files].
    pose proof (same_dirs _ _ dst Hd).
    destruct (files w !! src); [|done].
    by destruct (decide (is_Some (tr !! dst))),
                (decide (is_Some (tree w !! dst))); try tauto.
Qed.

Lemma walk_blind_close_into tmp r : walk_blind (close_into tmp r).
Proof. intros w. unfold close_into. by destruct r. Qed.

Lemma walk_blind_reading {A} f (m : io rfile A) : walk_blind (reading f m).
Proof. intros w. unfold reading. by destruct (m f). Qed.

Global Hint Resolve walk_blind_ret walk_blind_print walk_blind_when
  walk_blind_open_read walk_blind_open_write walk_blind_os_replace
  walk_blind_close_into walk_blind_reading : io.

Ltac walk_blind_tac :=
  repeat (first [ apply walk_blind_bind; [|intros ?]
                | apply walk_blind_try; [|intros ?]
                | solve [auto with io]
                | match goal with
                  | |- walk_blind (match ?x with _ => _ end) => destruct x
                  end ]).

Lemma walk_blind_needs_cleaning p : walk_blind (needs_cleaning p).
Proof. unfold needs_cleaning. walk_blind_tac. Qed.

Lemma walk_blind_clean_file p : walk_blind (clean_file p).
Proof. unfold clean_file, rewrite_into. walk_blind_tac. Qed.

Global Hint Resolve walk_blind_needs_cleaning walk_blind_clean_file : io.

Lemma walk_blind_visit dry_run verbose p t :
  walk_blind (visit dry_run verbose p t).
Proof. unfold visit. walk_blind_tac. Qed.

Lemma walk_blind_visit_all dry_run verbose ps t :
  walk_blind (visit_all dry_run verbose ps t).
Proof.
  revert t. induction ps as [|p ps IH]; intros t; cbn [visit_all].
  - apply walk_blind_ret.
  - apply walk_blind_bind; [apply walk_blind_visit|done].
Qed.

Lemma rglob_gz_retree root tr w :
  default [] (tr !! root) ≡ₚ default [] (tree w !! root) →
  rglob_gz root (retree tr w) ≡ₚ rglob_gz root w.
Proof. intros H. unfold rglob_gz. cbn [retree tree]. by rewrite H. Qed.

Lemma path_exists_retree root tr w :
  dom tr = dom (tree w) → path_exists root (retree tr w) = path_exists root w.
Proof.
  intros Hd. unfold path_exists. cbn [retree tree files]. f_equal.
  apply bool_decide_ext, same_dirs, Hd.
Qed.



Example ds_ten_run :
  ∃ w', clean_gzip_headers ds_root false false ds_ten = Ok (10, 3, 1) w' ∧
        files w' !! ds_file "f1.gz" = Some sample_clean ∧
        files w' !! ds_file "f5.gz" = Some sample_malformed ∧
        files w' !! with_tmp_suffix (ds_file "f1.gz") = None.
Proof. eexists. split_and?; vm_compute; reflexivity. Qed.

(** * Further properties *)

(** ** Bytes as numbers *)

Lemma byte_val_range b : (0 ≤ byte_val b < 256)%Z.
Proof.
  pose proof (Byte.to_N_bounded b) as H. unfold byte_val. lia.
Qed.

Lemma byte_val_inj a b : byte_val a = byte_val b → a = b.
Proof.
  intros H. assert (Hn : Byte.to_N a = Byte.to_N b) by (unfold byte_val in H; lia).
  pose proof (Byte.of_to_N a) as Ha. pose proof (Byte.of_to_N b) as Hb.
  rewrite Hn in Ha. congruence.
Qed.

Lemma le_value_zero l : le_value l = 0%Z ↔ Forall (λ b, b = x00) l.
Proof.
  induction l as [|x l IH]; cbn [le_value]; [by split|].
  pose proof (byte_val_range x) as Hx.
  assert (Hl : (0 ≤ le_value l)%Z).
  { clear. induction l as [|y l IH]; cbn [le_value]; [lia|].
    pose proof (byte_val_range y). lia. }
  rewrite Forall_cons, <- IH. split.
  - intros H. split; [apply byte_val_inj; change (byte_val x00) with 0%Z|]; lia.
  - intros [-> ->]. reflexivity.
Qed.

Lemma le_value_range l : (0 ≤ le_value l < 256 ^ Z.of_nat (length l))%Z.
Proof.
  induction l as [|x l IH]; cbn [le_value length]; [lia|].
  pose proof (byte_val_range x). rewrite Nat2Z.inj_succ, Z.pow_succ_r by lia.
  lia.
Qed.

Lemma flag_testbit b :
  truthy (Z.land (byte_val b) FHCRC) = Z.testbit (byte_val b) 1 ∧
  truthy (Z.land (byte_val b) FEXTRA) = Z.testbit (byte_val b) 2 ∧
  truthy (Z.land (byte_val b) FNAME) = Z.testbit (byte_val b) 3 ∧
  truthy (Z.land (byte_val b) FCOMMENT) = Z.testbit (byte_val b) 4.
Proof. destruct b; vm_compute; done. Qed.

Lemma getitem_Val data i v :
  getitem data i = Val v → ∃ b, data !! i = Some b ∧ v = byte_val b.
Proof.
  unfold getitem. destruct (data !! i) as [b|]; [|done].
  intros [= <-]. eauto.
Qed.

(** ** What the parser rejects *)

Lemma header_model_Exn data e :
  header_model data = Exn e →
  e ∈ [ValueError "Not a gzip member"; ValueError "Truncated EXTRA length";
       ValueError "Truncated FNAME"; ValueError "Truncated FCOMMENT"].
Proof.
  unfold header_model. intros H.
  destruct (decide (length data < 10)) as [|Hlen]; [injection H as <-; set_solver|].
  destruct (decide (slice data 0 2 ≠ _)); [injection H as <-; set_solver|].
  unfold getitem in H.
  destruct (data !! 2) eqn:H2; [|apply lookup_ge_None in H2; lia].
  destruct (data !! 3) eqn:H3; [|apply lookup_ge_None in H3; lia].
  cbn [mbind result_bind] in H.
  destruct (negb _); [injection H as <-; set_solver|].
  unfold cstring_model in H.
  repeat
    (match type of H with
     | context [truthy ?x] => destruct (truthy x)
     | context [find_nul ?d ?i] => destruct (find_nul d i)
     | context [@decide ?P ?d] => destruct (@decide P d)
     end; cbn [mbind result_bind] in H; try done);
    injection H as <-; set_solver.
Qed.

Lemma header_model_not_gzip data :
  header_model data = Exn (ValueError "Not a gzip member") ↔
  length data < 10 ∨ take 3 data ≠ [x1f; x8b; x08].
Proof.
  unfold header_model.
  destruct (decide (length data < 10)) as [|Hlen]; [by split; auto|].
  destruct data as [|a [|b [|c data]]]; try (cbn in Hlen; lia).
  unfold slice, getitem.
  cbn [drop take Nat.sub lookup list_lookup mbind result_bind].
  destruct (decide ([a; b] ≠ _)) as [Hm|Hm].
  { split; [|done]. intros _. right. intros [= -> -> ->]. by apply Hm. }
  apply dec_stable in Hm. injection Hm as -> ->.
  destruct (byte_val c =? 8)%Z eqn:Hc; cbn [negb].
  - apply Z.eqb_eq in Hc. apply (byte_val_inj c x08) in Hc as ->.
    split; [|intros [?|?]; [lia|done]].
    intros H. exfalso. destruct data as [|flg data]; [cbn in Hlen; lia|].
    cbn [lookup list_lookup mbind result_bind] in H. unfold cstring_model in H.
    repeat
      (match type of H with
       | context [truthy ?x] => destruct (truthy x)
       | context [find_nul ?d ?i] => destruct (find_nul d i)
       | context [@decide ?P ?d] => destruct (@decide P d)
       end; cbn [mbind result_bind] in H; try done).
  - split; [|done]. intros _. right. intros [= ->]. done.
Qed.

(** X1. The parser raises [ValueError("Not a gzip member")] exactly when
    the file has fewer than ten bytes or does not start with the magic bytes
    1f 8b followed by the compression method 08. *)
Theorem parse_rejects_non_gzip data :
  (∃ f, parse_gzip_header (open_rb data) =
        Raise (ValueError "Not a gzip member") f) ↔
  length data < 10 ∨ take 3 data ≠ [x1f; x8b; x08].
Proof.
  rewrite <- header_model_not_gzip. split.
  - intros [f Hf]. by apply parse_Raise in Hf.
  - apply model_Exn_parse.
Qed.

(** X2. On every input the parser ends: it either returns, leaving the
    cursor at [payload_start], or raises a [ValueError] carrying one of its
    four messages.  The [IndexError] and [struct.error] its indexing and
    unpacking could raise never escape, and the scanning loops terminate. *)
Theorem parse_raises_only_value_errors data :
  (∃ m, parse_gzip_header (open_rb data) =
        Ok m (RFile data (payload_start (m_off m)))) ∨
  (∃ msg f, parse_gzip_header (open_rb data) = Raise (ValueError msg) f ∧
            content f = data ∧
            msg ∈ ["Not a gzip member"; "Truncated EXTRA length";
                   "Truncated FNAME"; "Truncated FCOMMENT"]%string).
Proof.
  pose proof (parse_refines data) as H. unfold agrees in H.
  destruct (parse_gzip_header _) as [m f|e f|];
    destruct (header_model data) as [m'|e'] eqn:Hm; try done.
  - destruct H as [<- ->]. eauto.
  - destruct H as [-> Hc]. right. apply header_model_Exn in Hm.
    repeat (apply elem_of_cons in Hm as [->|Hm]);
      [..|by apply elem_of_nil in Hm];
      do 2 eexists; (split_and?; [reflexivity|done|set_solver]).
Qed.

(** ** Which truncations the parser detects *)

Lemma find_nul_None_iff data from :
  find_nul data from = None ↔ x00 ∉ drop from data.
Proof.
  split; [|apply find_nul_None].
  unfold find_nul. destruct (list_find _ _) as [[i x]|] eqn:Hf; [done|].
  intros _ Hin. apply list_find_None in Hf.
  by apply (proj1 (Forall_forall _ _) Hf) in Hin.
Qed.

Lemma header_model_valid data flg :
  10 ≤ length data → take 3 data = [x1f; x8b; x08] →
  getitem data 3 = Val flg →
  header_model data =
  '(extra_len_off, extra_end, idx) ←
    (if truthy (Z.land flg FEXTRA) then
       if decide (length (slice data 10 12) < 2) then
         Exn (ValueError "Truncated EXTRA length")
       else
         let e := 12 + Z.to_nat (le_value (slice data 10 12)) in
         Val (Some 10, Some e, e)
     else Val (None, None, 10)) ;
  '(fname_start, fname_end, idx) ←
    cstring_model "Truncated FNAME" (truthy (Z.land flg FNAME)) data idx ;
  '(fcomment_start, fcomment_end, idx) ←
    cstring_model "Truncated FCOMMENT" (truthy (Z.land flg FCOMMENT)) data idx ;
  let '(fhcrc_off, idx) :=
    if truthy (Z.land flg FHCRC) then (Some idx, idx + 2) else (None, idx) in
  Val (Meta (take 10 data) flg (le_value (slice data 4 8))
         (Offsets 0 10 extra_len_off extra_end fname_start fname_end
                  fcomment_start fcomment_end fhcrc_off idx)).
Proof.
  intros Hlen Hmagic Hflg. unfold header_model.
  rewrite decide_False by lia.
  destruct data as [|a [|b [|c data]]]; try done.
  injection Hmagic as -> -> ->.
  rewrite decide_False by (intros Hc; by apply Hc).
  change (getitem (x1f :: x8b :: x08 :: data) 2) with (Val (A:=Z) 8%Z).
  cbn [mbind result_bind Z.eqb Pos.eqb negb]. by rewrite Hflg.
Qed.

(** X3. For a file that starts as a gzip member, the three truncation
    errors, each with the exact condition under which the parser raises it:
    "Truncated EXTRA length" when FEXTRA is set and fewer than two bytes
    follow the fixed header; "Truncated FNAME" when FNAME is set and no NUL
    byte occurs from where the name starts; "Truncated FCOMMENT" when
    FCOMMENT is set and no NUL byte occurs from where the comment starts
    (after the name and its NUL, if there is a name). *)
Theorem parse_truncation_errors data flg :
  10 ≤ length data → take 3 data = [x1f; x8b; x08] →
  getitem data 3 = Val flg →
  let fextra := truthy (Z.land flg FEXTRA) in
  let fname := truthy (Z.land flg FNAME) in
  let fcomment := truthy (Z.land flg FCOMMENT) in
  let e1 := if fextra then 12 + Z.to_nat (le_value (slice data 10 12))
            else 10 in
  ((∃ f, parse_gzip_header (open_rb data) =
         Raise (ValueError "Truncated EXTRA length") f) ↔
   fextra = true ∧ length data < 12) ∧
  ((∃ f, parse_gzip_header (open_rb data) =
         Raise (ValueError "Truncated FNAME") f) ↔
   (fextra = true → 12 ≤ length data) ∧ fname = true ∧ x00 ∉ drop e1 data) ∧
  ((∃ f, parse_gzip_header (open_rb data) =
         Raise (ValueError "Truncated FCOMMENT") f) ↔
   (fextra = true → 12 ≤ length data) ∧ fcomment = true ∧
   if fname
   then ∃ e2, find_nul data e1 = Some e2 ∧ x00 ∉ drop e2 data
   else x00 ∉ drop e1 data).
Proof.
  intros Hlen Hmagic Hflg. cbv zeta.
  assert (Hraise : ∀ msg,
    (∃ f, parse_gzip_header (open_rb data) = Raise (ValueError msg) f) ↔
    header_model data = Exn (ValueError msg)).
  { intros msg. split; [intros [f Hf]; by apply parse_Raise in Hf|].
    apply model_Exn_parse. }
  rewrite !Hraise, (header_model_valid data flg) by done.
  unfold cstring_model.
  assert (Hnul : ∀ i e, find_nul data i = Some e → x00 ∈ drop i data).
  { intros i e Hf. destruct (decide (x00 ∈ drop i data)) as [|Hn]; [done|].
    apply find_nul_None_iff in Hn. congruence. }
  repeat
    (match goal with
     | |- context [truthy ?x] => destruct (truthy x)
     | |- context [find_nul ?d ?i] =>
         let H := fresh "Hf" in
         destruct (find_nul d i) eqn:H;
         [pose proof (Hnul _ _ H)|apply find_nul_None_iff in H]
     | |- context [@decide ?P ?d] =>
         let H := fresh "Hx" in
         destruct (@decide P d) as [H|H]; rewrite length_slice_lt2 in H
     end; cbn [mbind result_bind]);
    (split_and?; (split;
     [let H := fresh in
      intros H; try discriminate H; split_and?; intros;
      try done; try lia; eauto
     |intros; destruct_and?;
      repeat match goal with
             | H : ∃ _, _ |- _ => destruct H as (? & ? & ?)
             | H : true = true → _ |- _ => specialize (H eq_refl)
             end;
      simplify_eq; try done; try lia])).
Qed.

(** X3 on a file whose stored name has no terminating NUL. *)
Lemma parse_truncation_errors_witness :
  ∃ f, parse_gzip_header (open_rb sample_truncated_name) =
       Raise (ValueError "Truncated FNAME") f.
Proof.
  refine (proj2 (proj1 (proj2
            (parse_truncation_errors sample_truncated_name 8 _ _ _))) _).
  - cbn. lia.
  - reflexivity.
  - reflexivity.
  - split; [intros H; discriminate H|]. split; [reflexivity|].
    apply (bool_decide_unpack _). vm_compute. exact I.
Defined.

(** ** The offsets the parser records *)

(** X4. What a successful parse returns: the first ten bytes as [h], the
    flag byte and a 32-bit MTIME in range, [start = 0] and [after_fixed = 10];
    the offsets of an optional field are recorded exactly when its flag bit
    is set; each recorded field starts where the previous one ends, in the
    order FEXTRA, FNAME, FCOMMENT, FHCRC, and [payload_start] follows the
    last of them; the NUL-terminated fields end inside the file. *)
Theorem parse_offsets_well_formed data m f :
  parse_gzip_header (open_rb data) = Ok m f →
  let o := m_off m in
  let a := default 10 (extra_end o) in
  let b := default a (fname_end o) in
  let c := default b (fcomment_end o) in
  f = RFile data (payload_start o) ∧
  m_h m = take 10 data ∧ start o = 0 ∧ after_fixed o = 10 ∧
  (0 ≤ m_flg m < 256)%Z ∧ (0 ≤ m_mtime m < 2 ^ 32)%Z ∧
  extra_len_off o = (if flag m FEXTRA then Some 10 else None) ∧
  (is_Some (extra_end o) ↔ flag m FEXTRA = true) ∧
  fname_start o = (if flag m FNAME then Some a else None) ∧
  (is_Some (fname_end o) ↔ flag m FNAME = true) ∧
  fcomment_start o = (if flag m FCOMMENT then Some b else None) ∧
  (is_Some (fcomment_end o) ↔ flag m FCOMMENT = true) ∧
  fhcrc_off o = (if flag m FHCRC then Some c else None) ∧
  payload_start o = c + (if flag m FHCRC then 2 else 0) ∧
  (flag m FEXTRA = true → 12 ≤ a) ∧
  10 ≤ a ∧ (flag m FNAME = true → a < b ≤ length data) ∧ a ≤ b ∧
  (flag m FCOMMENT = true → b < c ≤ length data) ∧ b ≤ c.
Proof.
  intros [Hm ->]%parse_Ok. apply model_layout in Hm as (e1 & e2 & e3 & L).
  pose proof (layout_order _ _ _ _ _ L) as Hord.
  destruct L as [Hlen _ _ Hh Hflg Hmtime Hst Haf HE HN HC HK].
  apply getitem_Val in Hflg as (b3 & _ & Hflg).
  pose proof (byte_val_range b3). pose proof (le_value_range (slice data 4 8)) as Hmt.
  rewrite length_slice in Hmt by lia.
  cbv zeta.
  destruct (flag m FEXTRA), (flag m FNAME), (flag m FCOMMENT), (flag m FHCRC);
    destruct_and?;
    repeat match goal with
           | H : find_nul _ _ = Some _ |- _ => apply find_nul_Some in H as [? _]
           | H : _ = Some _ |- _ => rewrite H
           | H : _ = None |- _ => rewrite H
           end; cbn [default from_option id];
    rewrite ?Hmtime, ?Hflg; subst;
    (split_and?; intros; try done; try lia;
     try (split; [by intros [? ?]|done]); try (split; [done|eauto])).
Qed.

(** X4 on the sample with a stored name: the name starts at offset 10 and
    the payload at 19. *)
Lemma parse_offsets_well_formed_witness :
  ∃ m, parse_gzip_header (open_rb sample_named) = Ok m (RFile sample_named 19) ∧
       payload_start (m_off m) = 19 ∧ fname_start (m_off m) = Some 10.
Proof.
  eexists. split; [vm_compute; reflexivity|].
  pose proof (parse_offsets_well_formed sample_named _ _ parse_sample_named) as H.
  cbv zeta in H. destruct H as (_ & _ & _ & _ & _ & _ & _ & _ & H1 & _ & _ & _ & _ & H2 & _).
  split; [exact H2|exact H1].
Defined.

(** ** The check, read off the bytes *)

(** X5. A successful check does not change the world, and its five results
    are read off bytes 3 to 7 of the file: [flg] is byte 3, [mtime] the
    little-endian value of bytes 4..7, [need_mtime] is false exactly when
    these four bytes are zero, [need_fname] is bit 3 and [need_fhcrc] bit 1
    of the flag byte. *)
Theorem needs_cleaning_reads_header p w nm nf nk flg mt w' :
  needs_cleaning p w = Ok (nm, nf, nk, flg, mt) w' →
  w' = w ∧
  ∃ data, files w !! p = Some data ∧
          getitem data 3 = Val flg ∧
          mt = le_value (slice data 4 8) ∧
          (nm = false ↔ slice data 4 8 = [x00; x00; x00; x00]) ∧
          nf = Z.testbit flg 3 ∧ nk = Z.testbit flg 1.
Proof.
  rewrite needs_cleaning_eq.
  destruct (decide _); [done|].
  destruct (files w !! p) as [data|]; [|done].
  destruct (header_model data) as [m|] eqn:Hm; [|done].
  intros [= <- <- <- <- <- <-]. split; [done|]. exists data.
  apply model_layout in Hm as (e1 & e2 & e3 & L).
  destruct L as [Hlen _ _ _ Hflg Hmtime _ _ _ _ _ _].
  pose proof Hflg as (b3 & _ & Hb)%getitem_Val.
  destruct (flag_testbit b3) as (Hk & _ & Hn & _).
  unfold flag. rewrite Hb, Hk, Hn, Hmtime.
  split; [done|]. split; [by rewrite <- Hb|]. split; [done|]. split; [|done].
  rewrite negb_false_iff, Z.eqb_eq, le_value_zero.
  assert (Hl : length (slice data 4 8) = 4) by (rewrite length_slice; lia).
  destruct (slice data 4 8) as [|a [|b [|c [|d [|]]]]]; try done.
  rewrite !Forall_cons. split.
  - by intros (-> & -> & -> & -> & _).
  - by intros [= -> -> -> ->].
Qed.

(** X5 on the one-file dataset: the flag byte is 08 and MTIME is not zero. *)
Lemma needs_cleaning_reads_header_witness :
  needs_cleaning ds_a (ds_one None) =
    Ok (true, true, false, 8%Z, 0x78563412%Z) (ds_one None) ∧
  ∃ data, files (ds_one None) !! ds_a = Some data ∧
          getitem data 3 = Val 8%Z ∧ slice data 4 8 ≠ [x00; x00; x00; x00].
Proof.
  assert (H : needs_cleaning ds_a (ds_one None) =
              Ok (true, true, false, 8%Z, 0x78563412%Z) (ds_one None))
    by (vm_compute; reflexivity).
  split; [exact H|].
  destruct (needs_cleaning_reads_header _ _ _ _ _ _ _ _ H)
    as (_ & data & Hf & Hflg & _ & Hnm & _).
  exists data. split_and?; [done..|].
  intros Hz. apply Hnm in Hz. discriminate Hz.
Defined.

(** ** Bytes after the header *)

Lemma slice_app_le b tail i j :
  j ≤ length b → slice (b ++ tail) i j = slice b i j.
Proof.
  intros Hj. unfold slice. destruct (decide (i ≤ j)) as [Hi|Hi].
  - rewrite drop_app_le by lia. rewrite take_app_le; [done|].
    rewrite length_drop. lia.
  - by replace (j - i) with 0 by lia.
Qed.

Lemma find_nul_app data tail s e :
  find_nul data s = Some e → find_nul (data ++ tail) s = Some e.
Proof.
  intros H. pose proof (find_nul_Some _ _ _ H) as [Hse _].
  unfold find_nul in *. rewrite drop_app_le by lia.
  destruct (list_find _ (drop s data)) as [[i x]|] eqn:Hf; [|done].
  by rewrite (list_find_app_l _ _ _ _ _ Hf).
Qed.

Lemma layout_app data tail m e1 e2 e3 :
  layout data m e1 e2 e3 → layout (data ++ tail) m e1 e2 e3.
Proof.
  intros [Hlen Hmagic Hcm Hh Hflg Hmtime Hst Haf HE HN HC HK].
  split; try done.
  - rewrite length_app. lia.
  - by rewrite slice_app_le by lia.
  - unfold getitem in *. rewrite lookup_app_l by lia. done.
  - by rewrite take_app_le by lia.
  - unfold getitem in *. rewrite lookup_app_l by lia. done.
  - by rewrite slice_app_le by lia.
  - destruct (flag m FEXTRA); [|done].
    destruct HE as (? & ? & ? & ?). rewrite length_app, slice_app_le by lia.
    split_and?; try done. lia.
  - destruct (flag m FNAME); [|done].
    destruct HN as (? & ? & ?). split_and?; try done. by apply find_nul_app.
  - destruct (flag m FCOMMENT); [|done].
    destruct HC as (? & ? & ?). split_and?; try done. by apply find_nul_app.
Qed.

(** X6. The parser reads the header only: whatever bytes are appended to a
    file that parses, the result is the same.  When the header is complete
    (the payload starts inside the file), the rewrite passes appended bytes,
    further members included, through unchanged. *)
Theorem trailing_bytes_pass_through data m f :
  parse_gzip_header (open_rb data) = Ok m f →
  (∀ tail, parse_gzip_header (open_rb (data ++ tail)) =
           Ok m (RFile (data ++ tail) (payload_start (m_off m)))) ∧
  (payload_start (m_off m) ≤ length data →
   ∀ tail, cleaned_bytes (data ++ tail) m = cleaned_bytes data m ++ tail).
Proof.
  intros [Hm ->]%parse_Ok. apply model_layout in Hm as (e1 & e2 & e3 & L).
  split.
  - intros tail. apply parse_Ok. split; [|done].
    apply model_layout. exists e1, e2, e3. by apply layout_app.
  - intros Hps tail.
    pose proof (layout_order _ _ _ _ _ L) as Hord.
    pose proof (layout_spans _ _ _ _ _ L) as (HE & _ & HC & _).
    pose proof (layout_spans _ _ _ _ _ (layout_app _ tail _ _ _ _ L))
      as (HE' & _ & HC' & _).
    destruct L as [Hlen _ _ _ _ _ _ _ _ _ _ _].
    unfold cleaned_bytes, payload. rewrite HE, HC, HE', HC'.
    rewrite !slice_app_le, take_app_le, drop_app_le by lia.
    by rewrite <- !(assoc_L (++)).
Qed.

(** X6 on the sample with a stored name, followed by a second member. *)
Lemma trailing_bytes_pass_through_witness :
  parse_gzip_header (open_rb (sample_named ++ sample_fhcrc)) =
  Ok (Meta (take 10 sample_named) 8 0x78563412
        (Offsets 0 10 None None (Some 10) (Some 19) None None None 19))
     (RFile (sample_named ++ sample_fhcrc) 19).
Proof.
  refine (proj1 (trailing_bytes_pass_through sample_named _
                   (RFile sample_named 19) _) sample_fhcrc).
  vm_compute; reflexivity.
Defined.

(** ** The cleaned bytes, parsed again *)

Lemma cleaned_header_idem h : cleaned_header (cleaned_header h) = cleaned_header h.
Proof.
  do 11 (destruct h as [|? h]; try reflexivity).
  cbn [cleaned_header]. do 3 f_equal.
  match goal with |- clean_flag (clean_flag ?b) :: _ = _ => by destruct b end.
Qed.

Lemma cleaned_layout_at data m e1 e2 e3 :
  layout data m e1 e2 e3 →
  ∃ m', layout (cleaned_bytes data m) m' e1 e1 (e1 + (e3 - e2)) ∧
        flag m' FEXTRA = flag m FEXTRA ∧ flag m' FCOMMENT = flag m FCOMMENT ∧
        flag m' FNAME = false ∧ flag m' FHCRC = false.
Proof.
  intros L. pose proof (layout_order _ _ _ _ _ L) as Hord.
  pose proof (layout_spans _ _ _ _ _ L) as (HE & _ & HC & _).
  destruct L as [Hlen Hmagic Hcm Hh0 Hflg0 Hmtime Hst Haf HX HN HK HR].
  destruct (cleaned_header_spec (take 10 data))
    as (id1 & id2 & cm & flg & t0 & t1 & t2 & t3 & xfl & os & Hh & Hc).
  { rewrite length_take. lia. }
  assert (Hflg : m_flg m = byte_val flg).
  { rewrite <- (getitem_take data 10 3), Hh in Hflg0 by lia.
    by injection Hflg0. }
  destruct (clean_flag_bits flg) as (HbE & HbC & HbN & HbK).
  set (out := cleaned_bytes data m).
  assert (Hout : out = [id1; id2; cm; clean_flag flg; x00; x00; x00; x00;
                        xfl; os] ++
                       slice data 10 e1 ++ slice data e2 e3 ++ payload data m).
  { unfold out, cleaned_bytes. by rewrite Hc, HE, HC. }
  exists (Meta (take 10 out) (byte_val (clean_flag flg)) 0
            (Offsets 0 10 (extra_len_off (m_off m)) (extra_end (m_off m))
               None None
               (if flag m FCOMMENT then Some e1 else None)
               (if flag m FCOMMENT then Some (e1 + (e3 - e2)) else None)
               None (e1 + (e3 - e2)))).
  unfold flag in *. meta_simpl. rewrite HbE, HbC, HbN, HbK, <- Hflg.
  split_and?; try done.
  split; unfold flag; meta_simpl;
    rewrite ?HbN, ?HbK, ?HbE, ?HbC, <- ?Hflg; try done.
  - rewrite Hout. cbn. lia.
  - rewrite <- Hmagic, <- (slice_take data 10 0 2), Hh, Hout by lia. done.
  - rewrite <- Hcm, <- (getitem_take data 10 2), Hh, Hout by lia. done.
  - rewrite Hout. done.
  - rewrite Hout. done.
  - destruct (truthy (Z.land (m_flg m) FEXTRA)); [|done].
    destruct HX as (? & ? & Hl12 & He1). split_and?; try done.
    + rewrite Hout. cbn [length app]. rewrite length_app. unfold slice at 1.
      rewrite length_take, length_drop. lia.
    + assert (slice out 10 12 = slice data 10 12) as ->; [|done].
      rewrite Hout. unfold slice. cbn [drop app Nat.sub]. rewrite drop_0.
      rewrite take_app_le by (rewrite length_take, length_drop; lia).
      rewrite take_take. f_equal. lia.
  - destruct (truthy (Z.land (m_flg m) FCOMMENT)); [|split_and?; try done; lia].
    destruct HK as (_ & _ & Hfind). split_and?; try done.
    apply find_nul_Some in Hfind as (Hlt & body & Hbody & Hnb).
    assert (Hlen' : e3 - e2 = S (length body)).
    { rewrite <- (length_slice data e2 e3), Hbody, length_app by lia.
      cbn. lia. }
    rewrite Hlen'. apply (find_nul_intro _ _ _ (payload data m)); [|done].
    rewrite Hout, Hbody, <- (assoc_L (++)).
    rewrite drop_app_ge by (cbn; lia). cbn [length].
    rewrite drop_app_length'; [done|]. rewrite length_slice by lia. done.
Qed.

(** X7. The rewritten bytes parse again; the FEXTRA and FCOMMENT fields
    and the payload read back from them are those of the input, there is no
    FNAME and no FHCRC field, and rewriting them once more gives the same
    bytes. *)
Theorem cleaned_bytes_reparse data m f :
  parse_gzip_header (open_rb data) = Ok m f →
  let out := cleaned_bytes data m in
  ∃ m' f',
    parse_gzip_header (open_rb out) = Ok m' f' ∧
    flag m' FEXTRA = flag m FEXTRA ∧ flag m' FCOMMENT = flag m FCOMMENT ∧
    extra_span out m' = extra_span data m ∧ fname_span out m' = [] ∧
    fcomment_span out m' = fcomment_span data m ∧ fhcrc_span out m' = [] ∧
    payload out m' = payload data m ∧
    cleaned_bytes out m' = out.
Proof.
  intros [Hm ->]%parse_Ok out.
  apply model_layout in Hm as (e1 & e2 & e3 & L).
  destruct (cleaned_layout_at _ _ _ _ _ L) as (m' & L' & HfE & HfC & HfN & HfK).
  fold out in L'.
  pose proof (layout_order _ _ _ _ _ L) as Hord.
  pose proof (layout_spans _ _ _ _ _ L) as (HE & _ & HC & _).
  pose proof (layout_spans _ _ _ _ _ L') as (HE' & HN' & HC' & HK').
  assert (Hps' : payload_start (m_off m') = e1 + (e3 - e2)).
  { destruct L' as [_ _ _ _ _ _ _ _ _ _ _ HR]. rewrite HfK in HR. by destruct HR. }
  assert (Hlen : 10 ≤ length data) by (by destruct L).
  assert (Hout : out = cleaned_header (take 10 data) ++
                       slice data 10 e1 ++ slice data e2 e3 ++ payload data m).
  { unfold out, cleaned_bytes. by rewrite HE, HC. }
  assert (Hh : length (cleaned_header (take 10 data)) = 10).
  { destruct (cleaned_header_spec (take 10 data))
      as (? & ? & ? & ? & ? & ? & ? & ? & ? & ? & _ & ->); [|done].
    rewrite length_take. lia. }
  assert (Hcases :
    (e1 ≤ length data ∧ length (slice data e2 e3) = e3 - e2) ∨
    (length data < e1 ∧ e2 = e1 ∧ e3 = e1 ∧ payload data m = [])).
  { destruct L as [_ _ _ _ _ _ _ _ _ HN HK _].
    destruct (flag m FNAME).
    - destruct HN as (_ & _ & [? _]%find_nul_Some). left.
      destruct (flag m FCOMMENT).
      + destruct HK as (_ & _ & [? _]%find_nul_Some).
        rewrite length_slice by lia. lia.
      + destruct HK as (_ & _ & ->). unfold slice.
        rewrite Nat.sub_diag. split; [lia|done].
    - destruct HN as (_ & _ & ->). destruct (flag m FCOMMENT).
      + destruct HK as (_ & _ & [? _]%find_nul_Some). left.
        rewrite length_slice by lia. lia.
      + destruct HK as (_ & _ & ->).
        destruct (decide (e1 ≤ length data)); [left|right].
        * unfold slice. rewrite Nat.sub_diag. split; [lia|done].
        * split_and?; try done; try lia. unfold payload.
          apply drop_ge. lia. }
  assert (Hspans :
    slice out 10 e1 = slice data 10 e1 ∧
    slice out e1 (e1 + (e3 - e2)) = slice data e2 e3 ∧
    drop (e1 + (e3 - e2)) out = payload data m).
  { destruct Hcases as [[He1 HlC]|(He1 & -> & -> & HP)].
    - assert (HlE : length (slice data 10 e1) = e1 - 10)
        by (rewrite length_slice; lia).
      assert (Hd10 : drop 10 out = slice data 10 e1 ++ slice data e2 e3 ++
                                   payload data m)
        by (rewrite Hout; by apply drop_app_length').
      assert (Hd1 : drop e1 out = slice data e2 e3 ++ payload data m).
      { replace e1 with (10 + (e1 - 10)) by lia.
        rewrite <- drop_drop, Hd10. by apply drop_app_length'. }
      split_and?.
      + unfold slice at 1. rewrite Hd10. by apply take_app_length'.
      + unfold slice at 1. rewrite Hd1.
        replace (e1 + (e3 - e2) - e1) with (e3 - e2) by lia.
        by apply take_app_length'.
      + rewrite <- drop_drop, Hd1. by apply drop_app_length'.
    - rewrite Nat.sub_diag, Nat.add_0_r. rewrite Hout, HP.
      assert (slice data e1 e1 = []) as ->
        by (unfold slice; by rewrite Nat.sub_diag).
      rewrite !app_nil_r.
      assert (HlE : length (slice data 10 e1) ≤ e1 - 10).
      { unfold slice. rewrite length_take. lia. }
      split_and?.
      + unfold slice at 1. rewrite drop_app_length' by done.
        by apply take_ge.
      + unfold slice. by rewrite Nat.sub_diag.
      + apply drop_ge. rewrite length_app. lia. }
  destruct Hspans as (HsE & HsC & HsP).
  assert (HN0 : fname_span out m' = [])
    by (rewrite HN'; unfold slice; by rewrite Nat.sub_diag).
  assert (HK0 : fhcrc_span out m' = [])
    by (rewrite HK', Hps'; unfold slice; by rewrite Nat.sub_diag).
  assert (HP0 : payload out m' = payload data m)
    by (unfold payload at 1; by rewrite Hps').
  exists m', (RFile out (payload_start (m_off m'))).
  split_and?; try done.
  - apply parse_Ok. split; [|done]. apply model_layout. eauto.
  - by rewrite HE', HE.
  - by rewrite HC', HC.
  - unfold cleaned_bytes at 1. rewrite HE', HC', HP0, HsE, HsC.
    unfold out at 1. rewrite take_cleaned_bytes, cleaned_header_idem by done.
    by rewrite Hout.
Qed.

(** X7 on the sample with a stored name. *)
Lemma cleaned_bytes_reparse_witness :
  ∃ m m' f',
    parse_gzip_header (open_rb (cleaned_bytes sample_named m)) = Ok m' f' ∧
    payload (cleaned_bytes sample_named m) m' = payload sample_named m ∧
    cleaned_bytes (cleaned_bytes sample_named m) m' = cleaned_bytes sample_named m.
Proof.
  eexists.
  edestruct (cleaned_bytes_reparse sample_named) as (m' & f' & H1 & _ & _ & _ & _ & _ & _ & H2 & H3);
    [vm_compute; reflexivity|].
  exists m', f'. split_and?; [exact H1|exact H2|exact H3].
Defined.

(** ** When the rewrite is the identity *)

Lemma clean_flag_id b :
  truthy (Z.land (byte_val b) FNAME) = false →
  truthy (Z.land (byte_val b) FHCRC) = false → clean_flag b = b.
Proof. destruct b; vm_compute; intros; done. Qed.

(** X8. The rewrite of a parsed file returns the very bytes it was given
    exactly when MTIME is zero and neither the FNAME nor the FHCRC bit is
    set. *)
Theorem rewrite_identity_iff data m f :
  parse_gzip_header (open_rb data) = Ok m f →
  (cleaned_bytes data m = data ↔
   m_mtime m = 0%Z ∧ flag m FNAME = false ∧ flag m FHCRC = false).
Proof.
  intros [Hm _]%parse_Ok. apply model_layout in Hm as (e1 & e2 & e3 & L).
  pose proof (cleaned_bytes_differ _ _ _ _ _ L) as Hdiff.
  pose proof (layout_decomposition _ _ _ _ _ L) as Hdec.
  pose proof (layout_absent _ _ _ _ _ L) as (_ & HN & _ & HK).
  destruct L as [Hlen _ _ _ Hflg Hmtime _ _ _ _ _ _].
  destruct (cleaned_header_spec (take 10 data))
    as (id1 & id2 & cm & flg & t0 & t1 & t2 & t3 & xfl & os & Hh & Hc).
  { rewrite length_take. lia. }
  assert (Hb : m_flg m = byte_val flg).
  { rewrite <- (getitem_take data 10 3), Hh in Hflg by lia. by injection Hflg. }
  assert (Ht : slice data 4 8 = [t0; t1; t2; t3]).
  { rewrite <- (slice_take data 10 4 8), Hh by lia. done. }
  split.
  - intros Heq.
    destruct (decide (m_mtime m = 0%Z)) as [Hmt|Hmt]; [|by destruct Hdiff; auto].
    destruct (flag m FNAME) eqn:Hfn; [by destruct Hdiff; auto|].
    split_and?; try done.
    pose proof (take_cleaned_bytes data m Hlen) as Htk.
    rewrite Heq, Hc, Hh in Htk. injection Htk as Hfl _ _ _ _.
    destruct (clean_flag_bits flg) as (_ & _ & _ & HbK).
    unfold flag. by rewrite Hb, Hfl, HbK.
  - intros (Hmt & Hfn & Hfk).
    rewrite Hdec at 2. rewrite (HN Hfn), (HK Hfk). cbn [app].
    unfold cleaned_bytes. f_equal. rewrite Hc, Hh.
    unfold flag in Hfn, Hfk. rewrite Hb in Hfn, Hfk.
    rewrite (clean_flag_id flg Hfn Hfk).
    rewrite Hmtime, Ht in Hmt. apply le_value_zero in Hmt.
    rewrite !Forall_cons in Hmt. by destruct Hmt as (-> & -> & -> & -> & _).
Qed.

(** X8 on the clean sample: its rewrite is the sample itself. *)
Lemma rewrite_identity_iff_witness :
  ∃ m f, parse_gzip_header (open_rb sample_clean) = Ok m f ∧
         cleaned_bytes sample_clean m = sample_clean.
Proof.
  exists (Meta (take 10 sample_clean) 0 0
            (Offsets 0 10 None None None None None None None 10)),
         (RFile sample_clean 10).
  assert (H : parse_gzip_header (open_rb sample_clean) =
              Ok (Meta (take 10 sample_clean) 0 0
                    (Offsets 0 10 None None None None None None None 10))
                 (RFile sample_clean 10)) by (vm_compute; reflexivity).
  split; [exact H|].
  apply (proj2 (rewrite_identity_iff _ _ _ H)). split_and?; reflexivity.
Defined.

(** ** The loop: what it leaves alone *)

Lemma visit_all_touched dry_run verbose ps :
  ∀ t w t' w',
    visit_all dry_run verbose ps t w = Ok t' w' →
    tree w' = tree w ∧ fsize_limit w' = fsize_limit w ∧ stderr w' = stderr w ∧
    ∀ q, (∀ p, p ∈ ps → q ≠ p ∧ q ≠ with_tmp_suffix p) →
         files w' !! q = files w !! q.
Proof.
  induction ps as [|p ps IH]; intros t w t' w'.
  - by intros [= _ <-].
  - cbn [visit_all]. rewrite bind_unfold.
    destruct (visit_Ok dry_run verbose p t w) as (t1 & w1 & Hv). rewrite Hv.
    intros Hall. apply visit_touched in Hv as (Ht & Hl & He & Hf).
    apply IH in Hall as (Ht' & Hl' & He' & Hf').
    split_and?; [congruence..|].
    intros q Hq. rewrite Hf'.
    + apply Hf; apply Hq; left.
    + intros p' Hp'. apply Hq. by right.
Qed.

Lemma run_touched root dry_run verbose w :
  match clean_gzip_headers root dry_run verbose w with
  | Ok _ w' | Raise _ w' =>
      tree w' = tree w ∧ fsize_limit w' = fsize_limit w ∧
      stderr w' = stderr w ∧
      ∀ q, (∀ p, p ∈ rglob_gz root w → q ≠ p ∧ q ≠ with_tmp_suffix p) →
           files w' !! q = files w !! q
  | Timeout => False
  end.
Proof.
  unfold clean_gzip_headers. destruct (negb (path_exists root w)); [done|].
  destruct (decide (rglob_gz root w = [])).
  { rewrite bind_unfold, when_print. cbn. by destruct verbose. }
  rewrite bind_unfold, when_print, bind_unfold.
  set (w0 := say_if verbose _ w).
  destruct (visit_all_Ok dry_run verbose (sorted (rglob_gz root w))
              (Tally 0 0 0) w0) as (t' & w' & Hall & _).
  rewrite Hall. cbn [mret io_mret].
  apply visit_all_touched in Hall as (Ht & Hl & He & Hf).
  assert (Hw0 : tree w0 = tree w ∧ fsize_limit w0 = fsize_limit w ∧
                stderr w0 = stderr w ∧ files w0 = files w)
    by (unfold w0; by destruct verbose).
  destruct Hw0 as (Ht0 & Hl0 & He0 & Hf0).
  split_and?; [congruence..|].
  intros q Hq. rewrite Hf, Hf0; [done|].
  intros p Hp. apply Hq.
  by rewrite <- (merge_sort_Permutation path_le (rglob_gz root w)).
Qed.

(** ** What the loop prints *)

Lemma visit_silent dry_run p t w t' w' :
  visit dry_run false p t w = Ok t' w' → stdout w' = stdout w.
Proof.
  rewrite visit_eq. pose proof (clean_file_touched p w) as Hc.
  destruct (needs_cleaning p w) as [[[[[nm nf] nk] flg] mt] w0|e w0|];
    [| |done].
  - cbv zeta. destruct (nm || nf); [|by intros [= _ <-]].
    destruct dry_run; [by intros [= _ <-]|].
    destruct (clean_file p w) as [[] w1|e w1|]; [..|done];
      intros [= _ <-]; apply Hc.
  - by intros [= _ <-].
Qed.

Lemma visit_all_silent dry_run ps :
  ∀ t w t' w',
    visit_all dry_run false ps t w = Ok t' w' → stdout w' = stdout w.
Proof.
  induction ps as [|p ps IH]; intros t w t' w'.
  - by intros [= _ <-].
  - cbn [visit_all]. rewrite bind_unfold.
    destruct (visit_Ok dry_run false p t w) as (t1 & w1 & Hv). rewrite Hv.
    intros Hall. apply visit_silent in Hv. apply IH in Hall. congruence.
Qed.

Lemma run_silent root dry_run w r w' :
  clean_gzip_headers root dry_run false w = Ok r w' → stdout w' = stdout w.
Proof.
  unfold clean_gzip_headers. destruct (negb (path_exists root w)); [done|].
  destruct (decide (rglob_gz root w = [])).
  { rewrite bind_unfold, when_print. cbn. by intros [= _ <-]. }
  rewrite bind_unfold, when_print, bind_unfold. cbn [say_if].
  destruct (visit_all _ _ _ _ w) as [t1 w1|e w1|] eqn:Hall; [|done..].
  intros [= _ <-]. by apply visit_all_silent in Hall.
Qed.

(** ** main: exit status and standard error *)

(** X10. With [--quiet] nothing is printed on standard output, and the
    exit status of [main] tells only whether the directory exists.  When it
    does the status is 0, whatever happened to the files, and nothing is
    printed on standard error.  When it does not, the status is 1 and the
    world is as before, but for the [FileNotFoundError] printed on standard
    error.  (Without [--quiet] the status also depends on standard output
    accepting the summary line.) *)
Theorem main_exit_status a w :
  quiet a = true →
  ∃ n w', main a w = Ok n w' ∧ stdout w' = stdout w ∧
    (n = 0 ∧ path_exists (directory a) w = true ∧ stderr w' = stderr w ∨
     n = 1 ∧ path_exists (directory a) w = false ∧
       w' = World (files w) (tree w) (fsize_limit w) (stdout w)
              (stderr w ++ [FatalError FileNotFoundError])).
Proof.
  intros Hq. rewrite main_eq, Hq, andb_false_r.
  destruct (path_exists (directory a) w) eqn:Hex.
  - pose proof (run_touched (directory a) (dry_run a) false w) as H.
    destruct (clean_gzip_headers (directory a) (dry_run a) false w)
      as [[[t c] e] w1|e w1|] eqn:Hrun.
    + destruct H as (_ & _ & He & _).
      exists 0, w1. split_and?; [done|by eapply run_silent|]. by left.
    + unfold clean_gzip_headers in Hrun. rewrite Hex in Hrun. cbn [negb] in Hrun.
      destruct (clean_gzip_headers_Ok (directory a) (dry_run a) false w Hex)
        as (t & c & e' & w2 & Hrun' & _).
      unfold clean_gzip_headers in Hrun'. rewrite Hex in Hrun'.
      cbn [negb] in Hrun'. congruence.
    + done.
  - rewrite clean_gzip_headers_missing by done.
    do 2 eexists. split_and?; [done..|]. by right.
Qed.

(** X10 on the dataset whose only file is not a gzip member, with
    [--quiet]: the error does not show in the exit status. *)
Lemma main_exit_status_witness :
  ∃ w', main (Args ds_root false false true) (ds_with sample_malformed) =
        Ok 0 w' ∧
        stdout w' = [] ∧ stderr w' = [].
Proof.
  destruct (main_exit_status (Args ds_root false false true)
              (ds_with sample_malformed))
    as (n & w' & Hm & Hs & [(-> & _ & He)|(_ & Hex & _)]); [reflexivity| |].
  - exists w'. split_and?; [exact Hm|exact Hs|exact He].
  - vm_compute in Hex. discriminate Hex.
Defined.

(** X11. Unless [--verbose] is given without [--quiet], the loop over the
    files prints nothing: on an existing directory [main] adds to standard
    output the summary line, followed by the error count when it is
    positive, and with [--quiet] nothing at all. *)
Theorem main_prints_summary_only a w :
  verbose a && negb (quiet a) = false →
  path_exists (directory a) w = true →
  ∃ t c e w1 w',
    clean_gzip_headers (directory a) (dry_run a) false w = Ok (t, c, e) w1 ∧
    main a w = Ok 0 w' ∧
    stdout w' =
      stdout w ++
      (if quiet a then []
       else summary_line a t c e ::
            (if bool_decide (0 < e) then [HadErrors e] else [])).
Proof.
  intros Hv Hex. rewrite main_eq, Hv.
  destruct (clean_gzip_headers_Ok (directory a) (dry_run a) false w Hex)
    as (t & c & e & w1 & Hrun & _).
  rewrite Hrun. apply run_silent in Hrun as Hs.
  exists t, c, e, w1. eexists. split_and?; [done..|].
  destruct (quiet a); [by rewrite app_nil_r|].
  destruct (bool_decide _); cbn; rewrite Hs; [|done].
  by rewrite <- (assoc_L (++)).
Qed.

(** X11 on the ten-file dataset with [--verbose --quiet]: nothing is printed. *)
Lemma main_prints_summary_only_witness :
  ∃ w', main (Args ds_root false true true) ds_ten = Ok 0 w' ∧ stdout w' = [].
Proof.
  destruct (main_prints_summary_only (Args ds_root false true true) ds_ten)
    as (t & c & e & w1 & w' & _ & Hm & Hs);
    [vm_compute; reflexivity..|].
  exists w'. split; [exact Hm|exact Hs].
Defined.

(** ** Dry runs *)

Lemma said_nil w : said [] w = w.
Proof. destruct w. unfold said. cbn. by rewrite app_nil_r. Qed.

Lemma said_app ls ls' w : said ls' (said ls w) = said (ls ++ ls') w.
Proof. unfold said. cbn. by rewrite (assoc_L (++)). Qed.

Lemma needs_cleaning_said ls w p :
  needs_cleaning p (said ls w) =
  match needs_cleaning p w with
  | Ok r _ => Ok r (said ls w)
  | Raise e _ => Raise e (said ls w)
  | Timeout => Timeout
  end.
Proof.
  rewrite !needs_cleaning_eq. cbn [said tree files].
  destruct (decide _); [done|]. destruct (files w !! p) as [data|]; [|done].
  by destruct (header_model data).
Qed.

Lemma visit_dry_run_said verbose p t ls w :
  visit true verbose p t (said ls w) =
  Ok (Tally (total t + 1) (changed t)
        (errors t + (if is_bad w p then 1 else 0)))
     (said (ls ++ if verbose then dry_run_line w p else []) w).
Proof.
  rewrite visit_eq, needs_cleaning_said. unfold is_bad, dry_run_line.
  pose proof (needs_cleaning_world p w) as Hw.
  destruct (needs_cleaning p w) as [[[[[nm nf] nk] flg] mt] w0|e w0|];
    [| |done].
  - cbv zeta. destruct (nm || nf), verbose; cbn [say_if say];
      rewrite ?app_nil_r, ?Nat.add_0_r; try done.
    unfold say, said; cbn. by rewrite <- (assoc_L (++)).
  - destruct verbose; cbn [say_if say]; rewrite ?app_nil_r; [|done].
    unfold say, said; cbn. by rewrite <- (assoc_L (++)).
Qed.

Lemma visit_all_dry_run verbose ps :
  ∀ t ls w,
    visit_all true verbose ps t (said ls w) =
    Ok (Tally (total t + length ps) (changed t)
          (errors t + count_if (is_bad w) ps))
       (said (ls ++ if verbose then flat_map (dry_run_line w) ps else []) w).
Proof.
  induction ps as [|p ps IH]; intros t ls w.
  - cbn. destruct t, verbose; cbn; rewrite ?app_nil_r;
      repeat f_equal; unfold count_if; cbn; lia.
  - cbn [visit_all]. rewrite bind_unfold, visit_dry_run_said, IH.
    rewrite count_if_cons. cbn [total changed errors length flat_map].
    f_equal; [f_equal; lia|]. f_equal. rewrite <- (assoc_L (++)).
    by destruct verbose.
Qed.

(** X12. The whole outcome of a dry run on an existing directory: it
    returns the number of [*.gz] entries, zero as [changed] and the number of
    entries whose check fails; it changes nothing but standard output, where
    a verbose run prints the number of files found (or that there is none)
    and then, in sorted order, one line for every entry that would be cleaned
    or whose check fails, and none for a clean entry. *)
Theorem dry_run_report root verbose w :
  path_exists root w = true →
  let targets := rglob_gz root w in
  clean_gzip_headers root true verbose w =
  Ok (length targets, 0, count_if (is_bad w) targets)
     (said (if verbose then
              if decide (targets = []) then [NoGzFound]
              else FoundFiles (length targets) ::
                   flat_map (dry_run_line w) (sorted targets)
            else []) w).
Proof.
  intros Hex targets. unfold clean_gzip_headers. rewrite Hex. cbn [negb].
  fold targets. destruct (decide (targets = [])) as [->|Hne].
  { rewrite bind_unfold, when_print.
    destruct verbose; cbn; [done|]. by rewrite said_nil. }
  rewrite bind_unfold, when_print, bind_unfold.
  assert (say_if verbose (FoundFiles (length targets)) w =
          said (if verbose then [FoundFiles (length targets)] else []) w) as ->.
  { destruct verbose; [done|]. by rewrite said_nil. }
  rewrite visit_all_dry_run. cbn [mret io_mret total changed errors].
  assert (Hperm : sorted targets ≡ₚ targets) by apply merge_sort_Permutation.
  rewrite sorted_length, (count_if_Permutation _ _ _ Hperm).
  by destruct verbose.
Qed.

(** X12 on the ten-file dataset: three files would be cleaned, one fails. *)
Lemma dry_run_report_witness :
  clean_gzip_headers ds_root true true ds_ten =
  Ok (10, 0, 1)
     (said [FoundFiles 10;
            WouldClean "f1.gz" [IssueMtime 0x78563412; IssueFilename];
            WouldClean "f4.gz" [IssueMtime 0x01000000];
            ErrorChecking "f5.gz" (ValueError "Not a gzip member");
            WouldClean "f7.gz" [IssueMtime 0x78563412; IssueFilename]]
        ds_ten).
Proof.
  refine (eq_trans (dry_run_report ds_root true ds_ten _) _);
    vm_compute; reflexivity.
Defined.

(** X13. With [--dry-run], [main] returns and leaves every file, the
    directory listings and the size limit as they were. *)
Theorem dry_run_changes_no_file a w :
  dry_run a = true →
  ∃ n w', main a w = Ok n w' ∧
          files w' = files w ∧ tree w' = tree w ∧
          fsize_limit w' = fsize_limit w.
Proof.
  intros Hd. rewrite main_eq, Hd.
  destruct (path_exists (directory a) w) eqn:Hex.
  - rewrite dry_run_report by done. cbv zeta.
    do 2 eexists. split; [done|].
    destruct (quiet a); [done|]. by destruct (bool_decide _).
  - rewrite clean_gzip_headers_missing by done. by do 2 eexists.
Qed.

(** X13 on the ten-file dataset. *)
Lemma dry_run_changes_no_file_witness :
  ∃ n w', main (Args ds_root true true false) ds_ten = Ok n w' ∧
          files w' = files ds_ten.
Proof.
  destruct (dry_run_changes_no_file (Args ds_root true true false) ds_ten)
    as (n & w' & Hm & Hf & _); [reflexivity|].
  exists n, w'. split; [exact Hm|exact Hf].
Defined.

(** ** A run without write failures, file by file *)

Lemma verdict_same w w' p :
  tree w' !! p = tree w !! p → files w' !! p = files w !! p →
  is_bad w' p = is_bad w p ∧ is_dirty w' p = is_dirty w p.
Proof.
  intros Ht Hf. unfold is_bad, is_dirty. rewrite !needs_cleaning_eq, Ht, Hf.
  destruct (decide _); [done|]. destruct (files w !! p) as [data|]; [|done].
  by destruct (header_model data).
Qed.

(** One iteration, seen at the file it visits. *)
Lemma visit_nofault_state verbose p t w t' w' :
  fsize_limit w = None → tree w !! with_tmp_suffix p = None →
  visit false verbose p t w = Ok t' w' →
  is_dirty w' p = false ∧ is_bad w' p = is_bad w p ∧
  (files w' !! p ≠ files w !! p ↔ is_dirty w p = true).
Proof.
  intros Hlim Htmp Hv.
  destruct (is_dirty w p) eqn:Hd.
  - revert Hv. rewrite visit_eq.
    unfold is_dirty in Hd. unfold is_bad at 2.
    pose proof (needs_cleaning_eq p w) as Hn.
    destruct (needs_cleaning p w) as [[[[[nm nf] nk] flg] mt] w0|e w0|];
      [|done..].
    cbv zeta. rewrite Hd.
    destruct (decide (is_Some (tree w !! p))) as [|Hp]; [done|].
    destruct (files w !! p) as [data|] eqn:Hf; [|done].
    destruct (header_model data) as [m|] eqn:Hm; [|done].
    injection Hn as -> -> -> -> -> ->. apply eq_None_not_Some in Hp.
    rewrite (clean_file_unlimited p w data m) by done.
    intros [= _ <-].
    apply model_layout in Hm as (e1 & e2 & e3 & L).
    destruct (cleaned_layout _ _ _ _ _ L) as (m' & e3' & L' & Hmt & Hfn & _).
    assert (Hm' : header_model (cleaned_bytes data m) = Val m')
      by (apply model_layout; eauto).
    assert (Hdiff : cleaned_bytes data m ≠ data).
    { apply (cleaned_bytes_differ _ _ _ _ _ L).
      apply orb_true_iff in Hd as [Hd|Hd]; [left|by right].
      apply negb_true_iff, Z.eqb_neq in Hd. done. }
    rewrite (proj1 (verdict_say_if _ _ _ _)), (proj2 (verdict_say_if _ _ _ _)).
    unfold is_dirty, is_bad. rewrite needs_cleaning_eq.
    cbn [set_files tree files].
    rewrite decide_False by (rewrite Hp; by intros [? ?]).
    rewrite lookup_insert_eq, Hm', Hmt, Hfn. split_and?; [done..|].
    split; [done|]. intros _.
    assert (files (say_if verbose (Cleaned (name p) (issues_of
              (negb (m_mtime m =? 0)%Z) (flag m FNAME) (flag m FHCRC)
              (m_mtime m)))
              (set_files (<[p:=cleaned_bytes data m]>
                 (delete (with_tmp_suffix p) (files w))) w)) !! p
            = Some (cleaned_bytes data m)) as ->.
    { destruct verbose; cbn; by rewrite lookup_insert_eq. }
    congruence.
  - destruct (visit_clean _ _ _ _ _ _ _ Hd Hv) as [Hf Ht].
    destruct (verdict_same w w' p) as [Hb Hd']; [by rewrite Ht|by rewrite Hf|].
    rewrite Hb, Hd', Hd, Hf. split_and?; done.
Qed.

Lemma visit_all_nofault_state verbose ps :
  NoDup ps → Forall (λ p, matches_gz p = true) ps →
  ∀ t w t' w',
    fsize_limit w = None →
    (∀ p, p ∈ ps → tree w !! with_tmp_suffix p = None) →
    visit_all false verbose ps t w = Ok t' w' →
    ∀ p, p ∈ ps →
      is_dirty w' p = false ∧ is_bad w' p = is_bad w p ∧
      (files w' !! p ≠ files w !! p ↔ is_dirty w p = true).
Proof.
  induction ps as [|q ps IH]; intros Hnd Hgz t w t' w' Hlim Htmp;
    [intros _ p Hp; by apply elem_of_nil in Hp|].
  apply NoDup_cons in Hnd as [Hq Hnd]. apply Forall_cons in Hgz as [Hg Hgz].
  cbn [visit_all]. rewrite bind_unfold.
  destruct (visit_Ok false verbose q t w) as (t1 & w1 & Hv). rewrite Hv.
  intros Hall p Hp.
  pose proof (visit_touched _ _ _ _ _ _ _ Hv) as (Ht1 & Hl1 & _ & Hf1).
  pose proof (visit_all_touched _ _ _ _ _ _ _ Hall) as (Ht' & _ & _ & Hf').
  assert (Hlim1 : fsize_limit w1 = None) by congruence.
  assert (Htmp1 : ∀ p, p ∈ ps → tree w1 !! with_tmp_suffix p = None).
  { intros p' Hp'. rewrite Ht1. apply Htmp. by right. }
  apply elem_of_cons in Hp as [->|Hp].
  - destruct (visit_nofault_state _ _ _ _ _ _ Hlim (Htmp q ltac:(left)) Hv)
      as (Hd1 & Hb1 & Hiff).
    assert (Hsame : files w' !! q = files w1 !! q).
    { apply Hf'. intros p' Hp'. split; [by intros ->|].
      apply not_eq_sym, with_tmp_suffix_ne_gz. done. }
    destruct (verdict_same w1 w' q) as [Hb Hd]; [by rewrite Ht'|done|].
    rewrite Hb, Hd, Hsame. done.
  - destruct (IH Hnd Hgz _ _ _ _ Hlim1 Htmp1 Hall p Hp) as (Hd' & Hb' & Hiff).
    assert (Hgp : matches_gz p = true)
      by (by eapply (proj1 (Forall_forall _ _) Hgz)).
    assert (Hsame : files w1 !! p = files w !! p).
    { apply Hf1; [by intros ->|].
      apply not_eq_sym, with_tmp_suffix_ne_gz. done. }
    destruct (verdict_same w w1 p) as [Hb Hd]; [by rewrite Ht1|done|].
    rewrite <- Hb, <- Hd, <- Hsame. done.
Qed.

(** Visiting files none of which needs cleaning. *)
Lemma visit_all_clean dry_run verbose ps :
  ∀ t w t' w',
    (∀ p, p ∈ ps → is_dirty w p = false) →
    visit_all dry_run verbose ps t w = Ok t' w' →
    files w' = files w ∧ tree w' = tree w ∧
    t' = Tally (total t + length ps) (changed t)
           (errors t + count_if (is_bad w) ps).
Proof.
  induction ps as [|p ps IH]; intros t w t' w' Hd.
  - intros [= <- <-]. split_and?; try done. destruct t; cbn.
    f_equal; unfold count_if; cbn; lia.
  - cbn [visit_all]. rewrite bind_unfold.
    destruct (visit dry_run verbose p t w) as [t1 w1|e w1|] eqn:Hv; [|done..].
    intros Hall.
    destruct (visit_clean _ _ _ _ _ _ _ (Hd p ltac:(left)) Hv) as [Hf Ht].
    assert (Hsame : ∀ q, is_bad w1 q = is_bad w q ∧
                         is_dirty w1 q = is_dirty w q).
    { intros q. apply verdict_same; congruence. }
    apply IH in Hall as (Hf' & Ht' & ->).
    2:{ intros q Hq. rewrite (proj2 (Hsame q)). apply Hd. by right. }
    split_and?; [congruence..|].
    rewrite (count_if_ext (is_bad w1) (is_bad w)) by (intros; apply Hsame).
    rewrite count_if_cons.
    assert (Ht1 : t1 = Tally (total t + 1) (changed t)
                         (errors t + (if is_bad w p then 1 else 0))).
    { revert Hv. rewrite visit_eq. specialize (Hd p ltac:(left)).
      unfold is_dirty in Hd. unfold is_bad.
      destruct (needs_cleaning p w) as [[[[[nm nf] nk] flg] mt] w0|e w0|];
        [| |done].
      - cbv zeta. rewrite Hd. intros [= <- _]. f_equal. lia.
      - by intros [= <- _]. }
    rewrite Ht1. cbn [total changed errors length]. f_equal; lia.
Qed.

Lemma differs_spec w w' p :
  differs w w' p = true ↔ files w' !! p ≠ files w !! p.
Proof. unfold differs. by rewrite bool_decide_eq_true. Qed.

(** A whole run without write failures: the counters, and every target
    afterwards. *)
Lemma run_nofault_state root verbose w n c e w1 :
  fsize_limit w = None →
  NoDup (rglob_gz root w) →
  Forall (λ p, tree w !! with_tmp_suffix p = None) (rglob_gz root w) →
  clean_gzip_headers root false verbose w = Ok (n, c, e) w1 →
  path_exists root w = true ∧
  n = length (rglob_gz root w) ∧
  c = count_if (is_dirty w) (rglob_gz root w) ∧
  e = count_if (is_bad w) (rglob_gz root w) ∧
  tree w1 = tree w ∧
  (rglob_gz root w = [] → files w1 = files w) ∧
  ∀ p, p ∈ rglob_gz root w →
    is_dirty w1 p = false ∧ is_bad w1 p = is_bad w p ∧
    (files w1 !! p ≠ files w !! p ↔ is_dirty w p = true).
Proof.
  intros Hlim Hnd Htmp. unfold clean_gzip_headers.
  destruct (path_exists root w); [|done]. cbn [negb].
  set (targets := rglob_gz root w) in *.
  destruct (decide (targets = [])) as [->|Hne].
  { rewrite bind_unfold, when_print. intros [= <- <- <- <-].
    split_and?; try done; try (by destruct verbose).
    intros p Hp. by apply elem_of_nil in Hp. }
  rewrite bind_unfold, when_print, bind_unfold.
  set (w0 := say_if verbose _ w).
  assert (Hperm : sorted targets ≡ₚ targets) by apply merge_sort_Permutation.
  assert (Hw0 : tree w0 = tree w ∧ fsize_limit w0 = fsize_limit w ∧
                files w0 = files w) by (unfold w0; by destruct verbose).
  destruct Hw0 as (Ht0 & Hl0 & Hf0).
  assert (Hnd' : NoDup (sorted targets)) by (by rewrite Hperm).
  assert (Hgz : Forall (λ p, matches_gz p = true) (sorted targets)).
  { rewrite Hperm. apply Forall_forall. intros p Hp.
    unfold targets, rglob_gz in Hp. by apply list_elem_of_filter in Hp as [? _]. }
  assert (Htmp' : ∀ p, p ∈ sorted targets →
                       tree w0 !! with_tmp_suffix p = None).
  { intros p Hp. rewrite Hperm in Hp. rewrite Ht0.
    by apply (proj1 (Forall_forall _ _) Htmp). }
  destruct (visit_all_nofault verbose (sorted targets) (Tally 0 0 0) w0)
    as [w' Hall]; [done|done|congruence|done|].
  rewrite Hall. cbn [mret io_mret total changed errors].
  intros [= <- <- <- <-].
  pose proof (visit_all_touched _ _ _ _ _ _ _ Hall) as (Ht' & _).
  assert (Hlim0 : fsize_limit w0 = None) by congruence.
  pose proof (visit_all_nofault_state verbose _ Hnd' Hgz _ _ _ _
                Hlim0 Htmp' Hall) as Hst.
  assert (Hv0 : ∀ p, is_dirty w0 p = is_dirty w p ∧ is_bad w0 p = is_bad w p)
    by (intros p; apply verdict_say_if).
  split_and?; try done.
  - by rewrite sorted_length.
  - rewrite (count_if_Permutation _ _ _ Hperm).
    apply count_if_ext. intros p _. apply Hv0.
  - rewrite (count_if_Permutation _ _ _ Hperm).
    apply count_if_ext. intros p _. apply Hv0.
  - congruence.
  - intros p Hp. rewrite <- Hperm in Hp.
    destruct (Hst p Hp) as (Hd & Hb & Hiff).
    rewrite <- (proj1 (Hv0 p)), <- (proj2 (Hv0 p)), <- Hf0. done.
Qed.

(** X14. In a run in which no write fails, [changed] is the number of
    [*.gz] entries whose bytes are not what they were before the run, and
    these entries are exactly those whose check asked for a rewrite. *)
Theorem changed_counts_rewritten_files root verbose w n c e w1 :
  fsize_limit w = None →
  NoDup (rglob_gz root w) →
  Forall (λ p, tree w !! with_tmp_suffix p = None) (rglob_gz root w) →
  clean_gzip_headers root false verbose w = Ok (n, c, e) w1 →
  c = count_if (differs w w1) (rglob_gz root w) ∧
  ∀ p, p ∈ rglob_gz root w →
       (files w1 !! p ≠ files w !! p ↔ is_dirty w p = true).
Proof.
  intros Hlim Hnd Htmp Hrun.
  destruct (run_nofault_state _ _ _ _ _ _ _ Hlim Hnd Htmp Hrun)
    as (_ & _ & -> & _ & _ & _ & Hst).
  split; [|intros p Hp; apply Hst, Hp].
  apply count_if_ext. intros p Hp. destruct (Hst p Hp) as (_ & _ & Hiff).
  apply eq_true_iff_eq. by rewrite differs_spec.
Qed.

(** X14 on the ten-file dataset: three files changed. *)
Lemma changed_counts_rewritten_files_witness :
  ∃ w1, clean_gzip_headers ds_root false false ds_ten = Ok (10, 3, 1) w1 ∧
        3 = count_if (differs ds_ten w1) (rglob_gz ds_root ds_ten).
Proof.
  destruct (clean_gzip_headers ds_root false false ds_ten)
    as [[[n c] e] w1|e w1|] eqn:Hrun; [|vm_compute in Hrun; discriminate..].
  assert (Hn : (n, c, e) = (10, 3, 1)).
  { revert Hrun. vm_compute. by intros [= <- <- <- _]. }
  injection Hn as -> -> ->. exists w1. split; [reflexivity|].
  refine (proj1 (changed_counts_rewritten_files ds_root false ds_ten 10 3 1 w1
                   _ _ _ Hrun)).
  - reflexivity.
  - apply (bool_decide_unpack _). vm_compute. exact I.
  - apply (bool_decide_unpack _). vm_compute. exact I.
Defined.

(** X15. After a run in which no write failed, a second run over the same
    directory, in any mode, counts the same files and the same errors,
    reports zero files changed and leaves every file as the first run left
    it. *)
Theorem second_run_changes_nothing root verbose w n c e w1 :
  fsize_limit w = None →
  NoDup (rglob_gz root w) →
  Forall (λ p, tree w !! with_tmp_suffix p = None) (rglob_gz root w) →
  clean_gzip_headers root false verbose w = Ok (n, c, e) w1 →
  ∀ dry_run' verbose',
    ∃ w2, clean_gzip_headers root dry_run' verbose' w1 = Ok (n, 0, e) w2 ∧
          files w2 = files w1.
Proof.
  intros Hlim Hnd Htmp Hrun dry_run' verbose'.
  destruct (run_nofault_state _ _ _ _ _ _ _ Hlim Hnd Htmp Hrun)
    as (Hex & -> & _ & -> & Ht & Hempty & Hst).
  assert (Htargets : rglob_gz root w1 = rglob_gz root w)
    by (unfold rglob_gz; by rewrite Ht).
  assert (Hex1 : path_exists root w1 = true).
  { unfold path_exists in *. rewrite Ht.
    destruct (tree w !! root) as [l|] eqn:Hr.
    - rewrite (bool_decide_eq_true_2 (is_Some (Some l))) by eauto.
      apply orb_true_r.
    - rewrite Hempty; [done|]. unfold rglob_gz. by rewrite Hr. }
  unfold clean_gzip_headers. rewrite Hex1, Htargets. cbn [negb].
  set (targets := rglob_gz root w) in *.
  destruct (decide (targets = [])) as [->|Hne].
  { rewrite bind_unfold, when_print. eexists. split; [done|].
    by destruct verbose'. }
  rewrite bind_unfold, when_print, bind_unfold.
  set (w0 := say_if verbose' _ w1).
  assert (Hperm : sorted targets ≡ₚ targets) by apply merge_sort_Permutation.
  assert (Hv0 : ∀ p, is_dirty w0 p = is_dirty w1 p ∧ is_bad w0 p = is_bad w1 p)
    by (intros p; apply verdict_say_if).
  destruct (visit_all_Ok dry_run' verbose' (sorted targets) (Tally 0 0 0) w0)
    as (t' & w2 & Hall & _).
  rewrite Hall. cbn [mret io_mret].
  apply visit_all_clean in Hall as (Hf & _ & ->).
  2:{ intros p Hp. rewrite Hperm in Hp. rewrite (proj1 (Hv0 p)).
      by destruct (Hst p Hp) as (-> & _). }
  exists w2. cbn [total changed errors]. split.
  - rewrite sorted_length, (count_if_Permutation _ _ _ Hperm).
    do 2 f_equal. cbn. apply count_if_ext. intros p Hp.
    rewrite (proj2 (Hv0 p)). by destruct (Hst p Hp) as (_ & -> & _).
  - rewrite Hf. unfold w0. by destruct verbose'.
Qed.

(** X15 on the ten-file dataset: (10, 3, 1), then (10, 0, 1). *)
Lemma second_run_changes_nothing_witness :
  ∃ w1 w2,
    clean_gzip_headers ds_root false false ds_ten = Ok (10, 3, 1) w1 ∧
    clean_gzip_headers ds_root false false w1 = Ok (10, 0, 1) w2 ∧
    files w2 = files w1.
Proof.
  destruct (clean_gzip_headers ds_root false false ds_ten)
    as [[[n c] e] w1|e w1|] eqn:Hrun; [|vm_compute in Hrun; discriminate..].
  assert (Hn : (n, c, e) = (10, 3, 1)).
  { revert Hrun. vm_compute. by intros [= <- <- <- _]. }
  injection Hn as -> -> ->.
  destruct (second_run_changes_nothing ds_root false ds_ten 10 3 1 w1)
    with (dry_run' := false) (verbose' := false) as (w2 & H2 & Hf);
    [reflexivity
    |apply (bool_decide_unpack _); vm_compute; exact I
    |apply (bool_decide_unpack _); vm_compute; exact I
    |exact Hrun|].
  exists w1, w2. split_and?; [reflexivity|exact H2|exact Hf].
Defined.

(** ** The temporary name *)

Lemma string_app_inv_tail s t u : s +:+ u = t +:+ u → s = t.
Proof.
  intros H. apply (f_equal String.list_ascii_of_string) in H.
  rewrite !list_ascii_app in H. apply app_inv_tail in H.
  apply (f_equal String.string_of_list_ascii) in H.
  by rewrite !String.string_of_list_ascii_of_string in H.
Qed.

Lemma path_split_last (p : path) :
  p ≠ [] → p = take (length p - 1) p ++ [name p].
Proof.
  intros Hp. destruct (exists_last Hp) as (l & a & ->). unfold name.
  rewrite length_app, last_snoc. cbn [length default].
  replace (length l + 1 - 1) with (length l) by lia.
  by rewrite take_app_length.
Qed.

(** X16. The temporary path is the original with ".tmp" appended to its
    name; it differs from the original, no run ever picks it up as a target
    (it does not match "*.gz"), and two different paths never share one. *)
Theorem tmp_name_never_a_target p :
  name (with_tmp_suffix p) = name p +:+ ".tmp" ∧
  with_tmp_suffix p ≠ p ∧
  (∀ root w, with_tmp_suffix p ∉ rglob_gz root w) ∧
  (∀ q, p ≠ [] → q ≠ [] → with_tmp_suffix p = with_tmp_suffix q → p = q).
Proof.
  split_and?.
  - apply name_with_tmp_suffix.
  - apply with_tmp_suffix_ne.
  - intros root w Hin. unfold rglob_gz in Hin.
    apply list_elem_of_filter in Hin as [Hgz _].
    by rewrite with_tmp_suffix_not_gz in Hgz.
  - intros q Hp Hq Heq. unfold with_tmp_suffix in Heq.
    apply app_inj_2 in Heq as [Ht Hn]; [|done].
    injection Hn as Hn%string_app_inv_tail.
    rewrite (path_split_last p Hp), (path_split_last q Hq). congruence.
Qed.


(** ** Verbosity *)

Lemma same_fs_say_if b b' l l' w w' :
  same_fs w w' → same_fs (say_if b l w) (say_if b' l' w').
Proof. by destruct b, b'. Qed.

Lemma needs_cleaning_same_fs p w w' :
  same_fs w w' →
  needs_cleaning p w' =
  match needs_cleaning p w with
  | Ok r _ => Ok r w'
  | Raise e _ => Raise e w'
  | Timeout => Timeout
  end.
Proof.
  intros (Hf & Ht & _). rewrite !needs_cleaning_eq, Hf, Ht.
  destruct (decide _); [done|]. destruct (files w' !! p) as [data|]; [|done].
  by destruct (header_model data).
Qed.

Lemma clean_file_same_fs p w w' :
  same_fs w w' →
  match clean_file p w, clean_file p w' with
  | Ok _ w1, Ok _ w1' => same_fs w1 w1'
  | Raise e w1, Raise e' w1' => e = e' ∧ same_fs w1 w1'
  | _, _ => False
  end.
Proof.
  intros (Hf & Ht & Hl & He). pose proof (clean_file_not_Timeout p w) as Hnt.
  revert Hnt. rewrite !clean_file_eq, Hf, Ht, Hl.
  destruct (decide _); [done|]. destruct (files w' !! p) as [data|]; [|done].
  destruct (header_model data) as [m|]; [|done]. cbv zeta.
  destruct (decide _); [done|].
  destruct (rewrite_header_only _ _) as [[] h|e h|]; [| |done];
    intros _; unfold same_fs; cbn [set_files files tree fsize_limit stderr];
    rewrite ?Hf; done.
Qed.

Lemma visit_same_fs dry_run v v' p t w w' :
  same_fs w w' →
  ∃ t1 w1 w1',
    visit dry_run v p t w = Ok t1 w1 ∧ visit dry_run v' p t w' = Ok t1 w1' ∧
    same_fs w1 w1'.
Proof.
  intros Hs. rewrite !visit_eq, (needs_cleaning_same_fs p w w' Hs).
  pose proof (needs_cleaning_world p w) as Hw.
  pose proof (clean_file_same_fs p w w' Hs) as Hc.
  destruct (needs_cleaning p w) as [[[[[nm nf] nk] flg] mt] w0|e w0|];
    [| |done].
  - cbv zeta. destruct (nm || nf); [|by eauto 10].
    destruct dry_run.
    { do 3 eexists. split_and?; [done..|]. by apply same_fs_say_if. }
    destruct (clean_file p w) as [[] w1|e w1|],
             (clean_file p w') as [[] w1'|e' w1'|]; try done.
    + do 3 eexists. split_and?; [done..|]. by apply same_fs_say_if.
    + destruct Hc as [<- Hc].
      do 3 eexists. split_and?; [done..|]. by apply same_fs_say_if.
  - do 3 eexists. split_and?; [done..|]. by apply same_fs_say_if.
Qed.

Lemma visit_all_same_fs dry_run v v' ps :
  ∀ t w w',
    same_fs w w' →
    ∃ t1 w1 w1',
      visit_all dry_run v ps t w = Ok t1 w1 ∧
      visit_all dry_run v' ps t w' = Ok t1 w1' ∧ same_fs w1 w1'.
Proof.
  induction ps as [|p ps IH]; intros t w w' Hs; [by eauto 10|].
  cbn [visit_all]. rewrite !bind_unfold.
  destruct (visit_same_fs dry_run v v' p t w w' Hs)
    as (t1 & w1 & w1' & -> & -> & Hs1).
  by apply IH.
Qed.


(** ** No target is ever left half-written *)

Lemma visit_at_target dry_run verbose p t w t' w' :
  visit dry_run verbose p t w = Ok t' w' →
  files w' !! p = files w !! p ∨
  ∃ data m, files w !! p = Some data ∧ header_model data = Val m ∧
            is_dirty w p = true ∧
            files w' !! p = Some (cleaned_bytes data m).
Proof.
  rewrite visit_eq. unfold is_dirty.
  destruct (needs_cleaning p w) as [[[[[nm nf] nk] flg] mt] w0|e w0|];
    [| |done].
  - cbv zeta. destruct (nm || nf); [|intros [= _ <-]; by left].
    destruct dry_run; [intros [= _ <-]; left; by destruct verbose|].
    destruct (clean_file p w) as [[] w1|e w1|] eqn:Hc; [| |done].
    + apply clean_file_Ok in Hc as (data & m & _ & Hf & Hm & ->).
      intros [= _ <-]. right. exists data, m. split_and?; try done.
      destruct verbose; cbn; by rewrite lookup_insert_eq.
    + intros [= _ <-]. left.
      apply clean_file_Raise in Hc as [->|[partial ->]];
        destruct verbose; cbn; try done;
        rewrite lookup_insert_ne; try done; apply with_tmp_suffix_ne.
  - intros [= _ <-]. left. by destruct verbose.
Qed.

Lemma cleaned_not_dirty w p data m :
  header_model data = Val m →
  files w !! p = Some (cleaned_bytes data m) → is_dirty w p = false.
Proof.
  intros Hm Hf. unfold is_dirty. rewrite needs_cleaning_eq, Hf.
  destruct (decide _); [done|].
  apply model_layout in Hm as (e1 & e2 & e3 & L).
  destruct (cleaned_layout _ _ _ _ _ L) as (m' & e3' & L' & Hmt & Hfn & _).
  assert (header_model (cleaned_bytes data m) = Val m') as ->
    by (apply model_layout; eauto).
  by rewrite Hmt, Hfn.
Qed.

Lemma visit_kept_or_cleaned dry_run verbose q t w0 w t' w' p :
  matches_gz p = true → kept_or_cleaned w0 w p →
  visit dry_run verbose q t w = Ok t' w' → kept_or_cleaned w0 w' p.
Proof.
  intros Hgz Hk Hv. destruct (decide (q = p)) as [->|Hq].
  - apply visit_at_target in Hv as [Hsame|(data & m & Hf & Hm & Hd & Hf')].
    + unfold kept_or_cleaned in *. by rewrite Hsame.
    + destruct Hk as [Hk|(data0 & m0 & Hf0 & Hm0 & Hk)].
      * right. exists data, m. by rewrite <- Hk.
      * by rewrite (cleaned_not_dirty w p data0 m0) in Hd.
  - apply visit_touched in Hv as (_ & _ & _ & Hf).
    unfold kept_or_cleaned in *. rewrite Hf; [done|by apply not_eq_sym|].
    by apply not_eq_sym, with_tmp_suffix_ne_gz.
Qed.

Lemma visit_all_kept_or_cleaned dry_run verbose ps p w0 :
  matches_gz p = true →
  ∀ t w t' w',
    kept_or_cleaned w0 w p →
    visit_all dry_run verbose ps t w = Ok t' w' → kept_or_cleaned w0 w' p.
Proof.
  intros Hgz. induction ps as [|q ps IH]; intros t w t' w' Hk.
  - by intros [= _ <-].
  - cbn [visit_all]. rewrite bind_unfold.
    destruct (visit dry_run verbose q t w) as [t1 w1|e w1|] eqn:Hv; [|done..].
    apply IH. by eapply visit_kept_or_cleaned.
Qed.

(** X18. Whatever fails during a run, every [*.gz] file holds afterwards
    either the bytes it held before or the complete rewrite of these bytes;
    none is left truncated or half-written. *)
Theorem run_never_corrupts root dry_run verbose w :
  match clean_gzip_headers root dry_run verbose w with
  | Ok _ w' | Raise _ w' =>
      ∀ p, matches_gz p = true →
        files w' !! p = files w !! p ∨
        ∃ data m f,
          files w !! p = Some data ∧
          parse_gzip_header (open_rb data) = Ok m f ∧
          files w' !! p = Some (cleaned_bytes data m)
  | Timeout => False
  end.
Proof.
  unfold clean_gzip_headers. destruct (negb (path_exists root w)); [by left|].
  destruct (decide (rglob_gz root w = [])).
  { rewrite bind_unfold, when_print. cbn. intros p _. left. by destruct verbose. }
  rewrite bind_unfold, when_print, bind_unfold.
  set (w0 := say_if verbose _ w).
  destruct (visit_all_Ok dry_run verbose (sorted (rglob_gz root w))
              (Tally 0 0 0) w0) as (t' & w' & Hall & _).
  rewrite Hall. cbn [mret io_mret]. intros p Hgz.
  assert (Hf0 : files w0 = files w) by (unfold w0; by destruct verbose).
  destruct (visit_all_kept_or_cleaned _ _ _ p w0 Hgz _ _ _ _
              (or_introl eq_refl) Hall)
    as [Hk|(data & m & Hf & Hm & Hk)].
  - left. by rewrite Hk, Hf0.
  - right. exists data, m, (RFile data (payload_start (m_off m))).
    rewrite <- Hf0. split_and?; try done. by apply parse_Ok.
Qed.

(** ** What a run does to the file system *)

Lemma matches_gz_nonempty p : matches_gz p = true → p ≠ [].
Proof. by intros H ->. Qed.

Lemma with_tmp_suffix_inj p q :
  p ≠ [] → q ≠ [] → with_tmp_suffix p = with_tmp_suffix q → p = q.
Proof.
  intros Hp Hq Heq. unfold with_tmp_suffix in Heq.
  apply app_inj_2 in Heq as [Ht Hn]; [|done].
  injection Hn as Hn%string_app_inv_tail.
  rewrite (path_split_last p Hp), (path_split_last q Hq). congruence.
Qed.

(** One iteration, seen at the entry it visits and at its temporary name. *)
Lemma visit_target dry_run verbose p t w t' w' :
  visit dry_run verbose p t w = Ok t' w' →
  (files w' !! p = files w !! p ∧
   (files w' !! with_tmp_suffix p = files w !! with_tmp_suffix p ∨
    ∃ data m partial,
      files w !! p = Some data ∧ header_model data = Val m ∧
      is_dirty w p = true ∧
      files w' !! with_tmp_suffix p = Some partial ∧
      partial `prefix_of` cleaned_bytes data m)) ∨
  (∃ data m,
     files w !! p = Some data ∧ header_model data = Val m ∧
     is_dirty w p = true ∧
     files w' !! p = Some (cleaned_bytes data m) ∧
     files w' !! with_tmp_suffix p = None).
Proof.
  pose proof (with_tmp_suffix_ne p) as Hne.
  rewrite visit_eq. unfold is_dirty.
  destruct (needs_cleaning p w) as [[[[[nm nf] nk] flg] mt] w0|e w0|];
    [| |done].
  - cbv zeta. destruct (nm || nf); [|intros [= _ <-]; left; auto].
    destruct dry_run; [intros [= _ <-]; left; destruct verbose; auto|].
    destruct (clean_file p w) as [[] w1|e w1|] eqn:Hc; [| |done].
    + apply clean_file_Ok in Hc as (data & m & _ & Hf & Hm & ->).
      intros [= _ <-]. right. exists data, m. split_and?; try done.
      * destruct verbose; cbn; by rewrite lookup_insert_eq.
      * destruct verbose; cbn;
          by rewrite lookup_insert_ne, lookup_delete_eq.
    + intros [= _ <-]. left.
      apply clean_file_Raise_written in Hc
        as [->|(data & m & partial & Hf & Hm & _ & Hp & ->)].
      * destruct verbose; auto.
      * split.
        -- destruct verbose; cbn; by rewrite lookup_insert_ne.
        -- right. exists data, m, partial. split_and?; try done.
           destruct verbose; cbn; by rewrite lookup_insert_eq.
  - intros [= _ <-]. left. destruct verbose; auto.
Qed.

Lemma visit_target_state dry_run verbose q t w0 w t' w' p :
  matches_gz p = true → matches_gz q = true → target_state w0 w p →
  visit dry_run verbose q t w = Ok t' w' → target_state w0 w' p.
Proof.
  intros Hgz Hgq Hst Hv. destruct (decide (q = p)) as [->|Hq].
  - apply visit_target in Hv
      as [[Hp Ht]|(data & m & Hf & Hm & Hd & Hp & Ht)].
    + destruct Hst as [[Hp0 Ht0]|(data0 & m0 & Hf0 & Hm0 & Hp0 & Ht0)].
      * left. split; [congruence|].
        destruct Ht as [Ht|(data & m & partial & Hf & Hm & _ & Ht & Hpre)].
        -- destruct Ht0 as [Ht0|(data0 & m0 & partial0 & ? & ? & ? & ?)].
           ++ left. congruence.
           ++ right. exists data0, m0, partial0. split_and?; try done.
              congruence.
        -- right. exists data, m, partial. split_and?; try done. congruence.
      * right. exists data0, m0. split_and?; try done; [congruence|].
        destruct Ht as [Ht|(data & m & partial & Hf & Hm & Hd & _)];
          [congruence|].
        by rewrite (cleaned_not_dirty w p data0 m0) in Hd.
    + destruct Hst as [[Hp0 Ht0]|(data0 & m0 & Hf0 & Hm0 & Hp0 & Ht0)].
      * right. exists data, m. split_and?; try done. congruence.
      * by rewrite (cleaned_not_dirty w p data0 m0) in Hd.
  - pose proof (visit_touched _ _ _ _ _ _ _ Hv) as (_ & _ & _ & Hf).
    assert (Hp : files w' !! p = files w !! p).
    { apply Hf; [by apply not_eq_sym|].
      by apply not_eq_sym, with_tmp_suffix_ne_gz. }
    assert (Ht : files w' !! with_tmp_suffix p =
                 files w !! with_tmp_suffix p).
    { apply Hf.
      - intros Heq. pose proof (with_tmp_suffix_not_gz p) as Hn.
        rewrite Heq in Hn. congruence.
      - intros Heq. apply Hq. symmetry.
        apply with_tmp_suffix_inj; [by apply matches_gz_nonempty..|done]. }
    unfold target_state in *. rewrite Hp, Ht. done.
Qed.

Lemma visit_all_target_state dry_run verbose ps p w0 :
  matches_gz p = true → Forall (λ q, matches_gz q = true) ps →
  ∀ t w t' w',
    target_state w0 w p →
    visit_all dry_run verbose ps t w = Ok t' w' → target_state w0 w' p.
Proof.
  intros Hgz. induction ps as [|q ps IH]; intros Hps t w t' w' Hst.
  - by intros [= _ <-].
  - apply Forall_cons in Hps as [Hq Hps].
    cbn [visit_all]. rewrite bind_unfold.
    destruct (visit dry_run verbose q t w) as [t1 w1|e w1|] eqn:Hv; [|done..].
    apply IH; [done|]. by eapply visit_target_state.
Qed.

(** X9. What a run can do to the file system.  It prints nothing on
    standard error, and every file that is neither a [*.gz] entry found
    under the directory nor the temporary name of one keeps its bytes.  Each
    entry ends in one of two states: it holds its former bytes, and its
    temporary name is as it was before the run or holds the start of a
    rewrite that failed; or it holds its cleaned bytes, and its temporary
    name does not exist (a file of that name from before the run is gone). *)
Theorem run_touches_only_targets root dry_run verbose w :
  match clean_gzip_headers root dry_run verbose w with
  | Ok _ w' | Raise _ w' =>
      stderr w' = stderr w ∧
      (∀ q, q ∉ rglob_gz root w →
            (∀ p, p ∈ rglob_gz root w → q ≠ with_tmp_suffix p) →
            files w' !! q = files w !! q) ∧
      ∀ p, p ∈ rglob_gz root w →
        (files w' !! p = files w !! p ∧
         (files w' !! with_tmp_suffix p = files w !! with_tmp_suffix p ∨
          ∃ data m f partial,
            files w !! p = Some data ∧
            parse_gzip_header (open_rb data) = Ok m f ∧
            files w' !! with_tmp_suffix p = Some partial ∧
            partial `prefix_of` cleaned_bytes data m)) ∨
        (∃ data m f,
           files w !! p = Some data ∧
           parse_gzip_header (open_rb data) = Ok m f ∧
           files w' !! p = Some (cleaned_bytes data m) ∧
           files w' !! with_tmp_suffix p = None)
  | Timeout => False
  end.
Proof.
  pose proof (run_touched root dry_run verbose w) as H.
  assert (Hst : match clean_gzip_headers root dry_run verbose w with
                | Ok _ w' | Raise _ w' =>
                    ∀ p, p ∈ rglob_gz root w → target_state w w' p
                | Timeout => True
                end).
  { unfold clean_gzip_headers.
    destruct (negb (path_exists root w)); [intros p _; left; auto|].
    destruct (decide (rglob_gz root w = [])) as [Hnil|Hne].
    { rewrite bind_unfold, when_print. cbn. intros p Hp.
      rewrite Hnil in Hp. by apply elem_of_nil in Hp. }
    rewrite bind_unfold, when_print, bind_unfold.
    set (w0 := say_if verbose _ w).
    destruct (visit_all_Ok dry_run verbose (sorted (rglob_gz root w))
                (Tally 0 0 0) w0) as (t' & w' & Hall & _).
    rewrite Hall. cbn [mret io_mret]. intros p Hp.
    assert (Hperm : sorted (rglob_gz root w) ≡ₚ rglob_gz root w)
      by apply merge_sort_Permutation.
    assert (Hgz : Forall (λ q, matches_gz q = true) (sorted (rglob_gz root w))).
    { rewrite Hperm. apply Forall_forall. intros q Hq.
      unfold rglob_gz in Hq. by apply list_elem_of_filter in Hq as [? _]. }
    assert (Hf0 : files w0 = files w) by (unfold w0; by destruct verbose).
    assert (Hst0 : target_state w0 w0 p) by (left; auto).
    pose proof (visit_all_target_state _ _ _ p w0
                  (proj1 (Forall_forall _ _) Hgz p
                     ltac:(by rewrite Hperm))
                  Hgz _ _ _ _ Hst0 Hall) as Hst.
    unfold target_state in *. by rewrite Hf0 in Hst. }
  destruct (clean_gzip_headers root dry_run verbose w) as [r w'|e w'|];
    [| |done].
  all: destruct H as (_ & _ & He & Hf); split_and?; [done| |].
  all: try (intros q Hq Hq'; apply Hf; intros p Hp; split; [|by apply Hq'];
            intros ->; done).
  all: intros p Hp;
    destruct (Hst p Hp) as [[Hp0 Ht]|(data & m & Hf0 & Hm & Hp0 & Ht)];
    [left; split; [done|];
     destruct Ht as [Ht|(data & m & partial & Hf0 & Hm & Ht & Hpre)];
     [by left|];
     right; exists data, m, (RFile data (payload_start (m_off m))), partial;
     split_and?; try done; by apply parse_Ok
    |right; exists data, m, (RFile data (payload_start (m_off m)));
     split_and?; try done; by apply parse_Ok].
Qed.
